(** * Liquid level widget (ui-ngx, liquid-level-widget.component.ts)

    A shallow embedding of [LiquidLevelWidgetComponent]: the level position
    calculator, the unit normalisation of incoming readings, the resolver of
    shape and secondary values, the update sequence over the rendered
    elements and the tooltip content builder. *)

From Stdlib Require Import ZArith QArith Qround Qabs Lqa Lia Bool List String Ascii.
From Stdlib Require Import DecimalString Floats.
Import ListNotations.

Set Implicit Arguments.

(** ** Numbers

    The component computes with the host language's [number].  The operations
    the source uses are gathered in an interface, so that each function below
    is written once, the way the source writes it, and can be read at IEEE
    binary64 (what the engine runs) and at exact rational arithmetic. *)

Class Number (num : Type) : Type := {
  n0 : num;                          (* the literal 0 *)
  n100 : num;                        (* the literal 100 *)
  nadd : num -> num -> num;          (* a + b *)
  nsub : num -> num -> num;          (* a - b *)
  nmul : num -> num -> num;          (* a * b *)
  ndiv : num -> num -> num;          (* a / b *)
  nleb : num -> num -> bool;         (* a <= b *)
  nltb : num -> num -> bool;         (* a < b *)
  nisNaN : num -> bool               (* isNaN(a) *)
}.

Declare Scope num_scope.
Delimit Scope num_scope with num.
Infix "+" := nadd : num_scope.
Infix "-" := nsub : num_scope.
Infix "*" := nmul : num_scope.
Infix "/" := ndiv : num_scope.
Infix "<=?" := nleb : num_scope.
Infix "<?" := nltb : num_scope.
(* [a >= b] is [b <= a], also on NaN, where both are false. *)
Notation "a >=? b" := (nleb b a) (at level 70, no associativity) : num_scope.

(** The facts about the order the position calculator relies on. *)
Class NumberOrder (num : Type) {N : Number num} : Prop := {
  nltb_not_geb : forall a b : num, (a <? b)%num = true -> (a >=? b)%num = false;
  nleb_0_not_geb_100 : forall p : num, (p <=? n0)%num = true -> (p >=? n100)%num = false;
  nleb_0_0 : nleb (n0 : num) n0 = true;
  nleb_100_100 : nleb (n100 : num) n100 = true
}.
Arguments NumberOrder num {N}.

(** IEEE 754 binary64. *)
#[export] Instance Number_float : Number float := {
  n0 := 0%float;
  n100 := 100%float;
  nadd := PrimFloat.add;
  nsub := PrimFloat.sub;
  nmul := PrimFloat.mul;
  ndiv := PrimFloat.div;
  nleb := PrimFloat.leb;
  nltb := PrimFloat.ltb;
  nisNaN := PrimFloat.is_nan
}.

(** Exact rationals: no rounding, no NaN, no infinities ([a / 0] is 0 where
    doubles give an infinity or NaN; no statement below divides by a
    variable at this instance). *)
Definition Qltb (a b : Q) : bool := negb (Qle_bool b a).

#[export] Instance Number_Q : Number Q := {
  n0 := 0%Q;
  n100 := 100%Q;
  nadd := Qplus;
  nsub := Qminus;
  nmul := Qmult;
  ndiv := Qdiv;
  nleb := Qle_bool;
  nltb := Qltb;
  nisNaN := fun _ => false
}.

(** ** Level position calculator *)

Record SvgLimits (num : Type) : Type := mkLimits { min : num; max : num }.

Section Position.
Context {num : Type} {N : Number num}.
Local Open Scope num_scope.

(** [calculatePosition(percentage, limits)], lines 317-324. *)
Definition calculatePosition (percentage : num) (limits : SvgLimits num) : num :=
  if percentage >=? n100 then max limits
  else if percentage <=? n0 then min limits
  else min limits + (percentage / n100) * (max limits - min limits).
End Position.

(** ** Values of the host language

    What arrives from the data stream and from the attribute service is
    untyped ([any]); the component tests it before use. *)

Inductive any (num : Type) : Type :=
| Undefined
| Null
| Num (n : num)
| Str (s : string)
| Bool (b : bool)
| Obj.
Arguments Undefined {num}.
Arguments Null {num}.
Arguments Num {num} n.
Arguments Str {num} s.
Arguments Bool {num} b.
Arguments Obj {num}.

(** JS objects with string keys, in insertion order. *)
Definition obj (V : Type) : Type := list (string * V).

Fixpoint objGet {V : Type} (k : string) (o : obj V) : option V :=
  match o with
  | [] => None
  | (k', v) :: o' => if String.eqb k k' then Some v else objGet k o'
  end.

(** [o[k] = v]: an existing key keeps its place, a new one goes last. *)
Fixpoint objSet {V : Type} (k : string) (v : V) (o : obj V) : obj V :=
  match o with
  | [] => [(k, v)]
  | (k', v') :: o' =>
      if String.eqb k k' then (k, v) :: o' else (k', v') :: objSet k v o'
  end.

Fixpoint objRemove {V : Type} (k : string) (o : obj V) : obj V :=
  match o with
  | [] => []
  | (k', v') :: o' =>
      if String.eqb k k' then objRemove k o' else (k', v') :: objRemove k o'
  end.

Section Utils.
Context {num : Type} {N : Number num}.
Local Open Scope num_scope.

(** Modelled from the spec: [isDefined] of @core/utils is not under src;
    "defined" is read as the host's [typeof value !== 'undefined']. *)
Definition isDefined (v : any num) : bool :=
  match v with Undefined => false | _ => true end.

(** Modelled from the spec: [isDefinedAndNotNull] of @core/utils is not
    under src; an "undefined/null value" (4.4) fails it, any other passes. *)
Definition isDefinedAndNotNull (v : any num) : bool :=
  match v with Undefined | Null => false | _ => true end.

(** Modelled from the spec: [isNumber] of @core/utils is not under src;
    "numeric" (3, 4.4) is read as the host's [typeof value === 'number'].
    Where the source tests [isNumber(x)] and then uses [x] as a number, the
    methods below match on [Num]. *)
Definition isNumber (v : any num) : bool :=
  match v with Num _ => true | _ => false end.

(** Modelled from the spec: [isString] of @core/utils is not under src;
    read as the host's [typeof value === 'string']. *)
Definition isString (v : any num) : bool :=
  match v with Str _ => true | _ => false end.

(** Truthiness of a number: everything but 0, -0 and NaN. *)
Definition truthyNum (n : num) : bool :=
  negb (nisNaN n) && negb ((n <=? n0) && (n0 <=? n)).

Definition truthyStr (s : string) : bool :=
  match s with EmptyString => false | _ => true end.

Definition truthy (v : any num) : bool :=
  match v with
  | Undefined | Null => false
  | Num n => truthyNum n
  | Str s => truthyStr s
  | Bool b => b
  | Obj => true
  end.

(** [v === s] and [v !== s] for a string constant [s]. *)
Definition strictEqStr (v : any num) (s : string) : bool :=
  match v with Str t => String.eqb t s | _ => false end.
End Utils.

(** ** The rendered elements

    The elements of the template under the container, in document order.  A
    jQuery object is the list of the positions it matched.  [html(content)]
    on an element of the template is recorded on that element: what the
    content would parse to is not materialised, so the statements below are
    about the elements of the template, and none of them is about the
    children a readout container holds. *)

Record Element (num : Type) : Type := mkElement {
  tag : string;
  classes : list string;
  attrs : obj string;                       (* attr(name, value) *)
  style : obj (any num);                    (* css(name, value) *)
  animations : list (string * num * Z);     (* animate({name: target}, ms), oldest first *)
  html : option string;                     (* html(content) *)
  click : bool                              (* on('click', cardClick) *)
}.

Definition JQuery : Type := list nat.

Section Dom.
Context {num : Type}.

Definition hasClass (cls : string) (e : Element num) : bool :=
  existsb (String.eqb cls) (classes e).

Definition selected (i : nat) (sel : JQuery) : bool := existsb (Nat.eqb i) sel.

Fixpoint positions (p : Element num -> bool) (i : nat) (d : list (Element num)) : JQuery :=
  match d with
  | [] => []
  | e :: d' => if p e then i :: positions p (S i) d' else positions p (S i) d'
  end.

(** [container.find('.cls')] and [container.find('tagname')]. *)
Definition findClass (cls : string) (d : list (Element num)) : JQuery :=
  positions (hasClass cls) 0 d.
Definition findTag (t : string) (d : list (Element num)) : JQuery :=
  positions (fun e => String.eqb t (tag e)) 0 d.

Fixpoint domMapFrom (i : nat) (sel : JQuery) (f : Element num -> Element num)
         (d : list (Element num)) : list (Element num) :=
  match d with
  | [] => []
  | e :: d' =>
      (if selected i sel then f e else e) :: domMapFrom (S i) sel f d'
  end.

(** Every setter of a jQuery object, and [each], applies one change to
    each matched element. *)
Definition each (sel : JQuery) (f : Element num -> Element num) (d : list (Element num)) :=
  domMapFrom 0 sel f d.

Definition setAttr (name value : string) (e : Element num) : Element num :=
  mkElement (tag e) (classes e) (objSet name value (attrs e)) (style e)
            (animations e) (html e) (click e).
Definition dropAttr (name : string) (e : Element num) : Element num :=
  mkElement (tag e) (classes e) (objRemove name (attrs e)) (style e)
            (animations e) (html e) (click e).
Definition setCss (name : string) (value : any num) (e : Element num) : Element num :=
  mkElement (tag e) (classes e) (attrs e) (objSet name value (style e))
            (animations e) (html e) (click e).
Definition addAnimation (name : string) (target : num) (ms : Z) (e : Element num) : Element num :=
  mkElement (tag e) (classes e) (attrs e) (style e)
            (animations e ++ [(name, target, ms)]) (html e) (click e).
Definition setHtml (content : string) (e : Element num) : Element num :=
  mkElement (tag e) (classes e) (attrs e) (style e) (animations e)
            (Some content) (click e).
Definition onClick (e : Element num) : Element num :=
  mkElement (tag e) (classes e) (attrs e) (style e) (animations e) (html e) true.

Definition jq_attr sel name value := each sel (setAttr name value).
Definition jq_removeAttr sel name := each sel (dropAttr name).
Definition jq_css sel name value := each sel (setCss name value).
Definition jq_animate sel name target ms := each sel (addAnimation name target ms).
Definition jq_html sel content := each sel (setHtml content).
Definition jq_onClick sel := each sel onClick.
End Dom.

(** ** Declarations of liquid-level-widget.models and their neighbours *)

(** Modelled from the spec: the enum [ConversionType] is declared in
    liquid-level-widget.models, not under src; the spec (3) gives its two
    directions, to-normalized and from-normalized. *)
Inductive ConversionType : Type := ConversionType_to | ConversionType_from.

(** Modelled from the spec: the enum [LiquidWidgetDataSourceType] is declared
    in liquid-level-widget.models, not under src; the spec (3, 4.2) gives its
    two sources, a static constant and an attribute of the bound entity. *)
Inductive LiquidWidgetDataSourceType : Type := attribute | static.

Definition LiquidWidgetDataSourceType_eqb (a b : LiquidWidgetDataSourceType) : bool :=
  match a, b with
  | attribute, attribute | static, static => true
  | _, _ => false
  end.

(** Modelled from the spec: the enum [LevelCardLayout] is declared in
    liquid-level-widget.models, not under src; the spec (3) gives the layout
    modes none, percentage and absolute. *)
Inductive LevelCardLayout : Type := absolute | percentage | none.

Record SvgInfo (num : Type) : Type := mkSvgInfo {
  svgUrl : string;                (* SvgInfo.svg *)
  limits : SvgLimits num
}.

Record EntityId : Type := mkEntityId { entityType : string; id : string }.

(** The instance a tooltipster call returns. *)
Record Tooltip : Type := mkTooltip {
  distance : Z;
  content : option string
}.

(** What the component imports and does not define: the helpers of
    liquid-level-widget.models and widget-settings.models, the host's own
    [Number(..)] and [toFixed], and the services reached through the widget
    context.  [x.toFixed(digits)] throws a RangeError when [digits],
    truncated to an integer, is not within 0..100: that is [None].  A
    request that fails or is never answered gives [None].  [convertLiters],
    the unit conversion, is a parameter of its own of the methods below. *)
Class Host (num : Type) : Type := {
  (* the host language *)
  toNumber : any num -> num;                           (* Number(v) *)
  toFixed : num -> num -> option string;               (* x.toFixed(digits) *)
  (* liquid-level-widget.models *)
  percent : string;                                    (* CapacityUnits.percent *)
  vCylinder : string;                                  (* Shapes.vCylinder *)
  svgMapping : any num -> option (SvgInfo num);        (* svgMapping.get *)
  extractValue : obj (any num) -> string -> any num -> any num;
  createAbsoluteLayout : string * string -> string * string -> any num -> string;
  createPercentLayout : string -> string -> string;
  NULL_UUID : string;
  (* widget-settings.models *)
  ColorSettings : Type;
  ColorProcessor : Type;
  ColorProcessor_fromSettings : ColorSettings -> ColorProcessor;
  ColorProcessor_update : ColorProcessor -> any num -> ColorProcessor;
  color : ColorProcessor -> string;
  DateFormatSettings : Type;
  DateFormatProcessor : Type;
  DateFormatProcessor_fromSettings : DateFormatSettings -> DateFormatProcessor;
  DateFormatProcessor_update : DateFormatProcessor -> num -> DateFormatProcessor;
  formatted : DateFormatProcessor -> string;
  Font : Type;
  inlineTextStyle : Font -> obj string;
  cssTextFromInlineStyle : obj string -> string;
  (* services of the widget context and of jQuery *)
  translate_instant : string -> string;
  parseMarkup : string -> list (Element num);          (* html(markup) *)
  getEntityAttributes : EntityId -> list string -> option (obj (any num));
  loadJsonResource : string -> option (any num)
}.

Module Settings.
(** [LevelCardWidgetSettings], the fields the component reads. *)
Record LevelCardWidgetSettings {num : Type} {H : Host num} : Type := {
  tankSelectionType : LiquidWidgetDataSourceType;
  selectedShape : string;
  shapeAttributeName : string;
  datasourceUnits : string;
  layout : LevelCardLayout;
  volumeSource : LiquidWidgetDataSourceType;
  volumeConstant : num;
  volumeAttributeName : string;
  volumeUnits : string;
  volumeFont : Font;
  volumeColor : string;
  units : string;
  widgetUnitsSource : LiquidWidgetDataSourceType;
  widgetUnitsAttributeName : string;
  decimals : num;
  valueFont : Font;
  valueColor : ColorSettings;
  tankColor : ColorSettings;
  liquidColor : ColorSettings;
  showBackgroundOverlay : bool;
  backgroundOverlayColor : ColorSettings;
  showTooltip : bool;
  showTooltipLevel : bool;
  tooltipUnits : string;
  tooltipLevelDecimals : num;
  tooltipLevelFont : Font;
  tooltipLevelColor : ColorSettings;
  showTooltipDate : bool;
  tooltipDateFormat : DateFormatSettings;
  tooltipDateFont : Font;
  tooltipDateColor : string;
  showTitle : bool
}.
Arguments LevelCardWidgetSettings num {H}.
End Settings.

(** What [getData] hands to its subscriber when a template was found. *)
Record Resources (num : Type) : Type := mkResources {
  r_svg : any num;
  r_volume : any num;
  r_units : any num
}.

(** The component: its private fields, the elements under its container
    ([elementRef.nativeElement]) and, for the statements about fetches, the
    calls it has made on the attribute service and the resource loader.
    [svg], [svgParams], [tooltip] and [overlayContainer] are [None] while
    the field is undefined; [shape] and [widgetUnits] hold what the
    attribute service sent, untyped; [volume] and [tooltipContent] are read
    at their declared types.  The state a component is constructed in is a
    parameter of every statement. *)
Record Component {num : Type} {H : Host num} : Type := mkComponent {
  svgParams : option (SvgInfo num);
  svg : option JQuery;
  tooltip : option Tooltip;
  overlayContainer : option JQuery;
  shape : any num;
  tankColor : ColorProcessor;
  valueColor : ColorProcessor;
  liquidColor : ColorProcessor;
  backgroundOverlayColor : ColorProcessor;
  tooltipLevelColor : ColorProcessor;
  tooltipDateFormat : DateFormatProcessor;
  volume : num;
  tooltipContent : string;
  widgetUnits : any num;
  dom : list (Element num);
  attributeRequests : list (EntityId * list string);
  resourceRequests : list string
}.
Arguments Component num {H}.
Arguments mkComponent {num H}.

Section Fields.
Context {num : Type} {H : Host num}.
Implicit Type c : Component num.

Definition set_svgParams v c :=
  mkComponent v (svg c) (tooltip c) (overlayContainer c) (shape c) (tankColor c)
    (valueColor c) (liquidColor c) (backgroundOverlayColor c) (tooltipLevelColor c)
    (tooltipDateFormat c) (volume c) (tooltipContent c) (widgetUnits c) (dom c)
    (attributeRequests c) (resourceRequests c).
Definition set_svg v c :=
  mkComponent (svgParams c) v (tooltip c) (overlayContainer c) (shape c) (tankColor c)
    (valueColor c) (liquidColor c) (backgroundOverlayColor c) (tooltipLevelColor c)
    (tooltipDateFormat c) (volume c) (tooltipContent c) (widgetUnits c) (dom c)
    (attributeRequests c) (resourceRequests c).
Definition set_tooltip v c :=
  mkComponent (svgParams c) (svg c) v (overlayContainer c) (shape c) (tankColor c)
    (valueColor c) (liquidColor c) (backgroundOverlayColor c) (tooltipLevelColor c)
    (tooltipDateFormat c) (volume c) (tooltipContent c) (widgetUnits c) (dom c)
    (attributeRequests c) (resourceRequests c).
Definition set_overlayContainer v c :=
  mkComponent (svgParams c) (svg c) (tooltip c) v (shape c) (tankColor c)
    (valueColor c) (liquidColor c) (backgroundOverlayColor c) (tooltipLevelColor c)
    (tooltipDateFormat c) (volume c) (tooltipContent c) (widgetUnits c) (dom c)
    (attributeRequests c) (resourceRequests c).
Definition set_shape v c :=
  mkComponent (svgParams c) (svg c) (tooltip c) (overlayContainer c) v (tankColor c)
    (valueColor c) (liquidColor c) (backgroundOverlayColor c) (tooltipLevelColor c)
    (tooltipDateFormat c) (volume c) (tooltipContent c) (widgetUnits c) (dom c)
    (attributeRequests c) (resourceRequests c).
Definition set_tankColor v c :=
  mkComponent (svgParams c) (svg c) (tooltip c) (overlayContainer c) (shape c) v
    (valueColor c) (liquidColor c) (backgroundOverlayColor c) (tooltipLevelColor c)
    (tooltipDateFormat c) (volume c) (tooltipContent c) (widgetUnits c) (dom c)
    (attributeRequests c) (resourceRequests c).
Definition set_valueColor v c :=
  mkComponent (svgParams c) (svg c) (tooltip c) (overlayContainer c) (shape c) (tankColor c)
    v (liquidColor c) (backgroundOverlayColor c) (tooltipLevelColor c)
    (tooltipDateFormat c) (volume c) (tooltipContent c) (widgetUnits c) (dom c)
    (attributeRequests c) (resourceRequests c).
Definition set_liquidColor v c :=
  mkComponent (svgParams c) (svg c) (tooltip c) (overlayContainer c) (shape c) (tankColor c)
    (valueColor c) v (backgroundOverlayColor c) (tooltipLevelColor c)
    (tooltipDateFormat c) (volume c) (tooltipContent c) (widgetUnits c) (dom c)
    (attributeRequests c) (resourceRequests c).
Definition set_backgroundOverlayColor v c :=
  mkComponent (svgParams c) (svg c) (tooltip c) (overlayContainer c) (shape c) (tankColor c)
    (valueColor c) (liquidColor c) v (tooltipLevelColor c)
    (tooltipDateFormat c) (volume c) (tooltipContent c) (widgetUnits c) (dom c)
    (attributeRequests c) (resourceRequests c).
Definition set_tooltipLevelColor v c :=
  mkComponent (svgParams c) (svg c) (tooltip c) (overlayContainer c) (shape c) (tankColor c)
    (valueColor c) (liquidColor c) (backgroundOverlayColor c) v
    (tooltipDateFormat c) (volume c) (tooltipContent c) (widgetUnits c) (dom c)
    (attributeRequests c) (resourceRequests c).
Definition set_tooltipDateFormat v c :=
  mkComponent (svgParams c) (svg c) (tooltip c) (overlayContainer c) (shape c) (tankColor c)
    (valueColor c) (liquidColor c) (backgroundOverlayColor c) (tooltipLevelColor c)
    v (volume c) (tooltipContent c) (widgetUnits c) (dom c)
    (attributeRequests c) (resourceRequests c).
Definition set_volume v c :=
  mkComponent (svgParams c) (svg c) (tooltip c) (overlayContainer c) (shape c) (tankColor c)
    (valueColor c) (liquidColor c) (backgroundOverlayColor c) (tooltipLevelColor c)
    (tooltipDateFormat c) v (tooltipContent c) (widgetUnits c) (dom c)
    (attributeRequests c) (resourceRequests c).
Definition set_tooltipContent v c :=
  mkComponent (svgParams c) (svg c) (tooltip c) (overlayContainer c) (shape c) (tankColor c)
    (valueColor c) (liquidColor c) (backgroundOverlayColor c) (tooltipLevelColor c)
    (tooltipDateFormat c) (volume c) v (widgetUnits c) (dom c)
    (attributeRequests c) (resourceRequests c).
Definition set_widgetUnits v c :=
  mkComponent (svgParams c) (svg c) (tooltip c) (overlayContainer c) (shape c) (tankColor c)
    (valueColor c) (liquidColor c) (backgroundOverlayColor c) (tooltipLevelColor c)
    (tooltipDateFormat c) (volume c) (tooltipContent c) v (dom c)
    (attributeRequests c) (resourceRequests c).
Definition set_dom v c :=
  mkComponent (svgParams c) (svg c) (tooltip c) (overlayContainer c) (shape c) (tankColor c)
    (valueColor c) (liquidColor c) (backgroundOverlayColor c) (tooltipLevelColor c)
    (tooltipDateFormat c) (volume c) (tooltipContent c) (widgetUnits c) v
    (attributeRequests c) (resourceRequests c).
Definition set_attributeRequests v c :=
  mkComponent (svgParams c) (svg c) (tooltip c) (overlayContainer c) (shape c) (tankColor c)
    (valueColor c) (liquidColor c) (backgroundOverlayColor c) (tooltipLevelColor c)
    (tooltipDateFormat c) (volume c) (tooltipContent c) (widgetUnits c) (dom c)
    v (resourceRequests c).
Definition set_resourceRequests v c :=
  mkComponent (svgParams c) (svg c) (tooltip c) (overlayContainer c) (shape c) (tankColor c)
    (valueColor c) (liquidColor c) (backgroundOverlayColor c) (tooltipLevelColor c)
    (tooltipDateFormat c) (volume c) (tooltipContent c) (widgetUnits c) (dom c)
    (attributeRequests c) v.

(** A jQuery call on a set of elements under the container. *)
Definition onDom (f : list (Element num) -> list (Element num)) c := set_dom (f (dom c)) c.
End Fields.

(** ** The component's methods

    [convertLiters] is the unit conversion of liquid-level-widget.models
    (value, unit, direction); [settings] is the merged settings object, assigned once when [ngOnInit]
    starts and read-only afterwards; [datasource] is the entity of
    [ctx.datasources[0]].  The measurements of a tick ([ctx.data]) are an
    argument of [update].  A method that can throw returns an [option],
    [None] for the exception: the TypeError of reading the limits of an
    undefined [svgParams], and the RangeError of [toFixed].  What the
    component looked like when the exception left it is not kept: a caller
    that is given [None] is given nothing else. *)

Section Widget.
Context {num : Type} {N : Number num} {H : Host num}.
Variable convertLiters : num -> any num -> ConversionType -> num.
Variable settings : Settings.LevelCardWidgetSettings num.
Variable datasource : EntityId.
Local Open Scope num_scope.
Local Open Scope string_scope.
Implicit Type c : Component num.

Definition NA : string := "N/A".
Definition dq : string := String "034"%char "".
Definition nl : string := String "010"%char "".

(** [x || 0] on numbers. *)
Definition orZero (x : num) : num := if truthyNum x then x else n0.

(** [convertInputData(value)], lines 472-479. *)
Definition convertInputData c (value : num) : num :=
  if negb (String.eqb (Settings.datasourceUnits settings) percent) then
    (convertLiters value (Str (Settings.datasourceUnits settings)) ConversionType_to /
     convertLiters (volume c) (Str (Settings.volumeUnits settings)) ConversionType_to) * n100
  else value.

(** [convertOutputData(value)], lines 481-487. *)
Definition convertOutputData c (value : num) : num :=
  if negb (strictEqStr (widgetUnits c) percent) then
    convertLiters (volume c * (value / n100)) (Str (Settings.volumeUnits settings))
                  ConversionType_to
  else value.

(** [convertTooltipData(value)], lines 489-498. *)
Definition convertTooltipData c (value : num) : num :=
  let percentage := convertInputData c value in
  if negb (String.eqb (Settings.tooltipUnits settings) percent) then
    let liters := convertOutputData c percentage in
    convertLiters liters (Str (Settings.tooltipUnits settings)) ConversionType_from
  else percentage.

(** [declareStyles()], lines 117-125. *)
Definition declareStyles c : Component num :=
  let c := set_tankColor (ColorProcessor_fromSettings (Settings.tankColor settings)) c in
  let c := set_valueColor (ColorProcessor_fromSettings (Settings.valueColor settings)) c in
  let c := set_liquidColor (ColorProcessor_fromSettings (Settings.liquidColor settings)) c in
  let c := set_backgroundOverlayColor
             (ColorProcessor_fromSettings (Settings.backgroundOverlayColor settings)) c in
  let c := set_tooltipLevelColor
             (ColorProcessor_fromSettings (Settings.tooltipLevelColor settings)) c in
  set_tooltipDateFormat
    (DateFormatProcessor_fromSettings (Settings.tooltipDateFormat settings)) c.

(** [createSVG()], lines 164-171. *)
Definition createSVG c : Component num :=
  match svg c with
  | Some s =>
      let c := onDom (jq_css s "display" (Str "block")) c in
      let c := onDom (jq_css s "overflow" (Str "hidden")) c in
      let c := onDom (jq_css s "width" (Str "100%")) c in
      onDom (jq_css s "height" (Str "100%")) c
  | None => c
  end.

(** [createTooltipContent(labelText, contentValue, textStyle)], lines 461-470. *)
Definition createTooltipContent (labelText contentValue textStyle : string) : string :=
  "<div style=" ++ dq ++ "display: flex; justify-content: space-between; gap: 8px" ++ dq ++ ">" ++ nl ++
  "                <label style=" ++ dq ++
  "color: rgba(0, 0, 0, 0.38); font-size: 12px; font-weight: 400; white-space: nowrap;" ++ dq ++ ">" ++ nl ++
  "                    " ++ labelText ++ nl ++
  "                </label>" ++ nl ++
  "                <label style=" ++ dq ++ textStyle ++ dq ++ ">" ++ nl ++
  "                  " ++ contentValue ++ nl ++
  "                </label>" ++ nl ++
  "            </div>".

(** The opening tag of the tooltip content, lines 434-435. *)
Definition tooltipOpen : string :=
  "<div style=" ++ dq ++ "display: flex; flex-direction: column;" ++ nl ++
  "                               gap: 8px; background-color: transparent" ++ dq ++ ">".

(** [getTooltipContent(value?)], lines 417-459: the content, and the
    component with the two tooltip processors updated; [None] when
    [toFixed] throws (line 439). *)
Definition getTooltipContent (value : option (num * any num)) c
  : option (string * Component num) :=
  let contentValue := match value with Some v => v | None => (n0, Str "") end in
  let tooltipValue : any num :=
    match snd contentValue with
    | Num n => Num (convertTooltipData c n)
    | _ => Str NA
    end in
  let c := set_tooltipLevelColor (ColorProcessor_update (tooltipLevelColor c) tooltipValue) c in
  let c := set_tooltipDateFormat
             (DateFormatProcessor_update (tooltipDateFormat c) (fst contentValue)) c in
  let levelTextStyle :=
    cssTextFromInlineStyle
      (objSet "color" (color (tooltipLevelColor c))
              (inlineTextStyle (Settings.tooltipLevelFont settings))) in
  let dateTextStyle :=
    cssTextFromInlineStyle
      (objSet "white-space" "nowrap"
        (objSet "text-overflow" "ellipsis"
          (objSet "overflow" "hidden"
            (objSet "color" (Settings.tooltipDateColor settings)
                    (inlineTextStyle (Settings.tooltipDateFont settings)))))) in
  let content := tooltipOpen in
  match
    (if Settings.showTooltipLevel settings then
       match
         (match tooltipValue with
          | Num n =>
              match toFixed n (Settings.tooltipLevelDecimals settings) with
              | Some digits => Some (digits ++ Settings.tooltipUnits settings)
              | None => None
              end
          | _ => Some NA
          end)
       with
       | Some levelValue =>
           Some (content ++ createTooltipContent
                              (translate_instant "widgets.liquid-level-card.level")
                              levelValue levelTextStyle)
       | None => None
       end
     else Some content)
  with
  | Some content =>
      let content :=
        if Settings.showTooltipDate settings then
          content ++ createTooltipContent
                       (translate_instant "widgets.liquid-level-card.last-update")
                       (formatted (tooltipDateFormat c)) dateTextStyle
        else content in
      Some (content ++ "</div>", c)
  | None => None
  end.

(** [createTooltip()], lines 186-229, up to the dynamic import; what runs
    when the import resolves is [tooltipsterLoaded]. *)
Definition createTooltip c : option (Component num) :=
  match getTooltipContent None c with
  | Some (t, c) => Some (set_tooltipContent t c)
  | None => None
  end.

Definition tooltipsterLoaded c : Component num :=
  let c := match tooltip c with Some _ => set_tooltip None c | None => c end in
  set_tooltip
    (Some (mkTooltip (if Settings.showTitle settings then (-33)%Z else (-63)%Z) None)) c.

(** [updateTooltip(value)], lines 326-332. *)
Definition updateTooltip (value : num * any num) c : option (Component num) :=
  match getTooltipContent (Some value) c with
  | Some (t, c) =>
      let c := set_tooltipContent t c in
      Some match tooltip c with
           | Some tip => set_tooltip (Some (mkTooltip (distance tip) (Some (tooltipContent c)))) c
           | None => c
           end
  | None => None
  end.

(** [createValueElement()], lines 231-257. *)
Definition createValueElement c : Component num :=
  let containerOverlay := findClass "container-overlay" (dom c) in
  let percentageOverlay := findClass "percentage-overlay" (dom c) in
  let absoluteOverlay := findClass "absolute-overlay" (dom c) in
  let c :=
    match Settings.layout settings with
    | absolute =>
        let c := set_overlayContainer (Some absoluteOverlay) c in
        let c := onDom (jq_css percentageOverlay "visibility" (Str "hidden")) c in
        if negb (Settings.showBackgroundOverlay settings)
        then onDom (jq_css absoluteOverlay "visibility" (Str "hidden")) c
        else c
    | percentage =>
        let c := set_overlayContainer (Some percentageOverlay) c in
        let c := onDom (jq_css absoluteOverlay "visibility" (Str "hidden")) c in
        if negb (Settings.showBackgroundOverlay settings)
        then onDom (jq_css percentageOverlay "visibility" (Str "hidden")) c
        else c
    | none => onDom (jq_css containerOverlay "visibility" (Str "hidden")) c
    end in
  match overlayContainer c with
  | Some o =>
      let c := onDom (jq_attr o "fill" (color (backgroundOverlayColor c))) c in
      onDom (jq_removeAttr o "fill-opacity") c
  | None => c
  end.

(** [updateShapeColor(value)], lines 362-375. *)
Definition updateShapeColor (value : num) c : Component num :=
  let shapeStrokes := findClass "tb-shape-stroke" (dom c) in
  let shapeFill := findClass "tb-shape-fill" (dom c) in
  let c := set_tankColor (ColorProcessor_update (tankColor c) (Num value)) c in
  let c := onDom (each shapeStrokes (setAttr "stroke" (color (tankColor c)))) c in
  onDom (each shapeFill (setAttr "fill" (color (tankColor c)))) c.

Definition animationSpeed : Z := 500.

(** [updateLevel(newY, percentage, ignoreAnimation)], lines 334-360. *)
Definition updateLevel (newY percentage : num) (ignoreAnimation : bool) c : Component num :=
  let c := set_liquidColor (ColorProcessor_update (liquidColor c) (Num percentage)) c in
  let fill := findClass "tb-liquid-fill" (dom c) in
  let surfaces := findClass "tb-liquid-surface" (dom c) in
  let surfacePositionAttr := if negb (strictEqStr (shape c) vCylinder) then "y" else "cy" in
  let c :=
    if ignoreAnimation
    then onDom (jq_css fill "y" (Num newY)) c
    else onDom (jq_animate fill "y" newY animationSpeed) c in
  let c := onDom (jq_attr fill "fill" (color (liquidColor c))) c in
  onDom (each surfaces (fun element =>
    let element :=
      if ignoreAnimation
      then setCss surfacePositionAttr (Num newY) element
      else addAnimation surfacePositionAttr newY animationSpeed element in
    if hasClass "tb-liquid" element
    then setAttr "fill" (color (liquidColor c)) element
    else element)) c.

(** [updateSvg(percentage, ignoreAnimation)], lines 306-315; reading the
    limits of an undefined [svgParams] throws. *)
Definition updateSvg (percentage : num) (ignoreAnimation : bool) c
  : option (Component num) :=
  match svgParams c with
  | Some params =>
      let yLimits := mkLimits (min (limits params)) (max (limits params)) in
      let newYPos := calculatePosition percentage yLimits in
      let c := updateShapeColor percentage c in
      Some (updateLevel newYPos percentage ignoreAnimation c)
  | None => None
  end.

(** [updateValueElement(data, percentage)], lines 377-415; [None] when
    one of its two calls of [toFixed] throws (lines 384-385, 397-398). *)
Definition updateValueElement (data : any num) (percentage : num) c
  : option (Component num) :=
  match
    (match data with
     | Num _ =>
         toFixed (convertLiters (convertOutputData c percentage) (widgetUnits c)
                                ConversionType_from)
                 (orZero (Settings.decimals settings))
     | _ => Some NA
     end)
  with
  | Some value =>
      let c := set_valueColor (ColorProcessor_update (valueColor c) (Str value)) c in
      let valueTextStyle :=
        cssTextFromInlineStyle
          (objSet "color" (color (valueColor c))
                  (inlineTextStyle (Settings.valueFont settings))) in
      let c := set_backgroundOverlayColor
                 (ColorProcessor_update (backgroundOverlayColor c) (Num percentage)) c in
      let c :=
        match overlayContainer c with
        | Some o => onDom (jq_attr o "fill" (color (backgroundOverlayColor c))) c
        | None => c
        end in
      match
        (match Settings.layout settings with
         | absolute =>
             let volumeInLiters :=
               convertLiters (volume c) (Str (Settings.volumeUnits settings))
                             ConversionType_to in
             match toFixed (convertLiters volumeInLiters (widgetUnits c) ConversionType_from)
                           (orZero (Settings.decimals settings)) with
             | Some volume =>
                 let volumeTextStyle :=
                   cssTextFromInlineStyle
                     (objSet "color" (Settings.volumeColor settings)
                             (inlineTextStyle (Settings.volumeFont settings))) in
                 Some (Some (createAbsoluteLayout (value, volume)
                                                  (valueTextStyle, volumeTextStyle)
                                                  (widgetUnits c),
                             findClass "absolute-value-container" (dom c)))
             | None => None
             end
         | percentage =>
             Some (Some (createPercentLayout value valueTextStyle,
                         findClass "percentage-value-container" (dom c)))
         | none => Some None
         end)
      with
      | Some (Some (content, container)) =>
          Some (if truthyStr content then onDom (jq_html container content) c else c)
      | Some None => Some c
      | None => None
      end
  | None => None
  end.

(** [this.ctx.data[0]?.data[0]]. *)
Definition firstPoint (ctxData : list (list (num * any num))) : option (num * any num) :=
  match ctxData with
  | [] => None
  | d :: _ => hd_error d
  end.

(** [updateData(ignoreAnimation)], lines 173-184. *)
Definition updateData (ctxData : list (list (num * any num))) (ignoreAnimation : bool) c
  : option (Component num) :=
  match firstPoint ctxData with
  | Some data =>
      if isDefinedAndNotNull (snd data) then
        let percentage :=
          match snd data with
          | Num n => convertInputData c n
          | _ => n0
          end in
        match updateSvg percentage ignoreAnimation c with
        | Some c =>
            match updateValueElement (snd data) percentage c with
            | Some c => if Settings.showTooltip settings then updateTooltip data c else Some c
            | None => None
            end
        | None => None
        end
      else Some c
  | None => Some c
  end.

(** [update(ignoreAnimation)], lines 154-158. *)
Definition update (ctxData : list (list (num * any num))) (ignoreAnimation : bool) c
  : option (Component num) :=
  match svg c with
  | Some _ => updateData ctxData ignoreAnimation c
  | None => Some c
  end.

(** [destroy()], lines 160-162. *)
Definition destroy c : Component num := c.

(** The data stream calling [update] tick after tick. *)
Fixpoint updates (ticks : list (list (list (num * any num)) * bool)) c
  : option (Component num) :=
  match ticks with
  | [] => Some c
  | (ctxData, ignoreAnimation) :: ticks' =>
      match update ctxData ignoreAnimation c with
      | Some c => updates ticks' c
      | None => None
      end
  end.

(** *** Resolution

    Every observable of the component emits at most once and is subscribed
    once, by [ngOnInit]; it is read as the computation that subscribing
    runs: the component after it, and the value emitted, if any. *)
Definition Observable (A : Type) : Type := Component num -> option A * Component num.

Definition of_ {A : Type} (a : A) : Observable A := fun c => (Some a, c).

Definition map_ {A B : Type} (f : A -> B) (o : Observable A) : Observable B :=
  fun c => let (r, c) := o c in (option_map f r, c).

Definition switchMap {A B : Type} (k : A -> Observable B) (o : Observable A)
  : Observable B :=
  fun c =>
    match o c with
    | (Some a, c) => k a c
    | (None, c) => (None, c)
    end.

(** [ctx.attributeService.getEntityAttributes(entityId, null, keys)]. *)
Definition attributeService_getEntityAttributes (entityId : EntityId) (keys : list string)
  : Observable (obj (any num)) :=
  fun c =>
    (getEntityAttributes entityId keys,
     set_attributeRequests (attributeRequests c ++ [(entityId, keys)])%list c).

(** [loadSVG(url)], lines 259-262. *)
Definition loadSVG (url : string) : Observable (any num) :=
  fun c => (loadJsonResource url, set_resourceRequests (resourceRequests c ++ [url])%list c).

(** [getShape(entityId)], lines 264-275. *)
Definition getShape (entityId : EntityId) : Observable (any num) :=
  if LiquidWidgetDataSourceType_eqb (Settings.tankSelectionType settings) attribute
     && negb (String.eqb (id entityId) NULL_UUID)
  then
    map_ (fun attributes =>
           extractValue attributes (Settings.shapeAttributeName settings)
                        (Str (Settings.selectedShape settings)))
        (attributeService_getEntityAttributes
           entityId [Settings.shapeAttributeName settings])
  else of_ (Str (Settings.selectedShape settings)).

(** [prepareAttributeNames()], lines 295-304. *)
Definition prepareAttributeNames : list string :=
  let names : list string := [] in
  let names :=
    if negb (LiquidWidgetDataSourceType_eqb (Settings.volumeSource settings) static)
    then (names ++ [Settings.volumeAttributeName settings])%list else names in
  if negb (LiquidWidgetDataSourceType_eqb (Settings.widgetUnitsSource settings) static)
  then (names ++ [Settings.widgetUnitsAttributeName settings])%list else names.

(** [getSecondaryResources(entityId)], lines 277-293. *)
Definition getSecondaryResources (entityId : EntityId)
  : Observable (any num * any num) :=
  let attributeNames := prepareAttributeNames in
  if (List.length attributeNames =? 0)%nat || String.eqb (id entityId) NULL_UUID
  then of_ (Num (Settings.volumeConstant settings), Str (Settings.units settings))
  else
    map_ (fun attributes =>
           (extractValue attributes (Settings.volumeAttributeName settings)
                         (Num (Settings.volumeConstant settings)),
            extractValue attributes (Settings.widgetUnitsAttributeName settings)
                         (Str (Settings.units settings))))
        (attributeService_getEntityAttributes entityId attributeNames).

(** [getData()], lines 127-152; [None] inside the observable is the
    emitted [null]. *)
Definition getData : Observable (option (Resources num)) :=
  let entityId := mkEntityId (entityType datasource) (id datasource) in
  switchMap
    (fun shape c =>
       let c := set_shape shape c in
       let c := set_svgParams (svgMapping shape) c in
       match svgParams c with
       | Some params =>
           switchMap
             (fun svg =>
                map_ (fun vu => Some (mkResources svg (fst vu) (snd vu)))
                    (getSecondaryResources entityId))
             (loadSVG (svgUrl params)) c
       | None => of_ None c
       end)
    (getShape entityId).

(** The subscriber of [getData()] in [ngOnInit], lines 88-114.  The
    container element is taken to exist. *)
Definition onData (ctxData : list (list (num * any num)))
           (data : option (Resources num)) c : option (Component num) :=
  match data with
  | Some r =>
      match
        (if truthy (r_svg r) && isString (r_svg r) then
           match r_svg r with
           | Str markup =>
               let c := set_dom (parseMarkup markup) c in
               let c := set_svg (Some (findTag "svg" (dom c))) c in
               let c := onDom (jq_onClick (findTag "svg" (dom c))) c in
               let c := createSVG c in
               let c := createValueElement c in
               if Settings.showTooltip settings then createTooltip c else Some c
           | _ => Some c
           end
         else Some c)
      with
      | Some c =>
          let c :=
            if isDefined (r_volume r) && negb (nisNaN (toNumber (r_volume r)))
            then set_volume (toNumber (r_volume r)) c else c in
          let c := if truthy (r_units r) then set_widgetUnits (r_units r) c else c in
          update ctxData true c
      | None => None
      end
  | None => Some c
  end.

(** [ngOnInit()], lines 83-115. *)
Definition ngOnInit (ctxData : list (list (num * any num))) c : option (Component num) :=
  let c := declareStyles c in
  match getData c with
  | (Some data, c) => onData ctxData data c
  | (None, c) => Some c
  end.
End Widget.

(** ** A widget to run

    A host over IEEE doubles with simple collaborators, a template with one
    element of each class the component looks for, and a percentage-layout
    configuration; used to evaluate the methods on concrete ticks. *)

Module Sample.
Local Open Scope string_scope.

(** The rational a finite double stands for. *)
Definition float_value (x : float) : option Q :=
  match Prim2SF x with
  | S754_zero _ => Some 0%Q
  | S754_finite s m e =>
      Some (inject_Z (if s then Zneg m else Zpos m) * Qpower 2 e)%Q
  | _ => None
  end.

Definition string_of_N (n : N) : string := NilZero.string_of_uint (N.to_uint n).

Fixpoint zeros (n : nat) : string :=
  match n with O => "" | S n' => "0" ++ zeros n' end.

(** [ToIntegerOrInfinity(digits)]: NaN counts as 0, a finite number is
    truncated towards 0, an infinity is no integer. *)
Definition toInteger (digits : float) : option Z :=
  if PrimFloat.is_nan digits then Some 0%Z
  else match float_value digits with
       | Some d => Some (if Qlt_le_dec d 0 then Qceiling d else Qfloor d)
       | None => None
       end.

(** The decimal expansion of a rational with [f] digits after the point,
    rounded half away from zero. *)
Definition fixed (q : Q) (f : nat) : string :=
  let scale := (10 ^ Z.of_nat f)%Z in
  let n := Qfloor (Qabs q * inject_Z scale + (1 # 2))%Q in
  let frac := string_of_N (Z.to_N (n mod scale)) in
  (if Qlt_le_dec q 0 then "-" else "")
  ++ string_of_N (Z.to_N (n / scale))
  ++ match f with
     | O => ""
     | _ => "." ++ zeros (f - String.length frac) ++ frac
     end.

(** [x.toFixed(digits)]: a RangeError unless the digits, as an integer, are
    within 0..100; then NaN and the infinities by name, and a finite [x]
    in fixed notation.  From 1e21 on the engine switches to exponent
    notation, which is not reproduced here: no statement below formats a
    number of that size. *)
Definition toFixed (x digits : float) : option string :=
  match toInteger digits with
  | Some f =>
      if ((0 <=? f) && (f <=? 100))%Z then
        Some match float_value x with
             | Some q => fixed q (Z.to_nat f)
             | None =>
                 if PrimFloat.is_nan x then "NaN"
                 else if (0 <? x)%float then "Infinity" else "-Infinity"
             end
      else None
  | None => None
  end.

(** A timestamp as the sample date format shows it: its integer part. *)
Definition stamp (ts : float) : string :=
  match toFixed ts 0%float with Some t => t | None => "" end.

(** Liters per unit: two units stand for the table, any other name has no
    factor. *)
Definition litersPerUnit (unit : string) : float :=
  if String.eqb unit "L" then 1%float
  else if String.eqb unit "gal" then 0x1.e4885f9316256p+1%float
  else nan.

(** Modelled from the spec: [convertLiters] is declared in
    liquid-level-widget.models, not under src.  After 4.1: the identity on
    the percent pseudo-unit whatever the direction; otherwise to-normalized
    multiplies by the unit's liters-per-unit factor and from-normalized
    divides by it.  A unit without a factor, for which 4.1 has the
    conversion fail, is given NaN here: the statements run this sample on
    the units "%" and "L" only, and the general statements hold for every
    conversion function. *)
Definition convertLiters (value : float) (unit : any float) (t : ConversionType) : float :=
  match unit with
  | Str u =>
      if String.eqb u "%" then value
      else match t with
           | ConversionType_to => (value * litersPerUnit u)%float
           | ConversionType_from => (value / litersPerUnit u)%float
           end
  | _ => nan
  end.

Definition element (t : string) (cls : list string) : Element float :=
  mkElement t cls [] [] [] None false.

Definition template : list (Element float) :=
  [ element "svg" [];
    element "path" ["tb-shape-stroke"];
    element "rect" ["tb-liquid-fill"];
    element "ellipse" ["tb-liquid-surface"; "tb-liquid"];
    element "rect" ["container-overlay"; "percentage-overlay"];
    element "text" ["percentage-value-container"];
    element "rect" ["container-overlay"; "absolute-overlay"];
    element "text" ["absolute-value-container"] ].

Fixpoint cssText (o : obj string) : string :=
  match o with
  | [] => ""
  | (k, v) :: o' => k ++ ": " ++ v ++ ";" ++ cssText o'
  end.

(** [Number(v)] on the values the sample services send: numbers, null and
    booleans.  A string is given NaN, also where the engine would parse a
    number out of it: no sample service sends a volume as a string. *)
Definition toNumber (v : any float) : float :=
  match v with
  | Num n => n
  | Null | Bool false => 0%float
  | Bool true => 1%float
  | _ => nan
  end.

#[export] Instance host : Host float := {
  toNumber := toNumber;
  toFixed := toFixed;
  percent := "%";
  vCylinder := "Vertical Cylinder";
  svgMapping sh :=
    if strictEqStr sh "Vertical Cylinder"
    then Some (mkSvgInfo "v-cylinder.svg" (mkLimits 180%float 20%float))
    else if strictEqStr sh "Rectangle"
    then Some (mkSvgInfo "rectangle.svg" (mkLimits 160%float 40%float))
    else None;
  extractValue attributes name default :=
    match objGet name attributes with Some v => v | None => default end;
  createAbsoluteLayout values styles u :=
    fst values ++ " / " ++ snd values;
  createPercentLayout value valueStyle := value ++ "%";
  NULL_UUID := "13814000-1dd2-11b2-8080-808080808080";
  ColorSettings := string;
  ColorProcessor := string;
  ColorProcessor_fromSettings s := s;
  ColorProcessor_update p v := p;
  color p := p;
  DateFormatSettings := string;
  DateFormatProcessor := string;
  DateFormatProcessor_fromSettings s := "";
  DateFormatProcessor_update p ts := stamp ts;
  formatted p := p;
  Font := string;
  inlineTextStyle f := [("font-family", f)];
  cssTextFromInlineStyle := cssText;
  translate_instant key := key;
  parseMarkup markup := template;
  getEntityAttributes entityId keys := Some [("shape", Str "Rectangle")];
  loadJsonResource url := Some (Str ("<svg>" ++ url ++ "</svg>"))
}.

Definition configure (selectedShape datasourceUnits : string) (layout : LevelCardLayout)
  : Settings.LevelCardWidgetSettings float := {|
  Settings.tankSelectionType := static;
  Settings.selectedShape := selectedShape;
  Settings.shapeAttributeName := "shape";
  Settings.datasourceUnits := datasourceUnits;
  Settings.layout := layout;
  Settings.volumeSource := static;
  Settings.volumeConstant := 200%float;
  Settings.volumeAttributeName := "volume";
  Settings.volumeUnits := "L";
  Settings.volumeFont := "Roboto";
  Settings.volumeColor := "gray";
  Settings.units := "%";
  Settings.widgetUnitsSource := static;
  Settings.widgetUnitsAttributeName := "units";
  Settings.decimals := 0%float;
  Settings.valueFont := "Roboto";
  Settings.valueColor := "black";
  Settings.tankColor := "silver";
  Settings.liquidColor := "blue";
  Settings.showBackgroundOverlay := true;
  Settings.backgroundOverlayColor := "white";
  Settings.showTooltip := true;
  Settings.showTooltipLevel := true;
  Settings.tooltipUnits := "%";
  Settings.tooltipLevelDecimals := 0%float;
  Settings.tooltipLevelFont := "Roboto";
  Settings.tooltipLevelColor := "black";
  Settings.showTooltipDate := true;
  Settings.tooltipDateFormat := "yyyy-MM-dd";
  Settings.tooltipDateFont := "Roboto";
  Settings.tooltipDateColor := "gray";
  Settings.showTitle := true
|}.

Definition settings : Settings.LevelCardWidgetSettings float :=
  configure "Vertical Cylinder" "%" percentage.

Definition datasource : EntityId := mkEntityId "DEVICE" "784f394c-42b6-435a-983c-b7beff2784f9".

(** A component as constructed: nothing assigned yet, an empty container. *)
Definition fresh : Component float :=
  mkComponent None None None None Undefined "" "" "" "" "" "" nan "" Undefined [] [] [].

(** The entity a widget is bound to before a real one is chosen. *)
Definition placeholder : EntityId := mkEntityId "DEVICE" NULL_UUID.

(** The component once [ngOnInit] has run on a stream with no measurement
    yet. *)
Definition started : option (Component float) :=
  ngOnInit convertLiters settings datasource [] fresh.

Definition running : Component float :=
  Eval vm_compute in match started with Some c => c | None => fresh end.
End Sample.

(** ** Vocabulary of the statements *)

Section Vocabulary.
Context {num : Type} {N : Number num} {H : Host num}.
Implicit Types (c : Component num) (e : Element num).
Local Open Scope string_scope.

(** An element has been moved to [target] along [name]: at once, through
    its style, or by an animation queued behind the ones it had. *)
Definition movedTo (name : string) (target : num) (ignoreAnimation : bool) e e' : Prop :=
  if ignoreAnimation
  then objGet name (style e') = Some (Num target) /\ animations e' = animations e
  else style e' = style e /\
       exists queued, animations e' = (animations e ++ queued)%list /\
                      In (name, target, animationSpeed) queued.

(** Neither the style nor the animations of an element have changed. *)
Definition unmoved e e' : Prop := style e' = style e /\ animations e' = animations e.

Definition move (name : string) (target : num) (ignoreAnimation : bool) e : Element num :=
  if ignoreAnimation then setCss name (Num target) e
  else addAnimation name target animationSpeed e.

(** What [updateLevel] does to one element. *)
Definition leveled (surfacePositionAttr : string) (newY : num) (ignoreAnimation : bool)
           (fillColor : string) e : Element num :=
  let e1 :=
    if hasClass "tb-liquid-fill" e
    then setAttr "fill" fillColor (move "y" newY ignoreAnimation e) else e in
  if hasClass "tb-liquid-surface" e then
    let e2 := move surfacePositionAttr newY ignoreAnimation e1 in
    if hasClass "tb-liquid" e then setAttr "fill" fillColor e2 else e2
  else e1.

(** The style of the readout once the value colour has seen [value]. *)
Definition valueTextStyleOf (settings : Settings.LevelCardWidgetSettings num) c
           (value : string) : string :=
  cssTextFromInlineStyle
    (objSet "color" (color (ColorProcessor_update (valueColor c) (Str value)))
            (inlineTextStyle (Settings.valueFont settings))).

(** What the element at position [i] shows once [r] has come out of a tick. *)
Definition shownAt {A : Type}
           (what : Element num -> A) (i : nat) (r : option (Component num)) : option A :=
  match r with
  | Some c => option_map what (nth_error (dom c) i)
  | None => None
  end.
End Vocabulary.

(** ** Vocabulary of the further statements *)

Section MoreVocabulary.
Context {num : Type} {N : Number num} {H : Host num}.
Variable convertLiters : num -> any num -> ConversionType -> num.
Variable settings : Settings.LevelCardWidgetSettings num.
Implicit Types (c : Component num) (e : Element num).
Local Open Scope string_scope.

(** What resolution settles and a tick only reads. *)
Definition resolvedOf c :=
  (svgParams c, svg c, overlayContainer c, shape c, volume c, widgetUnits c).

(** The calls made so far on the attribute service and the resource loader. *)
Definition requestsOf c := (attributeRequests c, resourceRequests c).

(** [toFixed] takes a number of digits: it throws for no value. *)
Definition accepts (digits : num) : Prop := forall x : num, toFixed x digits <> None.

(** The percentage [updateData] computes from the value of a measurement,
    line 176. *)
Definition percentageOf c (v : any num) : num :=
  match v with
  | Num n => convertInputData convertLiters settings c n
  | _ => n0
  end.

(** The readout [updateValueElement] formats for a value and its
    percentage, lines 381-386; [None] when [toFixed] throws. *)
Definition readoutOf c (v : any num) (pct : num) : option string :=
  match v with
  | Num _ =>
      toFixed (convertLiters (convertOutputData convertLiters settings c pct) (widgetUnits c)
                             ConversionType_from)
              (orZero (Settings.decimals settings))
  | _ => Some NA
  end.

(** The vessel capacity as the absolute layout shows it, lines 396-398;
    [None] when [toFixed] throws. *)
Definition volumeReadoutOf c : option string :=
  toFixed (convertLiters
             (convertLiters (volume c) (Str (Settings.volumeUnits settings)) ConversionType_to)
             (widgetUnits c) ConversionType_from)
          (orZero (Settings.decimals settings)).

(** The capacity text the configured layout asks for: formatted in the
    absolute layout, none in the others. *)
Definition capacityOf c : option string :=
  match Settings.layout settings with
  | absolute => volumeReadoutOf c
  | _ => Some ""
  end.

(** The style of the capacity in the absolute layout, lines 400-401. *)
Definition volumeTextStyleOf : string :=
  cssTextFromInlineStyle
    (objSet "color" (Settings.volumeColor settings)
            (inlineTextStyle (Settings.volumeFont settings))).

(** What goes into which container for a readout and a capacity: the
    content and the class of the container, by layout. *)
Definition readoutContentOf c (value volume : string) : option (string * string) :=
  match Settings.layout settings with
  | absolute =>
      Some (createAbsoluteLayout (value, volume)
                                 (valueTextStyleOf settings c value, volumeTextStyleOf)
                                 (widgetUnits c),
            "absolute-value-container")
  | percentage =>
      Some (createPercentLayout value (valueTextStyleOf settings c value),
            "percentage-value-container")
  | none => None
  end.

(** The inner HTML of an element once a readout has been rendered. *)
Definition htmlAfter c (value volume : string) e : option string :=
  match readoutContentOf c value volume with
  | Some (content, cls) =>
      if truthyStr content && hasClass cls e then Some content else html e
  | None => html e
  end.

(** [updateValueElement] from line 387 on, once its calls of [toFixed] have
    returned [value] and, in the absolute layout, [volume]. *)
Definition readoutShown (value volume : string) (percentage : num) c : Component num :=
  let c := set_valueColor (ColorProcessor_update (valueColor c) (Str value)) c in
  let valueTextStyle :=
    cssTextFromInlineStyle
      (objSet "color" (color (valueColor c))
              (inlineTextStyle (Settings.valueFont settings))) in
  let c := set_backgroundOverlayColor
             (ColorProcessor_update (backgroundOverlayColor c) (Num percentage)) c in
  let c :=
    match overlayContainer c with
    | Some o => onDom (jq_attr o "fill" (color (backgroundOverlayColor c))) c
    | None => c
    end in
  let rendered : option (string * JQuery) :=
    match Settings.layout settings with
    | absolute =>
        Some (createAbsoluteLayout (value, volume) (valueTextStyle, volumeTextStyleOf)
                                   (widgetUnits c),
              findClass "absolute-value-container" (dom c))
    | percentage =>
        Some (createPercentLayout value valueTextStyle,
              findClass "percentage-value-container" (dom c))
    | none => None
    end in
  match rendered with
  | Some (content, container) =>
      if truthyStr content then onDom (jq_html container content) c else c
  | None => c
  end.

(** The value the tooltip shows for a measurement value, lines 419-423. *)
Definition tooltipValueOf c (v : any num) : any num :=
  match v with
  | Num n => Num (convertTooltipData convertLiters settings c n)
  | _ => Str NA
  end.

(** The text of the level row for a measurement value, lines 438-440;
    [None] when [toFixed] throws. *)
Definition levelValueOf c (v : any num) : option string :=
  match tooltipValueOf c v with
  | Num x =>
      match toFixed x (Settings.tooltipLevelDecimals settings) with
      | Some digits => Some (digits ++ Settings.tooltipUnits settings)
      | None => None
      end
  | _ => Some NA
  end.

(** The level text the content asks for: formatted when the level row is
    shown, none otherwise. *)
Definition levelOf c (v : any num) : option string :=
  if Settings.showTooltipLevel settings then levelValueOf c v else Some "".

(** The style of the level row for a level colour, lines 428-429. *)
Definition levelTextStyleOf (levelColor : ColorProcessor) : string :=
  cssTextFromInlineStyle
    (objSet "color" (color levelColor)
            (inlineTextStyle (Settings.tooltipLevelFont settings))).

(** The style of the date row, lines 431-432. *)
Definition dateTextStyleOf : string :=
  cssTextFromInlineStyle
    (objSet "white-space" "nowrap"
      (objSet "text-overflow" "ellipsis"
        (objSet "overflow" "hidden"
          (objSet "color" (Settings.tooltipDateColor settings)
                  (inlineTextStyle (Settings.tooltipDateFont settings)))))).

(** [getTooltipContent] once the text of the level row is known: the
    content, and the component with the two tooltip processors updated. *)
Definition tooltipBuilt (level : string) (value : option (num * any num)) c
  : string * Component num :=
  let contentValue := match value with Some v => v | None => (n0, Str "") end in
  let c := set_tooltipLevelColor
             (ColorProcessor_update (tooltipLevelColor c)
                                    (tooltipValueOf c (snd contentValue))) c in
  let c := set_tooltipDateFormat
             (DateFormatProcessor_update (tooltipDateFormat c) (fst contentValue)) c in
  let content := tooltipOpen in
  let content :=
    if Settings.showTooltipLevel settings then
      content ++ createTooltipContent
                   (translate_instant "widgets.liquid-level-card.level")
                   level (levelTextStyleOf (tooltipLevelColor c))
    else content in
  let content :=
    if Settings.showTooltipDate settings then
      content ++ createTooltipContent
                   (translate_instant "widgets.liquid-level-card.last-update")
                   (formatted (tooltipDateFormat c)) dateTextStyleOf
    else content in
  (content ++ "</div>", c).

(** [updateTooltip] once the text of the level row is known. *)
Definition tooltipPushed (level : string) (value : num * any num) c : Component num :=
  let c1 := set_tooltipContent (fst (tooltipBuilt level (Some value) c))
                               (snd (tooltipBuilt level (Some value) c)) in
  match tooltip c1 with
  | Some tip => set_tooltip (Some (mkTooltip (distance tip) (Some (tooltipContent c1)))) c1
  | None => c1
  end.

(** [createTooltip]: the content of a tooltip that has no measurement yet. *)
Definition tooltipCreated c : Component num :=
  let level := if Settings.showTooltipLevel settings then NA else "" in
  set_tooltipContent (fst (tooltipBuilt level None c)) (snd (tooltipBuilt level None c)).

(** The rendering block of the subscriber in [ngOnInit], lines 92-101, for
    the markup of a template. *)
Definition rendering (markup : string) c : Component num :=
  let c := set_dom (parseMarkup markup) c in
  let c := set_svg (Some (findTag "svg" (dom c))) c in
  let c := onDom (jq_onClick (findTag "svg" (dom c))) c in
  let c := createSVG c in
  let c := createValueElement settings c in
  if Settings.showTooltip settings then tooltipCreated c else c.

(** The two guarded assignments of the subscriber, lines 104-110. *)
Definition settling (r : Resources num) c : Component num :=
  let c :=
    if isDefined (r_volume r) && negb (nisNaN (toNumber (r_volume r)))
    then set_volume (toNumber (r_volume r)) c else c in
  if truthy (r_units r) then set_widgetUnits (r_units r) c else c.

(** Whether [createValueElement] hides an element, by layout. *)
Definition hiddenBy (e : Element num) : bool :=
  match Settings.layout settings with
  | absolute =>
      hasClass "percentage-overlay" e
      || (negb (Settings.showBackgroundOverlay settings) && hasClass "absolute-overlay" e)
  | percentage =>
      hasClass "absolute-overlay" e
      || (negb (Settings.showBackgroundOverlay settings) && hasClass "percentage-overlay" e)
  | none => hasClass "container-overlay" e
  end.

(** Whether the element at position [i] belongs to the overlay container. *)
Definition inOverlay (c : Component num) (i : nat) : bool :=
  match overlayContainer c with
  | Some o => selected i o
  | None => false
  end.
End MoreVocabulary.

(** ** More widgets to run *)

Module SampleMore.
Local Open Scope string_scope.

(** The sample widget with a tooltip instance in place. *)
Definition withTooltip : Component float :=
  Eval vm_compute in tooltipsterLoaded Sample.settings Sample.running.

(** The sample widget configured without a numeric overlay and started. *)
Definition plainSettings : Settings.LevelCardWidgetSettings float :=
  Sample.configure "Vertical Cylinder" "%" none.

Definition plainRunning : Component float :=
  Eval vm_compute in
    match ngOnInit Sample.convertLiters plainSettings Sample.datasource [] Sample.fresh with
    | Some c => c
    | None => Sample.fresh
    end.

(** The sample host with other answers from the attribute service and the
    resource loader. *)
Definition hostWith (attributes : EntityId -> list string -> option (obj (any float)))
           (loader : string -> option (any float)) : Host float := {|
  toNumber := @toNumber float Sample.host;
  toFixed := Sample.toFixed;
  percent := @percent float Sample.host;
  vCylinder := @vCylinder float Sample.host;
  svgMapping := @svgMapping float Sample.host;
  extractValue := @extractValue float Sample.host;
  createAbsoluteLayout := @createAbsoluteLayout float Sample.host;
  createPercentLayout := @createPercentLayout float Sample.host;
  NULL_UUID := @NULL_UUID float Sample.host;
  ColorSettings := string;
  ColorProcessor := string;
  ColorProcessor_fromSettings := fun s => s;
  ColorProcessor_update := fun p v => p;
  color := fun p => p;
  DateFormatSettings := string;
  DateFormatProcessor := string;
  DateFormatProcessor_fromSettings := fun s => "";
  DateFormatProcessor_update := fun p ts => Sample.stamp ts;
  formatted := fun p => p;
  Font := string;
  inlineTextStyle := fun f => [("font-family", f)];
  cssTextFromInlineStyle := Sample.cssText;
  translate_instant := fun key => key;
  parseMarkup := fun markup => Sample.template;
  getEntityAttributes := attributes;
  loadJsonResource := loader
|}.

(** The sample configuration on such a host, with the three sources chosen
    (the fields in the order of [LevelCardWidgetSettings]). *)
Definition settingsOn (attributes : EntityId -> list string -> option (obj (any float)))
           (loader : string -> option (any float))
           (tank volume units : LiquidWidgetDataSourceType)
  : @Settings.LevelCardWidgetSettings float (hostWith attributes loader) :=
  @Settings.Build_LevelCardWidgetSettings float (hostWith attributes loader)
    tank "Vertical Cylinder" "shape" "%" percentage
    volume 200%float "volume" "L" "Roboto" "gray"
    "%" units "units" 0%float "Roboto" "black" "silver" "blue"
    true "white"
    true true "%" 0%float "Roboto" "black"
    true "yyyy-MM-dd" "Roboto" "gray" true.

(** A component as constructed, on such a host. *)
Definition freshOn (attributes : EntityId -> list string -> option (obj (any float)))
           (loader : string -> option (any float))
  : @Component float (hostWith attributes loader) :=
  @mkComponent float (hostWith attributes loader)
    None None None None Undefined "" "" "" "" "" "" nan "" Undefined [] [] [].

(** Services that never answer. *)
Definition noAttributes : EntityId -> list string -> option (obj (any float)) :=
  fun _ _ => None.
Definition noResource : string -> option (any float) := fun _ => None.

(** A resource loader that answers with an empty document. *)
Definition emptyResource : string -> option (any float) := fun _ => Some (Str "").

(** An attribute service that knows the volume of the vessel only. *)
Definition volumeOnly : EntityId -> list string -> option (obj (any float)) :=
  fun _ _ => Some [("volume", Num 350%float)].

(** An attribute service that knows another shape, volume and units than
    the configured ones. *)
Definition allAttributes : EntityId -> list string -> option (obj (any float)) :=
  fun _ _ => Some [("shape", Str "Rectangle"); ("volume", Num 350%float); ("units", Str "L")].

(** A resource loader that answers with a template. *)
Definition templateResource : string -> option (any float) :=
  fun url => Some (Str ("<svg>" ++ url ++ "</svg>")).

(** The sample configuration with the shape, the volume and the units all
    driven by attributes, on a host whose attribute service knows all
    three. *)
Definition attributeDriven
  : @Settings.LevelCardWidgetSettings float (hostWith allAttributes templateResource) :=
  settingsOn allAttributes templateResource attribute attribute attribute.

Definition attributeFresh : @Component float (hostWith allAttributes templateResource) :=
  freshOn allAttributes templateResource.

(** The sample widget in the absolute layout, started. *)
Definition absoluteSettings : Settings.LevelCardWidgetSettings float :=
  Sample.configure "Vertical Cylinder" "%" absolute.

Definition absoluteRunning : Component float :=
  Eval vm_compute in
    match ngOnInit Sample.convertLiters absoluteSettings Sample.datasource [] Sample.fresh with
    | Some c => c
    | None => Sample.fresh
    end.

(** The sample configuration with other numbers of digits: [decimals] for
    the readout and [tooltipLevelDecimals] for the tooltip (the fields in
    the order of [LevelCardWidgetSettings]). *)
Definition withDigits (layout : LevelCardLayout) (decimals tooltipLevelDecimals : float)
  : Settings.LevelCardWidgetSettings float :=
  @Settings.Build_LevelCardWidgetSettings float Sample.host
    static "Vertical Cylinder" "shape" "%" layout
    static 200%float "volume" "L" "Roboto" "gray"
    "%" static "units" decimals "Roboto" "black" "silver" "blue"
    true "white"
    true true "%" tooltipLevelDecimals "Roboto" "black"
    true "yyyy-MM-dd" "Roboto" "gray" true.
End SampleMore.

(** * Properties *)

(** ** The order laws on doubles and on rationals *)

Lemma SFcompare_Lt_swap (x y : spec_float) :
  SFcompare x y = Some Lt -> SFcompare y x = Some Gt.
Proof.
  destruct x as [sx|sx| |sx mx ex], y as [sy|sy| |sy my ey]; simpl;
    try discriminate; try (destruct sx; discriminate);
    try (destruct sy; discriminate);
    try (destruct sx, sy; (discriminate || reflexivity)).
  assert (Hm : Pos.compare_cont Eq my mx = CompOpp (Pos.compare_cont Eq mx my))
    by (symmetry; exact (Pos.compare_cont_antisym mx my Eq)).
  destruct sx, sy; try discriminate; try reflexivity;
    rewrite (Z.compare_antisym ex ey), Hm;
    destruct (ex ?= ey)%Z; simpl; try discriminate; try reflexivity;
    destruct (Pos.compare_cont Eq mx my); simpl; try discriminate; reflexivity.
Qed.

Lemma float_ltb_not_geb (a b : float) :
  (a <? b)%float = true -> (b <=? a)%float = false.
Proof.
  rewrite ltb_spec, leb_spec. unfold SFltb, SFleb.
  destruct (SFcompare (Prim2SF a) (Prim2SF b)) as [[ | | ]|] eqn:E; try discriminate.
  intros _. now rewrite (SFcompare_Lt_swap _ _ E).
Qed.

Lemma float_leb_0_not_geb_100 (p : float) :
  (p <=? 0)%float = true -> (100 <=? p)%float = false.
Proof.
  rewrite !leb_spec. unfold SFleb.
  replace (Prim2SF 0) with (S754_zero false) by reflexivity.
  replace (Prim2SF 100) with (S754_finite false 7036874417766400 (-46)) by reflexivity.
  destruct (Prim2SF p) as [s|s| |s m e]; simpl; try reflexivity.
  - destruct s; [reflexivity | discriminate].
  - destruct s; [reflexivity | discriminate].
Qed.

#[export] Instance NumberOrder_float : NumberOrder float.
Proof.
  split; [exact float_ltb_not_geb | exact float_leb_0_not_geb_100 | reflexivity ..].
Qed.

Lemma Qltb_lt (a b : Q) : Qltb a b = true <-> (a < b)%Q.
Proof.
  unfold Qltb. rewrite negb_true_iff.
  split; intros H.
  - apply Qnot_le_lt. intros L. apply Qle_bool_iff in L. congruence.
  - destruct (Qle_bool b a) eqn:E; [|reflexivity].
    apply Qle_bool_iff in E. exfalso. exact (Qlt_not_le _ _ H E).
Qed.

Lemma Qle_bool_false (a b : Q) : Qle_bool a b = false <-> (b < a)%Q.
Proof.
  split; intros H.
  - apply Qnot_le_lt. intros L. apply Qle_bool_iff in L. congruence.
  - destruct (Qle_bool a b) eqn:E; [|reflexivity].
    apply Qle_bool_iff in E. exfalso. exact (Qlt_not_le _ _ H E).
Qed.

#[export] Instance NumberOrder_Q : NumberOrder Q.
Proof.
  split; simpl.
  - intros a b H. apply Qltb_lt in H. now apply Qle_bool_false.
  - intros p H. apply Qle_bool_iff in H. apply Qle_bool_false. lra.
  - reflexivity.
  - reflexivity.
Qed.

(** Reading a field of a component after assignments to it. *)
Ltac fields :=
  cbn [svgParams svg tooltip overlayContainer shape tankColor valueColor liquidColor
       backgroundOverlayColor tooltipLevelColor tooltipDateFormat volume tooltipContent
       widgetUnits dom attributeRequests resourceRequests
       set_svgParams set_svg set_tooltip set_overlayContainer set_shape set_tankColor
       set_valueColor set_liquidColor set_backgroundOverlayColor set_tooltipLevelColor
       set_tooltipDateFormat set_volume set_tooltipContent set_widgetUnits set_dom
       set_attributeRequests set_resourceRequests onDom].

(** ** Level position calculator *)

Section PositionFacts.
Context {num : Type} {N : Number num} {O : NumberOrder num}.
Local Open Scope num_scope.

Lemma calculatePosition_high (p : num) (l : SvgLimits num) :
  (p >=? n100) = true -> calculatePosition p l = max l.
Proof. unfold calculatePosition. now intros ->. Qed.

Lemma calculatePosition_low (p : num) (l : SvgLimits num) :
  (p <=? n0) = true -> calculatePosition p l = min l.
Proof.
  intros Hp. unfold calculatePosition.
  now rewrite (nleb_0_not_geb_100 _ Hp), Hp.
Qed.

Lemma calculatePosition_between (p : num) (l : SvgLimits num) :
  (n0 <? p) = true -> (p <? n100) = true ->
  calculatePosition p l = min l + (p / n100) * (max l - min l).
Proof.
  intros H0 H100. unfold calculatePosition.
  now rewrite (nltb_not_geb _ _ H100), (nltb_not_geb _ _ H0).
Qed.

Lemma calculatePosition_0 (l : SvgLimits num) : calculatePosition n0 l = min l.
Proof. apply calculatePosition_low, nleb_0_0. Qed.

Lemma calculatePosition_100 (l : SvgLimits num) : calculatePosition n100 l = max l.
Proof. apply calculatePosition_high, nleb_100_100. Qed.
End PositionFacts.

(** C1.  For every percentage and every pair of limits, in whatever order,
    [calculatePosition] returns [limits.max] itself when [percentage >= 100],
    [limits.min] itself when [percentage <= 0], and
    [limits.min + (percentage / 100) * (limits.max - limits.min)] when
    [0 < percentage < 100].  It holds for every number type whose
    comparisons obey [NumberOrder], IEEE doubles among them. *)
Theorem calculatePosition_cases
  (num : Type) (N : Number num) (O : NumberOrder num) (p : num) (l : SvgLimits num) :
  ((p >=? n100)%num = true -> calculatePosition p l = max l) /\
  ((p <=? n0)%num = true -> calculatePosition p l = min l) /\
  ((n0 <? p)%num = true -> (p <? n100)%num = true ->
   calculatePosition p l = (min l + (p / n100) * (max l - min l))%num).
Proof.
  repeat split.
  - apply calculatePosition_high.
  - apply calculatePosition_low.
  - apply calculatePosition_between.
Qed.

(** On doubles, with the limits of a downward axis (min 180, max 20): 50%
    is interpolated to 100, 250% clamps to 20 and -3% clamps to 180. *)
Lemma calculatePosition_cases_witness :
  calculatePosition 50%float (mkLimits 180%float 20%float) = 100%float /\
  calculatePosition 250%float (mkLimits 180%float 20%float) = 20%float /\
  calculatePosition (-3)%float (mkLimits 180%float 20%float) = 180%float.
Proof.
  pose proof (calculatePosition_cases NumberOrder_float 50%float
                (mkLimits 180%float 20%float)) as (_ & _ & Hmid).
  pose proof (calculatePosition_cases NumberOrder_float 250%float
                (mkLimits 180%float 20%float)) as (Hhigh & _ & _).
  pose proof (calculatePosition_cases NumberOrder_float (-3)%float
                (mkLimits 180%float 20%float)) as (_ & Hlow & _).
  split; [|split].
  - rewrite Hmid; reflexivity.
  - rewrite Hhigh; reflexivity.
  - rewrite Hlow; reflexivity.
Defined.

(** The interpolation in exact arithmetic, as an order fact. *)
Lemma calculatePosition_Q_between (p : Q) (l : SvgLimits Q) :
  (0 < p)%Q -> (p < 100)%Q ->
  calculatePosition p l = (min l + (p / 100) * (max l - min l))%Q.
Proof.
  intros H0 H100.
  apply (calculatePosition_between (N := Number_Q)); now apply Qltb_lt.
Qed.

(** On [0, 100] the clamps agree with the interpolation. *)
Lemma calculatePosition_Q_formula (p : Q) (l : SvgLimits Q) :
  (0 <= p)%Q -> (p <= 100)%Q ->
  (calculatePosition p l == min l + (p / 100) * (max l - min l))%Q.
Proof.
  intros H0 H100.
  destruct (Qlt_le_dec 0 p) as [Hp|Hp]; [destruct (Qlt_le_dec p 100) as [Hq|Hq]|].
  - rewrite calculatePosition_Q_between by assumption. reflexivity.
  - assert (E : p == 100) by lra.
    rewrite (calculatePosition_high (N := Number_Q)) by (now apply Qle_bool_iff).
    rewrite E. field.
  - assert (E : p == 0) by lra.
    rewrite (calculatePosition_low (N := Number_Q)) by (now apply Qle_bool_iff).
    rewrite E. field.
Qed.

Lemma Qscale_le (p q d : Q) :
  (p <= q)%Q -> (0 <= d)%Q -> ((p / 100) * d <= (q / 100) * d)%Q.
Proof.
  intros Hpq Hd. apply Qmult_le_compat_r; [|exact Hd].
  unfold Qdiv. apply Qmult_le_compat_r; [exact Hpq | discriminate].
Qed.

Lemma calculatePosition_Q_increasing (p q : Q) (l : SvgLimits Q) :
  (min l < max l)%Q -> (0 <= p)%Q -> (p <= q)%Q -> (q <= 100)%Q ->
  (calculatePosition p l <= calculatePosition q l)%Q.
Proof.
  intros Hl H0 Hpq H100.
  rewrite !calculatePosition_Q_formula by lra.
  pose proof (Qscale_le (d := max l - min l) Hpq). lra.
Qed.

Lemma calculatePosition_Q_decreasing (p q : Q) (l : SvgLimits Q) :
  (max l < min l)%Q -> (0 <= p)%Q -> (p <= q)%Q -> (q <= 100)%Q ->
  (calculatePosition q l <= calculatePosition p l)%Q.
Proof.
  intros Hl H0 Hpq H100.
  rewrite !calculatePosition_Q_formula by lra.
  pose proof (Qscale_le (d := min l - max l) Hpq). lra.
Qed.




(** ** Normalising a reading *)

(** C2.  With the percent pseudo-unit as the unit of the data source a
    reading is its own percentage; with any other unit the percentage is the
    to-normalized reading divided by the to-normalized vessel capacity,
    times 100. *)
Theorem convertInputData_normalizes
  {num : Type} {N : Number num} {H : Host num}
  (convertLiters : num -> any num -> ConversionType -> num)
  (settings : Settings.LevelCardWidgetSettings num) (c : Component num) (v : num) :
  (Settings.datasourceUnits settings = percent ->
   convertInputData convertLiters settings c v = v) /\
  (Settings.datasourceUnits settings <> percent ->
   convertInputData convertLiters settings c v =
   (convertLiters v (Str (Settings.datasourceUnits settings)) ConversionType_to /
    convertLiters (volume c) (Str (Settings.volumeUnits settings)) ConversionType_to
    * n100)%num).
Proof.
  unfold convertInputData. split; intros Hu.
  - rewrite Hu, String.eqb_refl. reflexivity.
  - apply String.eqb_neq in Hu. rewrite Hu. reflexivity.
Qed.

(** Scenario B of the spec: a 200 L vessel read in liters at 50 L is 25%
    full; the same widget fed percentages takes 50 as 50%. *)
Lemma convertInputData_normalizes_witness :
  convertInputData Sample.convertLiters
    (Sample.configure "Vertical Cylinder" "L" percentage) Sample.running 50%float
  = 25%float /\
  convertInputData Sample.convertLiters Sample.settings Sample.running 50%float
  = 50%float.
Proof.
  split.
  - destruct (convertInputData_normalizes Sample.convertLiters
                (Sample.configure "Vertical Cylinder" "L" percentage)
                Sample.running 50%float) as [_ Hl].
    rewrite Hl; [reflexivity | discriminate].
  - destruct (convertInputData_normalizes Sample.convertLiters
                Sample.settings Sample.running 50%float) as [Hp _].
    rewrite Hp; reflexivity.
Defined.

(** ** Ticks without a usable value *)

Section Ticks.
Context {num : Type} {N : Number num} {H : Host num}.
Variable convertLiters : num -> any num -> ConversionType -> num.
Variable settings : Settings.LevelCardWidgetSettings num.
Implicit Type c : Component num.

(** A tick with no point, or a point whose value is undefined or null,
    leaves the component as it is. *)
Lemma updateData_absent ctxData ignoreAnimation c :
  match firstPoint ctxData with
  | Some data => isDefinedAndNotNull (snd data) = false
  | None => True
  end ->
  updateData convertLiters settings ctxData ignoreAnimation c = Some c.
Proof.
  unfold updateData. destruct (firstPoint ctxData) as [data|]; [|reflexivity].
  now intros ->.
Qed.

Lemma update_absent ctxData ignoreAnimation c :
  match firstPoint ctxData with
  | Some data => isDefinedAndNotNull (snd data) = false
  | None => True
  end ->
  update convertLiters settings ctxData ignoreAnimation c = Some c.
Proof.
  intros Ha. unfold update. destruct (svg c); [|reflexivity].
  now apply updateData_absent.
Qed.

(** Without a rendered template every tick is a no-op. *)
Lemma update_unrendered ctxData ignoreAnimation c :
  svg c = None -> update convertLiters settings ctxData ignoreAnimation c = Some c.
Proof. unfold update. now intros ->. Qed.

Lemma updates_unrendered ticks c :
  svg c = None -> updates convertLiters settings ticks c = Some c.
Proof.
  intros Hs. induction ticks as [|[ctxData ignoreAnimation] ticks IH]; simpl.
  - reflexivity.
  - now rewrite update_unrendered.
Qed.
End Ticks.

(** C5.  A tick whose measurement value is undefined or null is dropped as a
    whole: [update] returns the component it was given, so no colour
    processor, element, readout, overlay or tooltip has changed and what was
    displayed stays displayed. *)
Theorem update_undefined_or_null_aborts
  {num : Type} {N : Number num} {H : Host num}
  (convertLiters : num -> any num -> ConversionType -> num)
  (settings : Settings.LevelCardWidgetSettings num)
  (ctxData : list (list (num * any num))) (ignoreAnimation : bool)
  (c : Component num) (ts : num) (v : any num) :
  firstPoint ctxData = Some (ts, v) ->
  v = Undefined \/ v = Null ->
  update convertLiters settings ctxData ignoreAnimation c = Some c.
Proof.
  intros Hp Hv. apply update_absent. rewrite Hp. simpl.
  destruct Hv as [-> | ->]; reflexivity.
Qed.

(** The running sample widget receives a null value at time 1000. *)
Lemma update_undefined_or_null_aborts_witness :
  update Sample.convertLiters Sample.settings [[(1000%float, Null)]] false Sample.running
  = Some Sample.running.
Proof.
  apply (update_undefined_or_null_aborts Sample.convertLiters Sample.settings
           [[(1000%float, Null)]] false Sample.running (ts := 1000%float) (v := Null)).
  - reflexivity.
  - right; reflexivity.
Defined.

(** ** Resolution *)

Section Resolution.
Context {num : Type} {N : Number num} {H : Host num}.
Variable settings : Settings.LevelCardWidgetSettings num.
Implicit Type c : Component num.

Lemma getShape_placeholder (entityId : EntityId) c :
  id entityId = NULL_UUID ->
  getShape settings entityId c = (Some (Str (Settings.selectedShape settings)), c).
Proof.
  intros Hid. unfold getShape.
  now rewrite Hid, String.eqb_refl, andb_false_r.
Qed.

Lemma getSecondaryResources_placeholder (entityId : EntityId) c :
  id entityId = NULL_UUID ->
  getSecondaryResources settings entityId c =
  (Some (Num (Settings.volumeConstant settings), Str (Settings.units settings)), c).
Proof.
  intros Hid. unfold getSecondaryResources.
  now rewrite Hid, String.eqb_refl, orb_true_r.
Qed.

Lemma prepareAttributeNames_static :
  Settings.volumeSource settings <> attribute ->
  Settings.widgetUnitsSource settings <> attribute ->
  prepareAttributeNames settings = [].
Proof.
  unfold prepareAttributeNames.
  destruct (Settings.volumeSource settings), (Settings.widgetUnitsSource settings);
    simpl; congruence.
Qed.

Lemma getSecondaryResources_static (entityId : EntityId) c :
  Settings.volumeSource settings <> attribute ->
  Settings.widgetUnitsSource settings <> attribute ->
  getSecondaryResources settings entityId c =
  (Some (Num (Settings.volumeConstant settings), Str (Settings.units settings)), c).
Proof.
  intros Hv Hu. unfold getSecondaryResources.
  now rewrite (prepareAttributeNames_static Hv Hu).
Qed.

(** [getShape] touches nothing but the log of attribute requests. *)
Lemma getShape_frame (entityId : EntityId) c :
  svg (snd (getShape settings entityId c)) = svg c /\
  dom (snd (getShape settings entityId c)) = dom c /\
  resourceRequests (snd (getShape settings entityId c)) = resourceRequests c.
Proof.
  unfold getShape.
  destruct (LiquidWidgetDataSourceType_eqb _ _ && _); simpl; auto.
Qed.

Lemma getData_placeholder_requests (datasource : EntityId) c :
  id datasource = NULL_UUID ->
  attributeRequests (snd (getData settings datasource c)) = attributeRequests c.
Proof.
  intros Hid. unfold getData, switchMap.
  rewrite getShape_placeholder by exact Hid.
  destruct (svgParams (set_svgParams _ _)) as [params|]; [|reflexivity].
  unfold loadSVG. destruct (loadJsonResource (svgUrl params)); [|reflexivity].
  unfold map_. rewrite getSecondaryResources_placeholder by exact Hid.
  reflexivity.
Qed.

(** A shape without a template: [getData] emits [null] and leaves the
    container and the resource loader alone. *)
Lemma getData_no_template (datasource : EntityId) c (sh : any num) :
  fst (getShape settings (mkEntityId (entityType datasource) (id datasource)) c) = Some sh ->
  svgMapping sh = None ->
  exists c',
    getData settings datasource c = (Some None, c') /\
    svgParams c' = None /\ svg c' = svg c /\ dom c' = dom c /\
    resourceRequests c' = resourceRequests c.
Proof.
  intros Hsh Hmap. unfold getData, switchMap.
  pose proof (getShape_frame (mkEntityId (entityType datasource) (id datasource)) c)
    as (Fs & Fd & Fr).
  destruct (getShape settings _ c) as [[a|] c1]; simpl in *; [|discriminate].
  injection Hsh as ->. rewrite Hmap. simpl.
  eexists. split; [reflexivity|]. simpl. auto.
Qed.
End Resolution.

(** C6.  Bound to the placeholder entity ([NULL_UUID]) the resolver fetches
    nothing: [getShape] emits the configured shape, [getSecondaryResources]
    emits the configured volume constant and units, both leave the component
    (and with it the log of attribute requests) as it was, and the whole of
    [getData] adds no attribute request.  The secondary values resolve the
    same way, for any entity, when neither the volume nor the units come
    from an attribute. *)
Theorem placeholder_entity_never_fetches
  {num : Type} {N : Number num} {H : Host num}
  (settings : Settings.LevelCardWidgetSettings num) (datasource : EntityId)
  (c : Component num) :
  (id datasource = NULL_UUID ->
   getShape settings datasource c = (Some (Str (Settings.selectedShape settings)), c) /\
   getSecondaryResources settings datasource c =
     (Some (Num (Settings.volumeConstant settings), Str (Settings.units settings)), c) /\
   attributeRequests (snd (getData settings datasource c)) = attributeRequests c) /\
  (Settings.volumeSource settings <> attribute ->
   Settings.widgetUnitsSource settings <> attribute ->
   getSecondaryResources settings datasource c =
     (Some (Num (Settings.volumeConstant settings), Str (Settings.units settings)), c)).
Proof.
  split.
  - intros Hid. split; [|split].
    + now apply getShape_placeholder.
    + now apply getSecondaryResources_placeholder.
    + now apply getData_placeholder_requests.
  - intros Hv Hu. now apply getSecondaryResources_static.
Qed.

(** The sample widget with the shape, the volume and the units all driven
    by attributes, bound to the placeholder entity: the attribute service,
    which would answer with another shape, volume and units, is not asked. *)
Lemma placeholder_entity_never_fetches_witness :
  getShape SampleMore.attributeDriven Sample.placeholder SampleMore.attributeFresh
    = (Some (Str "Vertical Cylinder"), SampleMore.attributeFresh) /\
  getSecondaryResources SampleMore.attributeDriven Sample.placeholder SampleMore.attributeFresh
    = (Some (Num 200%float, Str "%"), SampleMore.attributeFresh) /\
  attributeRequests
    (snd (getData SampleMore.attributeDriven Sample.placeholder SampleMore.attributeFresh))
  = [].
Proof.
  destruct (placeholder_entity_never_fetches SampleMore.attributeDriven Sample.placeholder
              SampleMore.attributeFresh) as [Hnull _].
  exact (Hnull eq_refl).
Defined.

Section NoTemplate.
Context {num : Type} {N : Number num} {H : Host num}.
Variable convertLiters : num -> any num -> ConversionType -> num.
Variable settings : Settings.LevelCardWidgetSettings num.

Lemma declareStyles_frame (c : Component num) :
  svg (declareStyles settings c) = svg c /\
  dom (declareStyles settings c) = dom c /\
  svgParams (declareStyles settings c) = svgParams c /\
  attributeRequests (declareStyles settings c) = attributeRequests c /\
  resourceRequests (declareStyles settings c) = resourceRequests c.
Proof. repeat split. Qed.

Lemma ngOnInit_no_template (datasource : EntityId) ctxData (c : Component num) (sh : any num) :
  svg c = None ->
  fst (getShape settings (mkEntityId (entityType datasource) (id datasource))
         (declareStyles settings c)) = Some sh ->
  svgMapping sh = None ->
  exists c',
    ngOnInit convertLiters settings datasource ctxData c = Some c' /\
    svgParams c' = None /\ svg c' = None /\ dom c' = dom c /\
    resourceRequests c' = resourceRequests c.
Proof.
  intros Hsvg Hsh Hmap.
  destruct (getData_no_template settings datasource _ Hsh Hmap)
    as (c' & Hd & Hp & Hs & Hdom & Hr).
  destruct (declareStyles_frame c) as (Es & Ed & _ & _ & Er).
  rewrite Es in Hs. rewrite Ed in Hdom. rewrite Er in Hr.
  exists c'. unfold ngOnInit. rewrite Hd. simpl.
  repeat split; try assumption; congruence.
Qed.
End NoTemplate.

(** C7.  When the resolved shape has no entry in [svgMapping], [getData]
    emits [null]; [ngOnInit] then ends with no template loaded, the
    container untouched and [svg] undefined; and from there every run of
    [update] calls, on whatever data, returns the very same component: no
    element, no field and neither request log changes, so the lookup is not
    made again. *)
Theorem unknown_shape_is_terminal
  {num : Type} {N : Number num} {H : Host num}
  (convertLiters : num -> any num -> ConversionType -> num)
  (settings : Settings.LevelCardWidgetSettings num) (datasource : EntityId)
  (ctxData : list (list (num * any num))) (c : Component num) (sh : any num) :
  svg c = None ->
  fst (getShape settings (mkEntityId (entityType datasource) (id datasource))
         (declareStyles settings c)) = Some sh ->
  svgMapping sh = None ->
  fst (getData settings datasource (declareStyles settings c)) = Some None /\
  exists c',
    ngOnInit convertLiters settings datasource ctxData c = Some c' /\
    svgParams c' = None /\ svg c' = None /\ dom c' = dom c /\
    resourceRequests c' = resourceRequests c /\
    forall ticks, updates convertLiters settings ticks c' = Some c'.
Proof.
  intros Hsvg Hsh Hmap. split.
  - destruct (getData_no_template settings datasource _ Hsh Hmap) as (c' & Hd & _).
    now rewrite Hd.
  - destruct (ngOnInit_no_template convertLiters settings datasource ctxData c Hsvg Hsh Hmap)
      as (c' & Hi & Hp & Hs & Hd & Hr).
    exists c'. repeat split; try assumption.
    intros ticks. now apply updates_unrendered.
Qed.

(** The sample widget configured with a shape the table does not know, then
    fed two ticks. *)
Lemma unknown_shape_is_terminal_witness :
  fst (getData (Sample.configure "Sphere" "%" percentage) Sample.datasource
         (declareStyles (Sample.configure "Sphere" "%" percentage) Sample.fresh))
  = Some None /\
  exists c',
    ngOnInit Sample.convertLiters (Sample.configure "Sphere" "%" percentage)
             Sample.datasource [[(1000%float, Num 50%float)]] Sample.fresh = Some c' /\
    svg c' = None /\ dom c' = [] /\
    updates Sample.convertLiters (Sample.configure "Sphere" "%" percentage)
            [([[(2000%float, Num 60%float)]], false); ([[(3000%float, Num 70%float)]], false)] c'
    = Some c'.
Proof.
  destruct (@unknown_shape_is_terminal _ _ _ Sample.convertLiters
              (Sample.configure "Sphere" "%" percentage) Sample.datasource
              [[(1000%float, Num 50%float)]] Sample.fresh (Str "Sphere")
              eq_refl eq_refl eq_refl)
    as (Hnull & c' & Hi & _ & Hs & Hd & _ & Hu).
  split; [exact Hnull|].
  exists c'. repeat split; try assumption. apply Hu.
Defined.

(** ** Tooltip content *)

Lemma append_assoc (a b c : string) : ((a ++ b) ++ c = a ++ (b ++ c))%string.
Proof. induction a as [|x a IH]; simpl; [reflexivity | now rewrite IH]. Qed.

(** ** Elements under the container *)

Section DomFacts.
Context {num : Type}.
Implicit Types (d : list (Element num)) (e : Element num) (sel : JQuery).

Lemma objGet_objSet_same (V : Type) (k : string) (v : V) (o : obj V) :
  objGet k (objSet k v o) = Some v.
Proof.
  induction o as [|[k' v'] o IH]; simpl.
  - now rewrite String.eqb_refl.
  - destruct (String.eqb k k') eqn:E; simpl.
    + now rewrite String.eqb_refl.
    + now rewrite E.
Qed.

Lemma objGet_objSet_other (V : Type) (k k0 : string) (v : V) (o : obj V) :
  k <> k0 -> objGet k (objSet k0 v o) = objGet k o.
Proof.
  intros Hk. induction o as [|[k' v'] o IH]; simpl.
  - apply String.eqb_neq in Hk. now rewrite Hk.
  - destruct (String.eqb k0 k') eqn:E; simpl.
    + apply String.eqb_eq in E. subst k'.
      apply String.eqb_neq in Hk. now rewrite Hk.
    + now rewrite IH.
Qed.

Lemma nth_error_domMapFrom k sel (f : Element num -> Element num) d i :
  nth_error (domMapFrom k sel f d) i =
  option_map (fun e => if selected (k + i) sel then f e else e) (nth_error d i).
Proof.
  revert k i. induction d as [|e d IH]; intros k [|i]; simpl; try reflexivity.
  - now rewrite Nat.add_0_r.
  - rewrite IH. now rewrite Nat.add_succ_r.
Qed.

Lemma nth_error_each sel (f : Element num -> Element num) d i :
  nth_error (each sel f d) i =
  option_map (fun e => if selected i sel then f e else e) (nth_error d i).
Proof. unfold each. now rewrite nth_error_domMapFrom. Qed.

Lemma selected_positions_below (p : Element num -> bool) d k j :
  (j < k)%nat -> selected j (positions p k d) = false.
Proof.
  revert k. induction d as [|e d IH]; intros k Hj; simpl; [reflexivity|].
  destruct (p e); simpl.
  - rewrite (proj2 (Nat.eqb_neq j k)) by lia. simpl. apply IH. lia.
  - apply IH. lia.
Qed.

Lemma selected_positions (p : Element num -> bool) d k i :
  selected (k + i) (positions p k d) =
  match nth_error d i with Some e => p e | None => false end.
Proof.
  revert k i. induction d as [|e d IH]; intros k [|i]; simpl; try reflexivity.
  - rewrite Nat.add_0_r. destruct (p e); simpl.
    + now rewrite Nat.eqb_refl.
    + apply selected_positions_below. lia.
  - replace (k + S i)%nat with (S k + i)%nat by lia.
    destruct (p e); cbn [selected existsb].
    + rewrite (proj2 (Nat.eqb_neq (S k + i) k)) by lia. apply IH.
    + apply IH.
Qed.

Lemma selected_findClass cls d i :
  selected i (findClass cls d) =
  match nth_error d i with Some e => hasClass cls e | None => false end.
Proof. unfold findClass. exact (selected_positions (hasClass cls) d 0 i). Qed.

(** An element of class [cls] is changed by a call on [find('.cls')], any
    other is not. *)
Lemma nth_error_each_findClass cls (f : Element num -> Element num) d i e :
  nth_error d i = Some e ->
  nth_error (each (findClass cls d) f d) i = Some (if hasClass cls e then f e else e).
Proof.
  intros He. rewrite nth_error_each, selected_findClass, He. reflexivity.
Qed.
End DomFacts.

(** ** Moving the level *)

Section Level.
Context {num : Type} {N : Number num} {H : Host num}.
Implicit Types (c : Component num) (e : Element num).
Local Open Scope string_scope.

Lemma hasClass_move cls name target ignoreAnimation e :
  hasClass cls (move name target ignoreAnimation e) = hasClass cls e.
Proof. unfold move. now destruct ignoreAnimation. Qed.

Lemma updateLevel_nth (newY percentage : num) (ignoreAnimation : bool) c i e :
  nth_error (dom c) i = Some e ->
  nth_error (dom (updateLevel newY percentage ignoreAnimation c)) i =
  Some (leveled (if negb (strictEqStr (shape c) vCylinder) then "y" else "cy")
                newY ignoreAnimation
                (color (ColorProcessor_update (liquidColor c) (Num percentage))) e).
Proof.
  intros He. unfold updateLevel, leveled, onDom, jq_css, jq_animate, jq_attr.
  cbv zeta. cbn [dom set_dom set_liquidColor liquidColor shape].
  rewrite nth_error_each, selected_findClass, He.
  destruct ignoreAnimation; cbn [dom set_dom].
  - rewrite nth_error_each, selected_findClass, He.
    rewrite nth_error_each, selected_findClass, He.
    cbn [option_map]. unfold move.
    destruct (hasClass "tb-liquid-fill" e), (hasClass "tb-liquid-surface" e);
      reflexivity.
  - rewrite nth_error_each, selected_findClass, He.
    rewrite nth_error_each, selected_findClass, He.
    cbn [option_map]. unfold move.
    destruct (hasClass "tb-liquid-fill" e), (hasClass "tb-liquid-surface" e);
      reflexivity.
Qed.

Lemma movedTo_move name target ignoreAnimation e :
  movedTo name target ignoreAnimation e (move name target ignoreAnimation e).
Proof.
  unfold movedTo, move. destruct ignoreAnimation; cbn.
  - split; [apply objGet_objSet_same | reflexivity].
  - split; [reflexivity|]. eexists. split; [reflexivity|]. now left.
Qed.

Lemma movedTo_unmoved name target ignoreAnimation e e1 e2 :
  movedTo name target ignoreAnimation e e1 -> unmoved e1 e2 ->
  movedTo name target ignoreAnimation e e2.
Proof.
  unfold movedTo, unmoved. intros Hm [Hs Ha]. rewrite Hs, Ha. exact Hm.
Qed.

Lemma movedTo_move_again name name' target ignoreAnimation e e1 :
  movedTo name target ignoreAnimation e e1 ->
  movedTo name target ignoreAnimation e (move name' target ignoreAnimation e1).
Proof.
  unfold movedTo, move. destruct ignoreAnimation; cbn.
  - intros [Hs Ha]. split; [|exact Ha].
    destruct (String.eqb name name') eqn:E.
    + apply String.eqb_eq in E. subst name'. apply objGet_objSet_same.
    + apply String.eqb_neq in E. now rewrite objGet_objSet_other.
  - intros [Hs (queued & Ha & Hin)]. split; [exact Hs|].
    exists (queued ++ [(name', target, animationSpeed)])%list. split.
    + now rewrite Ha, <- app_assoc.
    + apply in_or_app. now left.
Qed.

Lemma unmoved_setAttr name value e : unmoved e (setAttr name value e).
Proof. now split. Qed.

Lemma unmoved_setHtml markup e : unmoved e (setHtml markup e).
Proof. now split. Qed.

Lemma unmoved_refl e : unmoved e e.
Proof. now split. Qed.

Lemma unmoved_trans e e1 e2 : unmoved e e1 -> unmoved e1 e2 -> unmoved e e2.
Proof. unfold unmoved. intros [A B] [C D]. split; congruence. Qed.

(** The fill body goes along "y"; a surface goes along the attribute of the
    shape; an element of neither class stays. *)
Lemma leveled_fill attr newY ignoreAnimation fillColor e :
  hasClass "tb-liquid-fill" e = true ->
  movedTo "y" newY ignoreAnimation e (leveled attr newY ignoreAnimation fillColor e).
Proof.
  intros Hf. unfold leveled. rewrite Hf.
  assert (M : movedTo "y" newY ignoreAnimation e
                (setAttr "fill" fillColor (move "y" newY ignoreAnimation e))).
  { eapply movedTo_unmoved; [apply movedTo_move | apply unmoved_setAttr]. }
  destruct (hasClass "tb-liquid-surface" e); [|exact M].
  cbv zeta. destruct (hasClass "tb-liquid" e).
  - eapply movedTo_unmoved; [|apply unmoved_setAttr]. now apply movedTo_move_again.
  - now apply movedTo_move_again.
Qed.

Lemma leveled_surface attr newY ignoreAnimation fillColor e :
  hasClass "tb-liquid-surface" e = true ->
  movedTo attr newY ignoreAnimation e (leveled attr newY ignoreAnimation fillColor e).
Proof.
  intros Hs. unfold leveled. rewrite Hs. cbv zeta.
  assert (M : forall e1, unmoved e e1 ->
              movedTo attr newY ignoreAnimation e (move attr newY ignoreAnimation e1)).
  { intros e1 [Es Ea]. pose proof (movedTo_move attr newY ignoreAnimation e1) as M.
    unfold movedTo in *. rewrite <- Es, <- Ea.
    destruct ignoreAnimation; exact M. }
  destruct (hasClass "tb-liquid-fill" e) eqn:Hf.
  - assert (M' : movedTo attr newY ignoreAnimation e
                   (move attr newY ignoreAnimation
                      (setAttr "fill" fillColor (move "y" newY ignoreAnimation e)))).
    { unfold movedTo, move. destruct ignoreAnimation; cbn.
      - split; [apply objGet_objSet_same | reflexivity].
      - split; [reflexivity|].
        exists [("y", newY, animationSpeed); (attr, newY, animationSpeed)].
        split; [now rewrite <- app_assoc | right; now left]. }
    destruct (hasClass "tb-liquid" e); [|exact M'].
    eapply movedTo_unmoved; [exact M' | apply unmoved_setAttr].
  - destruct (hasClass "tb-liquid" e).
    + eapply movedTo_unmoved; [apply M, unmoved_refl | apply unmoved_setAttr].
    + apply M, unmoved_refl.
Qed.

Lemma leveled_other attr newY ignoreAnimation fillColor e :
  hasClass "tb-liquid-fill" e = false ->
  hasClass "tb-liquid-surface" e = false ->
  leveled attr newY ignoreAnimation fillColor e = e.
Proof. intros Hf Hs. unfold leveled. now rewrite Hf, Hs. Qed.

(** A surface that is not also the fill body is moved along its own
    attribute only. *)
Lemma leveled_surface_only attr other newY ignoreAnimation fillColor e :
  hasClass "tb-liquid-fill" e = false ->
  other <> attr ->
  objGet other (style (leveled attr newY ignoreAnimation fillColor e))
  = objGet other (style e) /\
  forall target ms,
    In (other, target, ms) (animations (leveled attr newY ignoreAnimation fillColor e)) ->
    In (other, target, ms) (animations e).
Proof.
  intros Hf Hne. unfold leveled, move. rewrite Hf. cbv zeta.
  destruct (hasClass "tb-liquid-surface" e); [|now split].
  destruct ignoreAnimation, (hasClass "tb-liquid" e); cbn;
    (split; [first [now apply objGet_objSet_other | reflexivity]|]);
    intros target ms Hin; try exact Hin;
    (apply in_app_or in Hin; destruct Hin as [Hin|[Hin|[]]];
     [exact Hin | congruence]).
Qed.
End Level.

Local Open Scope string_scope.

(** C10.  On every level update each element under the container is dealt
    with by its classes: the fill body (tb-liquid-fill) is moved to the new
    coordinate along "y" for every shape; a liquid surface
    (tb-liquid-surface) is moved to the same coordinate along "cy" when the
    shape is the vertical cylinder and along "y" for any other shape, and,
    unless it is the fill body as well, along that attribute only; an
    element of neither class is left as it is. *)
Theorem updateLevel_position_attribute
  {num : Type} {N : Number num} {H : Host num}
  (newY percentage : num) (ignoreAnimation : bool) (c : Component num)
  (i : nat) (e : Element num) :
  nth_error (dom c) i = Some e ->
  exists e',
    nth_error (dom (updateLevel newY percentage ignoreAnimation c)) i = Some e' /\
    (hasClass "tb-liquid-fill" e = true -> movedTo "y" newY ignoreAnimation e e') /\
    (hasClass "tb-liquid-surface" e = true ->
     movedTo (if strictEqStr (shape c) vCylinder then "cy" else "y")
             newY ignoreAnimation e e') /\
    (hasClass "tb-liquid-surface" e = true -> hasClass "tb-liquid-fill" e = false ->
     let other := if strictEqStr (shape c) vCylinder then "y" else "cy" in
     objGet other (style e') = objGet other (style e) /\
     forall target ms, In (other, target, ms) (animations e') ->
                       In (other, target, ms) (animations e)) /\
    (hasClass "tb-liquid-fill" e = false -> hasClass "tb-liquid-surface" e = false ->
     e' = e).
Proof.
  intros He. eexists. split; [apply (updateLevel_nth _ _ _ _ _ He)|].
  split; [|split; [|split]].
  - apply leveled_fill.
  - intros Hs. destruct (strictEqStr (shape c) vCylinder); now apply leveled_surface.
  - intros _ Hf. cbv zeta.
    destruct (strictEqStr (shape c) vCylinder);
      apply leveled_surface_only; (assumption || discriminate).
  - apply leveled_other.
Qed.

(** In the sample widget, a vertical cylinder, an immediate update to
    coordinate 100 sets "cy" on the surface ellipse and "y" on the fill
    rectangle. *)
Lemma updateLevel_position_attribute_witness :
  (exists e',
     nth_error (dom (updateLevel 100%float 50%float true Sample.running)) 3 = Some e' /\
     objGet "cy" (style e') = Some (Num 100%float) /\
     objGet "y" (style e') = None) /\
  (exists e',
     nth_error (dom (updateLevel 100%float 50%float true Sample.running)) 2 = Some e' /\
     objGet "y" (style e') = Some (Num 100%float)).
Proof.
  split.
  - destruct (@updateLevel_position_attribute _ _ _ 100%float 50%float true
                Sample.running 3
                (Sample.element "ellipse" ["tb-liquid-surface"; "tb-liquid"]) eq_refl)
      as (e' & Hn & _ & Hs & Ho & _).
    exists e'. split; [exact Hn|]. split.
    + exact (proj1 (Hs eq_refl)).
    + exact (proj1 (Ho eq_refl eq_refl)).
  - destruct (@updateLevel_position_attribute _ _ _ 100%float 50%float true
                Sample.running 2 (Sample.element "rect" ["tb-liquid-fill"]) eq_refl)
      as (e' & Hn & Hf & _).
    exists e'. split; [exact Hn|]. exact (proj1 (Hf eq_refl)).
Defined.

(** ** The steps of a tick

    Each step that calls [toFixed] is split in two: the texts it formats,
    which is where it can throw, and what it does with them. *)

Section Steps.
Context {num : Type} {N : Number num} {H : Host num}.
Variable convertLiters : num -> any num -> ConversionType -> num.
Variable settings : Settings.LevelCardWidgetSettings num.
Implicit Types (c : Component num) (e : Element num).

Lemma updateValueElement_run (data : any num) (pct : num) c :
  updateValueElement convertLiters settings data pct c =
  match readoutOf convertLiters settings c data pct with
  | Some value =>
      option_map (fun vol => readoutShown settings value vol pct c)
                 (capacityOf convertLiters settings c)
  | None => None
  end.
Proof.
  unfold updateValueElement, readoutOf, capacityOf, volumeReadoutOf, readoutShown,
    volumeTextStyleOf.
  destruct (match data with Num _ => _ | _ => Some NA end) as [value|]; [|reflexivity].
  cbv zeta. fields.
  destruct (overlayContainer c); fields;
    destruct (Settings.layout settings); try reflexivity;
    match goal with |- context [toFixed ?x ?d] => destruct (toFixed x d) end; reflexivity.
Qed.

Lemma getTooltipContent_run (value : option (num * any num)) c :
  getTooltipContent convertLiters settings value c =
  option_map (fun level => tooltipBuilt convertLiters settings level value c)
             (levelOf convertLiters settings c
                      (snd (match value with Some v => v | None => (n0, Str "") end))).
Proof.
  unfold getTooltipContent, levelOf, levelValueOf, tooltipValueOf, tooltipBuilt,
    levelTextStyleOf, dateTextStyleOf.
  cbv zeta. fields.
  destruct (Settings.showTooltipLevel settings); [|reflexivity].
  destruct (snd (match value with Some v => v | None => (n0, Str "") end));
    try reflexivity.
  match goal with |- context [toFixed ?x ?d] => destruct (toFixed x d) end; reflexivity.
Qed.

Lemma updateTooltip_run (value : num * any num) c :
  updateTooltip convertLiters settings value c =
  option_map (fun level => tooltipPushed convertLiters settings level value c)
             (levelOf convertLiters settings c (snd value)).
Proof.
  unfold updateTooltip, tooltipPushed. rewrite getTooltipContent_run.
  destruct (levelOf convertLiters settings c (snd value)) as [level|]; [|reflexivity].
  cbn [option_map]. now destruct (tooltipBuilt convertLiters settings level (Some value) c).
Qed.

(** Without a measurement the level row, if shown, reads "N/A": no number
    is formatted and [createTooltip] does not throw. *)
Lemma createTooltip_run c :
  createTooltip convertLiters settings c = Some (tooltipCreated convertLiters settings c).
Proof.
  unfold createTooltip, tooltipCreated. rewrite getTooltipContent_run.
  unfold levelOf, levelValueOf, tooltipValueOf. cbn [snd].
  destruct (Settings.showTooltipLevel settings); cbn [option_map];
    now destruct (tooltipBuilt convertLiters settings _ None c).
Qed.

Lemma readoutOf_reads c c0 (v : any num) (pct : num) :
  volume c0 = volume c -> widgetUnits c0 = widgetUnits c ->
  readoutOf convertLiters settings c0 v pct = readoutOf convertLiters settings c v pct.
Proof.
  intros Hv Hw. unfold readoutOf, convertOutputData. now rewrite Hv, Hw.
Qed.

Lemma capacityOf_reads c c0 :
  volume c0 = volume c -> widgetUnits c0 = widgetUnits c ->
  capacityOf convertLiters settings c0 = capacityOf convertLiters settings c.
Proof.
  intros Hv Hw. unfold capacityOf, volumeReadoutOf. now rewrite Hv, Hw.
Qed.

Lemma tooltipValueOf_reads c c0 (v : any num) :
  volume c0 = volume c -> widgetUnits c0 = widgetUnits c ->
  tooltipValueOf convertLiters settings c0 v = tooltipValueOf convertLiters settings c v.
Proof.
  intros Hv Hw.
  unfold tooltipValueOf, convertTooltipData, convertInputData, convertOutputData.
  now rewrite Hv, Hw.
Qed.

Lemma levelOf_reads c c0 (v : any num) :
  volume c0 = volume c -> widgetUnits c0 = widgetUnits c ->
  levelOf convertLiters settings c0 v = levelOf convertLiters settings c v.
Proof.
  intros Hv Hw. unfold levelOf, levelValueOf.
  now rewrite (tooltipValueOf_reads c c0 v Hv Hw).
Qed.

(** A value that is not a number needs no formatting. *)
Lemma readoutOf_nonnumeric c (v : any num) (pct : num) :
  isNumber v = false -> readoutOf convertLiters settings c v pct = Some NA.
Proof. destruct v; (discriminate || reflexivity). Qed.

Lemma levelOf_nonnumeric c (v : any num) :
  isNumber v = false ->
  levelOf convertLiters settings c v
  = Some (if Settings.showTooltipLevel settings then NA else ""%string).
Proof.
  intros Hv. unfold levelOf, levelValueOf, tooltipValueOf.
  destruct (Settings.showTooltipLevel settings); [|reflexivity].
  destruct v; (discriminate || reflexivity).
Qed.

Lemma percentageOf_nonnumeric c (v : any num) :
  isNumber v = false -> percentageOf convertLiters settings c v = n0.
Proof. destruct v; (discriminate || reflexivity). Qed.

(** When [toFixed] takes the configured digits, every text is formatted. *)
Lemma readoutOf_accepted c (v : any num) (pct : num) :
  accepts (orZero (Settings.decimals settings)) ->
  exists value, readoutOf convertLiters settings c v pct = Some value.
Proof.
  intros Ha. unfold readoutOf. destruct v; try (now eexists).
  match goal with |- context [toFixed ?x ?d] =>
    destruct (toFixed x d) eqn:E; [now eexists | now elim (Ha x)] end.
Qed.

Lemma capacityOf_accepted c :
  accepts (orZero (Settings.decimals settings)) ->
  exists vol, capacityOf convertLiters settings c = Some vol.
Proof.
  intros Ha. unfold capacityOf, volumeReadoutOf.
  destruct (Settings.layout settings); try (now eexists).
  match goal with |- context [toFixed ?x ?d] =>
    destruct (toFixed x d) eqn:E; [now eexists | now elim (Ha x)] end.
Qed.

Lemma levelOf_accepted c (v : any num) :
  accepts (Settings.tooltipLevelDecimals settings) ->
  exists level, levelOf convertLiters settings c v = Some level.
Proof.
  intros Ha. unfold levelOf, levelValueOf.
  destruct (Settings.showTooltipLevel settings); [|now eexists].
  destruct (tooltipValueOf convertLiters settings c v); try (now eexists).
  match goal with |- context [toFixed ?x ?d] =>
    destruct (toFixed x d) eqn:E; [now eexists | now elim (Ha x)] end.
Qed.

(** *** What each step does to an element and to the fields *)

Lemma updateShapeColor_nth (value : num) c i e :
  nth_error (dom c) i = Some e ->
  exists e1,
    nth_error (dom (updateShapeColor value c)) i = Some e1 /\
    unmoved e e1 /\ classes e1 = classes e /\ html e1 = html e.
Proof.
  intros He. unfold updateShapeColor, onDom. cbv zeta.
  cbn [dom set_dom set_tankColor tankColor].
  rewrite !nth_error_each, He. cbn [option_map].
  eexists. split; [reflexivity|].
  destruct (selected i (findClass "tb-shape-stroke" (dom c))),
           (selected i (findClass "tb-shape-fill" (dom c))); now repeat split.
Qed.

Lemma leveled_keeps attr (newY : num) ignoreAnimation fillColor e :
  classes (leveled attr newY ignoreAnimation fillColor e) = classes e /\
  html (leveled attr newY ignoreAnimation fillColor e) = html e.
Proof.
  unfold leveled, move.
  destruct ignoreAnimation, (hasClass "tb-liquid-fill" e),
    (hasClass "tb-liquid-surface" e), (hasClass "tb-liquid" e); now split.
Qed.

Lemma hasClass_classes cls e e' : classes e' = classes e -> hasClass cls e' = hasClass cls e.
Proof. unfold hasClass. now intros ->. Qed.

Lemma movedTo_from name (target : num) ignoreAnimation e e0 e' :
  unmoved e e0 -> movedTo name target ignoreAnimation e0 e' ->
  movedTo name target ignoreAnimation e e'.
Proof.
  unfold unmoved, movedTo. intros [Hs Ha]. rewrite Hs, Ha. trivial.
Qed.

(** [updateSvg] at [percentage]: the colours see the percentage, the level
    goes to the position computed from it. *)
Lemma updateSvg_resolved (pct : num) ignoreAnimation c params :
  svgParams c = Some params ->
  updateSvg pct ignoreAnimation c =
  Some (updateLevel (calculatePosition pct (limits params)) pct ignoreAnimation
                    (updateShapeColor pct c)).
Proof.
  intros Hp. unfold updateSvg. rewrite Hp. destruct params as [u [lo hi]]. reflexivity.
Qed.

(** What the geometry steps leave alone. *)
Lemma updateSvg_steps_keep (pct newY : num) ignoreAnimation c :
  let c1 := updateLevel newY pct ignoreAnimation (updateShapeColor pct c) in
  valueColor c1 = valueColor c /\ widgetUnits c1 = widgetUnits c /\ volume c1 = volume c /\
  backgroundOverlayColor c1 = backgroundOverlayColor c /\
  tooltipLevelColor c1 = tooltipLevelColor c /\ tooltipDateFormat c1 = tooltipDateFormat c /\
  tooltip c1 = tooltip c /\ tooltipContent c1 = tooltipContent c /\
  tankColor c1 = ColorProcessor_update (tankColor c) (Num pct) /\
  liquidColor c1 = ColorProcessor_update (liquidColor c) (Num pct) /\
  resolvedOf c1 = resolvedOf c /\ requestsOf c1 = requestsOf c.
Proof. cbv zeta. unfold updateLevel. destruct ignoreAnimation; now repeat split. Qed.

Lemma readoutShown_nth (value vol : string) (pct : num) c i e :
  nth_error (dom c) i = Some e ->
  exists e',
    nth_error (dom (readoutShown settings value vol pct c)) i = Some e' /\
    unmoved e e' /\
    html e' = htmlAfter settings c value vol e.
Proof.
  intros He. unfold readoutShown, htmlAfter, readoutContentOf. cbv zeta.
  fields. fold (valueTextStyleOf settings c value).
  set (overlaid := match overlayContainer c with
                   | Some o => _
                   | None => _
                   end).
  assert (Ho : exists e1, nth_error (dom overlaid) i = Some e1 /\ unmoved e e1 /\
                          classes e1 = classes e /\ html e1 = html e /\
                          widgetUnits overlaid = widgetUnits c).
  { subst overlaid. destruct (overlayContainer c) as [o|].
    - unfold jq_attr. fields.
      rewrite nth_error_each, He. cbn [option_map].
      eexists. split; [reflexivity|]. destruct (selected i o); now repeat split.
    - fields. exists e. now repeat split. }
  destruct Ho as (e1 & He1 & Hu1 & Hc1 & Hh1 & Hwu).
  assert (Hcls : forall cls, selected i (findClass cls (dom overlaid)) = hasClass cls e).
  { intros cls. rewrite selected_findClass, He1. unfold hasClass. now rewrite Hc1. }
  destruct (Settings.layout settings); rewrite ?Hwu.
  - match goal with |- context [truthyStr ?content] => destruct (truthyStr content) end.
    + unfold jq_html. fields. rewrite nth_error_each, He1, Hcls. cbn [option_map andb].
      eexists. split; [reflexivity|].
      destruct (hasClass "absolute-value-container" e); split;
        try exact Hu1; try exact Hh1; reflexivity.
    + exists e1. split; [exact He1|]. split; [exact Hu1|]. exact Hh1.
  - match goal with |- context [truthyStr ?content] => destruct (truthyStr content) end.
    + unfold jq_html. fields. rewrite nth_error_each, He1, Hcls. cbn [option_map andb].
      eexists. split; [reflexivity|].
      destruct (hasClass "percentage-value-container" e); split;
        try exact Hu1; try exact Hh1; reflexivity.
    + exists e1. split; [exact He1|]. split; [exact Hu1|]. exact Hh1.
  - exists e1. split; [exact He1|]. split; [exact Hu1|]. exact Hh1.
Qed.

Lemma readoutShown_keep (value vol : string) (pct : num) c :
  let c2 := readoutShown settings value vol pct c in
  tankColor c2 = tankColor c /\ liquidColor c2 = liquidColor c /\
  valueColor c2 = ColorProcessor_update (valueColor c) (Str value) /\
  backgroundOverlayColor c2 = ColorProcessor_update (backgroundOverlayColor c) (Num pct) /\
  tooltipLevelColor c2 = tooltipLevelColor c /\ tooltipDateFormat c2 = tooltipDateFormat c /\
  tooltip c2 = tooltip c /\ tooltipContent c2 = tooltipContent c /\
  volume c2 = volume c /\ widgetUnits c2 = widgetUnits c /\
  resolvedOf c2 = resolvedOf c /\ requestsOf c2 = requestsOf c.
Proof.
  cbv zeta. unfold readoutShown. cbv zeta.
  destruct (overlayContainer _) eqn:Ho; fields; rewrite ?Ho;
    destruct (Settings.layout settings);
    repeat match goal with |- context [if ?b then _ else _] => destruct b end;
    fields; now repeat split.
Qed.

Lemma tooltipPushed_effect (level : string) (value : num * any num) c :
  let c' := tooltipPushed convertLiters settings level value c in
  tooltipContent c' = fst (tooltipBuilt convertLiters settings level (Some value) c) /\
  tooltip c'
  = option_map (fun tip => mkTooltip (distance tip) (Some (tooltipContent c'))) (tooltip c) /\
  tooltipLevelColor c'
  = ColorProcessor_update (tooltipLevelColor c)
                          (tooltipValueOf convertLiters settings c (snd value)) /\
  tooltipDateFormat c' = DateFormatProcessor_update (tooltipDateFormat c) (fst value).
Proof.
  cbv zeta. unfold tooltipPushed, tooltipBuilt. cbv zeta. cbn [fst snd]. fields.
  destruct (tooltip c) eqn:E; fields; rewrite ?E; now repeat split.
Qed.

Lemma tooltipPushed_keep (level : string) (value : num * any num) c :
  let c' := tooltipPushed convertLiters settings level value c in
  dom c' = dom c /\ tankColor c' = tankColor c /\ liquidColor c' = liquidColor c /\
  valueColor c' = valueColor c /\ backgroundOverlayColor c' = backgroundOverlayColor c /\
  resolvedOf c' = resolvedOf c /\ requestsOf c' = requestsOf c.
Proof.
  cbv zeta. unfold tooltipPushed, tooltipBuilt. cbv zeta. cbn [fst snd]. fields.
  destruct (tooltip c); now repeat split.
Qed.

(** *** A tick on a rendered widget *)

(** An accepted tick, step by step: the geometry, then the texts of the
    readout, then, if tooltips are on, the text of the level row; the tick
    throws when a text cannot be formatted. *)
Lemma update_run ctxData ignoreAnimation c sel params (ts : num) (v : any num) :
  svg c = Some sel ->
  svgParams c = Some params ->
  firstPoint ctxData = Some (ts, v) ->
  isDefinedAndNotNull v = true ->
  let pct := percentageOf convertLiters settings c v in
  let c1 := updateLevel (calculatePosition pct (limits params)) pct ignoreAnimation
                        (updateShapeColor pct c) in
  update convertLiters settings ctxData ignoreAnimation c =
  match readoutOf convertLiters settings c v pct, capacityOf convertLiters settings c with
  | Some value, Some vol =>
      let c2 := readoutShown settings value vol pct c1 in
      if Settings.showTooltip settings
      then option_map (fun level => tooltipPushed convertLiters settings level (ts, v) c2)
                      (levelOf convertLiters settings c v)
      else Some c2
  | _, _ => None
  end.
Proof.
  intros Hsvg Hp Hfp Hdef. cbv zeta.
  unfold update, updateData. rewrite Hsvg, Hfp. cbn [snd]. rewrite Hdef.
  fold (percentageOf convertLiters settings c v).
  set (pct := percentageOf convertLiters settings c v).
  rewrite (updateSvg_resolved _ _ _ Hp).
  set (c1 := updateLevel _ pct ignoreAnimation (updateShapeColor pct c)).
  destruct (updateSvg_steps_keep pct (calculatePosition pct (limits params)) ignoreAnimation c)
    as (_ & Fw & Fvol & _). fold c1 in Fw, Fvol.
  rewrite updateValueElement_run.
  rewrite (readoutOf_reads c c1 v pct Fvol Fw), (capacityOf_reads c c1 Fvol Fw).
  destruct (readoutOf convertLiters settings c v pct) as [value|]; [|reflexivity].
  destruct (capacityOf convertLiters settings c) as [vol|]; [|reflexivity].
  cbn [option_map].
  destruct (Settings.showTooltip settings); [|reflexivity].
  rewrite updateTooltip_run. cbn [snd].
  destruct (readoutShown_keep value vol pct c1) as (_ & _ & _ & _ & _ & _ & _ & _ & Vv & Vw & _).
  rewrite (levelOf_reads c _ v (eq_trans Vv Fvol) (eq_trans Vw Fw)). reflexivity.
Qed.

(** An accepted tick whose texts can be formatted: the percentage of the
    value goes to the colours and to the geometry, its readout to the value
    colour and to the container of the layout. *)
Lemma update_accepted ctxData ignoreAnimation c sel params (ts : num) (v : any num)
      (value vol level : string) :
  svg c = Some sel ->
  svgParams c = Some params ->
  firstPoint ctxData = Some (ts, v) ->
  isDefinedAndNotNull v = true ->
  let pct := percentageOf convertLiters settings c v in
  readoutOf convertLiters settings c v pct = Some value ->
  capacityOf convertLiters settings c = Some vol ->
  (Settings.showTooltip settings = true -> levelOf convertLiters settings c v = Some level) ->
  exists c',
    update convertLiters settings ctxData ignoreAnimation c = Some c' /\
    (exists c2,
       c' = (if Settings.showTooltip settings
             then tooltipPushed convertLiters settings level (ts, v) c2 else c2) /\
       tooltipLevelColor c2 = tooltipLevelColor c /\
       tooltipDateFormat c2 = tooltipDateFormat c /\
       tooltip c2 = tooltip c /\ tooltipContent c2 = tooltipContent c /\
       volume c2 = volume c /\ widgetUnits c2 = widgetUnits c) /\
    tankColor c' = ColorProcessor_update (tankColor c) (Num pct) /\
    liquidColor c' = ColorProcessor_update (liquidColor c) (Num pct) /\
    backgroundOverlayColor c' = ColorProcessor_update (backgroundOverlayColor c) (Num pct) /\
    valueColor c' = ColorProcessor_update (valueColor c) (Str value) /\
    forall i e,
      nth_error (dom c) i = Some e ->
      exists e',
        nth_error (dom c') i = Some e' /\
        (hasClass "tb-liquid-fill" e = true ->
         movedTo "y" (calculatePosition pct (limits params)) ignoreAnimation e e') /\
        (hasClass "tb-liquid-surface" e = true ->
         movedTo (if strictEqStr (shape c) vCylinder then "cy" else "y")
                 (calculatePosition pct (limits params)) ignoreAnimation e e') /\
        (hasClass "tb-liquid-fill" e = false -> hasClass "tb-liquid-surface" e = false ->
         unmoved e e') /\
        html e' = htmlAfter settings c value vol e.
Proof.
  intros Hsvg Hp Hfp Hdef pct Hread Hcap Hlevel.
  pose proof (update_run ctxData ignoreAnimation c Hsvg Hp Hfp Hdef) as Hrun.
  cbv zeta in Hrun. fold pct in Hrun. rewrite Hread, Hcap in Hrun. rewrite Hrun. clear Hrun.
  set (newY := calculatePosition pct (limits params)).
  set (c1 := updateLevel newY pct ignoreAnimation (updateShapeColor pct c)).
  destruct (updateSvg_steps_keep pct newY ignoreAnimation c)
    as (Fv & Fw & Fvol & Fb & Ftl & Ftd & Ftt & Ftc & Ft & Fl & _).
  fold c1 in Fv, Fw, Fvol, Fb, Ftl, Ftd, Ftt, Ftc, Ft, Fl.
  set (c2 := readoutShown settings value vol pct c1).
  destruct (readoutShown_keep value vol pct c1)
    as (Vt & Vl & Vv & Vb & Vtl & Vtd & Vtt & Vtc & Vvol & Vw & _).
  fold c2 in Vt, Vl, Vv, Vb, Vtl, Vtd, Vtt, Vtc, Vvol, Vw.
  assert (Hdom : forall i e, nth_error (dom c) i = Some e ->
            exists e', nth_error (dom c2) i = Some e' /\
              (hasClass "tb-liquid-fill" e = true -> movedTo "y" newY ignoreAnimation e e') /\
              (hasClass "tb-liquid-surface" e = true ->
               movedTo (if strictEqStr (shape c) vCylinder then "cy" else "y")
                       newY ignoreAnimation e e') /\
              (hasClass "tb-liquid-fill" e = false -> hasClass "tb-liquid-surface" e = false ->
               unmoved e e') /\
              html e' = htmlAfter settings c value vol e).
  { intros i e He.
    destruct (updateShapeColor_nth pct c i He) as (e0 & He0 & Hu0 & Hc0 & Hh0).
    pose proof (updateLevel_nth newY pct ignoreAnimation _ _ He0) as He1.
    fold c1 in He1.
    replace (shape (updateShapeColor pct c)) with (shape c) in He1 by reflexivity.
    set (e1 := leveled _ _ _ _ e0) in He1.
    destruct (leveled_keeps (if negb (strictEqStr (shape c) vCylinder) then "y" else "cy")
                newY ignoreAnimation
                (color (ColorProcessor_update (liquidColor (updateShapeColor pct c)) (Num pct)))
                e0) as [Hc1 Hh1].
    fold e1 in Hc1, Hh1.
    destruct (readoutShown_nth value vol pct c1 i He1) as (e2 & He2 & Hu2 & Hh2).
    fold c2 in He2.
    assert (Ecls : forall cls, hasClass cls e1 = hasClass cls e).
    { intros cls. rewrite (hasClass_classes cls _ _ Hc1). now apply hasClass_classes. }
    assert (Ehtml : htmlAfter settings c1 value vol e1
                    = htmlAfter settings c value vol e).
    { unfold htmlAfter, readoutContentOf, valueTextStyleOf.
      rewrite Fv, Fw.
      destruct (Settings.layout settings); rewrite ?Ecls, Hh1, Hh0; reflexivity. }
    exists e2. split; [exact He2|]. split; [|split; [|split]].
    - intros Hf. rewrite <- (hasClass_classes "tb-liquid-fill" _ _ Hc0) in Hf.
      eapply movedTo_unmoved; [|exact Hu2].
      eapply movedTo_from; [exact Hu0|]. now apply leveled_fill.
    - intros Hs. rewrite <- (hasClass_classes "tb-liquid-surface" _ _ Hc0) in Hs.
      eapply movedTo_unmoved; [|exact Hu2].
      eapply movedTo_from; [exact Hu0|].
      subst e1. destruct (strictEqStr (shape c) vCylinder); now apply leveled_surface.
    - intros Hf Hs.
      rewrite <- (hasClass_classes "tb-liquid-fill" _ _ Hc0) in Hf.
      rewrite <- (hasClass_classes "tb-liquid-surface" _ _ Hc0) in Hs.
      eapply unmoved_trans; [exact Hu0|]. eapply unmoved_trans; [|exact Hu2].
      subst e1. rewrite (leveled_other _ _ _ _ _ Hf Hs). apply unmoved_refl.
    - now rewrite Hh2. }
  cbv zeta. fold c2.
  destruct (Settings.showTooltip settings) eqn:Hshow.
  - rewrite (Hlevel eq_refl). cbn [option_map].
    eexists. split; [reflexivity|]. split.
    { exists c2. split; [reflexivity|]. repeat split; congruence. }
    destruct (tooltipPushed_keep level (ts, v) c2) as (Td & Tt & Tl & Tv & Tb & _).
    rewrite Tt, Tl, Tv, Tb, Td, Vt, Vl, Vv, Vb, Ft, Fl, Fv, Fb.
    repeat split. exact Hdom.
  - eexists. split; [reflexivity|]. split.
    { exists c2. split; [reflexivity|]. repeat split; congruence. }
    rewrite Vt, Vl, Vv, Vb, Ft, Fl, Fv, Fb.
    repeat split. exact Hdom.
Qed.

(** An accepted tick one of whose texts cannot be formatted throws. *)
Lemma update_rejected ctxData ignoreAnimation c sel params (ts : num) (v : any num) :
  svg c = Some sel ->
  svgParams c = Some params ->
  firstPoint ctxData = Some (ts, v) ->
  isDefinedAndNotNull v = true ->
  readoutOf convertLiters settings c v (percentageOf convertLiters settings c v) = None \/
  capacityOf convertLiters settings c = None \/
  (Settings.showTooltip settings = true /\ levelOf convertLiters settings c v = None) ->
  update convertLiters settings ctxData ignoreAnimation c = None.
Proof.
  intros Hsvg Hp Hfp Hdef Hrej.
  pose proof (update_run ctxData ignoreAnimation c Hsvg Hp Hfp Hdef) as Hrun.
  cbv zeta in Hrun. rewrite Hrun. clear Hrun.
  destruct Hrej as [-> | [-> | [-> ->]]]; try reflexivity.
  - now destruct (readoutOf _ _ _ _ _).
  - destruct (readoutOf _ _ _ _ _); [|reflexivity].
    now destruct (capacityOf _ _ _).
Qed.

(** Whatever relation the steps of the update sequence keep, a tick that
    returns keeps. *)
Lemma update_keeps (R : Component num -> Component num -> Prop) :
  (forall c, R c c) ->
  (forall a b d, R a b -> R b d -> R a d) ->
  (forall (v : num) c, R c (updateShapeColor v c)) ->
  (forall (y p : num) i c, R c (updateLevel y p i c)) ->
  (forall value vol (p : num) c, R c (readoutShown settings value vol p c)) ->
  (forall level v c, R c (tooltipPushed convertLiters settings level v c)) ->
  forall ctxData ignoreAnimation c c',
    update convertLiters settings ctxData ignoreAnimation c = Some c' -> R c c'.
Proof.
  intros Hrefl Htrans Hs Hl Hv Ht ctxData ignoreAnimation c c'.
  unfold update, updateData, updateSvg.
  destruct (svg c); [|intros E; injection E as <-; apply Hrefl].
  destruct (firstPoint ctxData) as [data|]; [|intros E; injection E as <-; apply Hrefl].
  destruct (isDefinedAndNotNull (snd data)); [|intros E; injection E as <-; apply Hrefl].
  destruct (svgParams c) as [params|]; [|discriminate].
  rewrite updateValueElement_run.
  destruct (readoutOf _ _ _ _ _) as [value|]; [|discriminate].
  destruct (capacityOf _ _ _) as [vol|]; [|discriminate].
  cbn [option_map].
  destruct (Settings.showTooltip settings).
  - rewrite updateTooltip_run.
    destruct (levelOf _ _ _ _) as [level|]; [|discriminate].
    cbn [option_map]. intros E; injection E as <-.
    eapply Htrans; [|apply Ht]. eapply Htrans; [|apply Hv].
    eapply Htrans; [apply Hs | apply Hl].
  - intros E; injection E as <-.
    eapply Htrans; [|apply Hv]. eapply Htrans; [apply Hs | apply Hl].
Qed.

Lemma update_resolved ctxData ignoreAnimation c c' :
  update convertLiters settings ctxData ignoreAnimation c = Some c' ->
  resolvedOf c' = resolvedOf c /\ requestsOf c' = requestsOf c.
Proof.
  apply (update_keeps
           (fun a b => resolvedOf b = resolvedOf a /\ requestsOf b = requestsOf a)).
  - now split.
  - intros a b d (A1 & A2) (B1 & B2). split; congruence.
  - intros v x. now split.
  - intros y p i x.
    destruct (updateSvg_steps_keep p y i x) as (_ & _ & _ & _ & _ & _ & _ & _ & _ & _ & A & B).
    revert A B. unfold updateShapeColor. cbv zeta. unfold updateLevel.
    destruct i; now split.
  - intros value vol p x.
    now destruct (readoutShown_keep value vol p x)
      as (_ & _ & _ & _ & _ & _ & _ & _ & _ & _ & A & B).
  - intros level v x.
    now destruct (tooltipPushed_keep level v x) as (_ & _ & _ & _ & _ & A & B).
Qed.

Lemma resolvedOf_fields (a b : Component num) :
  resolvedOf a = resolvedOf b ->
  svgParams a = svgParams b /\ svg a = svg b /\ overlayContainer a = overlayContainer b /\
  shape a = shape b /\ volume a = volume b /\ widgetUnits a = widgetUnits b.
Proof. unfold resolvedOf. intros E. now inversion E. Qed.

(** With the parameters of the template in place and digits that [toFixed]
    takes, a tick returns. *)
Lemma update_returns ctxData ignoreAnimation c params :
  accepts (orZero (Settings.decimals settings)) ->
  accepts (Settings.tooltipLevelDecimals settings) ->
  svgParams c = Some params ->
  exists c', update convertLiters settings ctxData ignoreAnimation c = Some c'.
Proof.
  intros Hd Ht Hp.
  destruct (svg c) as [sel|] eqn:Hsvg; [|exists c; now apply update_unrendered].
  destruct (firstPoint ctxData) as [[ts v]|] eqn:Hfp;
    [|exists c; apply update_absent; now rewrite Hfp].
  destruct (isDefinedAndNotNull v) eqn:Hdef;
    [|exists c; apply update_absent; now rewrite Hfp].
  destruct (readoutOf_accepted c v (percentageOf convertLiters settings c v) Hd)
    as [value Hread].
  destruct (capacityOf_accepted c Hd) as [vol Hcap].
  destruct (levelOf_accepted c v Ht) as [level Hlevel].
  destruct (update_accepted ctxData ignoreAnimation c (level := level)
              Hsvg Hp Hfp Hdef Hread Hcap (fun _ => Hlevel)) as (c' & Hu & _).
  now exists c'.
Qed.
End Steps.

(** ** Tooltip content *)

(** C9.  Called without a measurement, [getTooltipContent] returns, and
    returns what it does for the measurement [[0, '']]: the level colour is
    updated with "N/A", the date format with timestamp 0, the level row
    (when shown) is the row of the source with "N/A" as its value, and the
    outcome is the same whatever the conversion function is, which is
    therefore not consulted. *)
Theorem getTooltipContent_without_measurement
  {num : Type} {N : Number num} {H : Host num}
  (convertLiters : num -> any num -> ConversionType -> num)
  (settings : Settings.LevelCardWidgetSettings num) (c : Component num) :
  exists r,
    getTooltipContent convertLiters settings None c = Some r /\
    getTooltipContent convertLiters settings (Some (n0, Str "")) c = Some r /\
    tooltipLevelColor (snd r) = ColorProcessor_update (tooltipLevelColor c) (Str "N/A") /\
    tooltipDateFormat (snd r) = DateFormatProcessor_update (tooltipDateFormat c) n0 /\
    (forall convertLiters', getTooltipContent convertLiters' settings None c = Some r) /\
    (Settings.showTooltipLevel settings = true ->
     exists rest,
       fst r =
       (tooltipOpen
        ++ ("<div style=" ++ dq ++ "display: flex; justify-content: space-between; gap: 8px"
            ++ dq ++ ">" ++ nl ++
            "                <label style=" ++ dq ++
            "color: rgba(0, 0, 0, 0.38); font-size: 12px; font-weight: 400; white-space: nowrap;"
            ++ dq ++ ">" ++ nl ++
            "                    " ++ translate_instant "widgets.liquid-level-card.level" ++ nl ++
            "                </label>" ++ nl ++
            "                <label style=" ++ dq ++
            levelTextStyleOf settings
              (ColorProcessor_update (tooltipLevelColor c) (Str "N/A"))
            ++ dq ++ ">" ++ nl ++
            "                  " ++ "N/A" ++ nl ++
            "                </label>" ++ nl ++
            "            </div>")
        ++ rest)%string).
Proof.
  exists (tooltipBuilt convertLiters settings
            (if Settings.showTooltipLevel settings then "N/A" else "") None c).
  assert (Hnone : forall cl,
            getTooltipContent cl settings None c
            = Some (tooltipBuilt convertLiters settings
                      (if Settings.showTooltipLevel settings then "N/A" else "") None c)).
  { intros cl. rewrite getTooltipContent_run.
    unfold levelOf, levelValueOf, tooltipValueOf, tooltipBuilt. cbn [fst snd].
    destruct (Settings.showTooltipLevel settings); reflexivity. }
  split; [apply Hnone|]. split.
  { rewrite getTooltipContent_run.
    unfold levelOf, levelValueOf, tooltipValueOf, tooltipBuilt. cbn [fst snd].
    destruct (Settings.showTooltipLevel settings); reflexivity. }
  split; [reflexivity|]. split; [reflexivity|]. split; [exact Hnone|].
  intros Hshow. unfold tooltipBuilt, createTooltipContent. cbv zeta. rewrite Hshow.
  cbn [fst snd tooltipValueOf]. fields.
  destruct (Settings.showTooltipDate settings); eexists; rewrite !append_assoc; reflexivity.
Qed.

(** The running sample widget, whose processors the styles were declared
    for: the level row reads "N/A" and the date format has seen 0. *)
Lemma getTooltipContent_without_measurement_witness :
  exists r,
    getTooltipContent Sample.convertLiters Sample.settings None Sample.running = Some r /\
    tooltipDateFormat (snd r) = "0" /\
    exists rest,
      fst r =
      (tooltipOpen
       ++ ("<div style=" ++ dq ++ "display: flex; justify-content: space-between; gap: 8px"
           ++ dq ++ ">" ++ nl ++
           "                <label style=" ++ dq ++
           "color: rgba(0, 0, 0, 0.38); font-size: 12px; font-weight: 400; white-space: nowrap;"
           ++ dq ++ ">" ++ nl ++
           "                    " ++ "widgets.liquid-level-card.level" ++ nl ++
           "                </label>" ++ nl ++
           "                <label style=" ++ dq ++ "font-family: Roboto;color: black;"
           ++ dq ++ ">" ++ nl ++
           "                  " ++ "N/A" ++ nl ++
           "                </label>" ++ nl ++
           "            </div>")
       ++ rest)%string.
Proof.
  destruct (getTooltipContent_without_measurement Sample.convertLiters Sample.settings
              Sample.running) as (r & Hr & _ & _ & Hd & _ & Hrow).
  exists r. split; [exact Hr|]. split; [exact Hd|]. exact (Hrow eq_refl).
Defined.

(** ** A tick with a value that is not a number *)

Section NonNumeric.
Context {num : Type} {N : Number num} {H : Host num} {O : NumberOrder num}.
Variable convertLiters : num -> any num -> ConversionType -> num.
Variable settings : Settings.LevelCardWidgetSettings num.
Implicit Types (c : Component num) (e : Element num).

(** The capacity text of a tick, given the one the absolute layout formats. *)
Lemma capacityOf_layout c (vol : string) :
  (Settings.layout settings = absolute ->
   volumeReadoutOf convertLiters settings c = Some vol) ->
  capacityOf convertLiters settings c
  = Some (match Settings.layout settings with absolute => vol | _ => ""%string end).
Proof.
  unfold capacityOf. destruct (Settings.layout settings); intros Hv;
    [now apply Hv | reflexivity..].
Qed.

(** A tick whose value is defined and not a number, on a rendered widget
    whose capacity, if the layout shows it, can be formatted: the
    percentage is 0 for the colours and the geometry, the readout is
    "N/A". *)
Lemma update_nonnumeric ctxData ignoreAnimation c sel params (ts : num) (v : any num)
      (vol : string) :
  svg c = Some sel ->
  svgParams c = Some params ->
  firstPoint ctxData = Some (ts, v) ->
  isDefinedAndNotNull v = true ->
  isNumber v = false ->
  (Settings.layout settings = absolute ->
   volumeReadoutOf convertLiters settings c = Some vol) ->
  exists c',
    update convertLiters settings ctxData ignoreAnimation c = Some c' /\
    tankColor c' = ColorProcessor_update (tankColor c) (Num n0) /\
    liquidColor c' = ColorProcessor_update (liquidColor c) (Num n0) /\
    backgroundOverlayColor c' = ColorProcessor_update (backgroundOverlayColor c) (Num n0) /\
    valueColor c' = ColorProcessor_update (valueColor c) (Str "N/A") /\
    forall i e,
      nth_error (dom c) i = Some e ->
      exists e',
        nth_error (dom c') i = Some e' /\
        (hasClass "tb-liquid-fill" e = true ->
         movedTo "y" (min (limits params)) ignoreAnimation e e') /\
        (hasClass "tb-liquid-surface" e = true ->
         movedTo (if strictEqStr (shape c) vCylinder then "cy" else "y")
                 (min (limits params)) ignoreAnimation e e') /\
        (Settings.layout settings = percentage ->
         hasClass "percentage-value-container" e = true ->
         truthyStr (createPercentLayout "N/A" (valueTextStyleOf settings c "N/A")) = true ->
         html e' = Some (createPercentLayout "N/A" (valueTextStyleOf settings c "N/A"))) /\
        (Settings.layout settings = absolute ->
         hasClass "absolute-value-container" e = true ->
         truthyStr (createAbsoluteLayout ("N/A", vol)
                      (valueTextStyleOf settings c "N/A", volumeTextStyleOf settings)
                      (widgetUnits c)) = true ->
         html e' = Some (createAbsoluteLayout ("N/A", vol)
                           (valueTextStyleOf settings c "N/A", volumeTextStyleOf settings)
                           (widgetUnits c))) /\
        (Settings.layout settings = none -> html e' = html e).
Proof.
  intros Hsvg Hp Hfp Hdef Hnum Hvol.
  pose proof (percentageOf_nonnumeric convertLiters settings c v Hnum) as Hpct.
  destruct (update_accepted convertLiters settings ctxData ignoreAnimation c
              (value := "N/A")
              (vol := match Settings.layout settings with absolute => vol | _ => ""%string end)
              (level := if Settings.showTooltipLevel settings then "N/A"%string else ""%string)
              Hsvg Hp Hfp Hdef)
    as (c' & Hu & _ & Ht & Hl & Hb & Hv & Hdom).
  { now apply readoutOf_nonnumeric. }
  { now apply capacityOf_layout. }
  { intros _. now apply levelOf_nonnumeric. }
  rewrite Hpct in *. rewrite calculatePosition_0 in Hdom.
  exists c'. repeat (split; [assumption|]).
  intros i e He. destruct (Hdom i e He) as (e' & He' & Hf & Hs & _ & Hh).
  exists e'. split; [exact He'|]. split; [exact Hf|]. split; [exact Hs|].
  unfold htmlAfter, readoutContentOf in Hh.
  split; [|split].
  - intros Hlay Hc Htr. rewrite Hlay in Hh. now rewrite Htr, Hc in Hh.
  - intros Hlay Hc Htr. rewrite Hlay in Hh. now rewrite Htr, Hc in Hh.
  - intros Hlay. now rewrite Hlay in Hh.
Qed.
End NonNumeric.

(** C4.  On a rendered widget, a measurement whose value is defined but not
    a number is processed with percentage 0: the tank, liquid and overlay
    colours are updated with 0 and the fill body is sent to
    [calculatePosition(0, limits)], which is [limits.min]; the readout is
    tracked apart from it: the value colour is updated with "N/A" and the
    readout container of the configured layout receives the layout of "N/A",
    not of a formatted 0.  In the absolute layout the capacity is formatted
    beside it, also for such a value: the statement is for settings whose
    [decimals] let [toFixed] format it, [vol] being the text. *)
Theorem nonnumeric_value_zero_percent_readout_NA
  {num : Type} {N : Number num} {H : Host num} {O : NumberOrder num}
  (convertLiters : num -> any num -> ConversionType -> num)
  (settings : Settings.LevelCardWidgetSettings num)
  (ctxData : list (list (num * any num))) (ignoreAnimation : bool)
  (c : Component num) (sel : JQuery) (params : SvgInfo num) (ts : num) (v : any num)
  (vol : string) :
  svg c = Some sel ->
  svgParams c = Some params ->
  firstPoint ctxData = Some (ts, v) ->
  isDefinedAndNotNull v = true ->
  isNumber v = false ->
  (Settings.layout settings = absolute ->
   volumeReadoutOf convertLiters settings c = Some vol) ->
  calculatePosition n0 (limits params) = min (limits params) /\
  exists c',
    update convertLiters settings ctxData ignoreAnimation c = Some c' /\
    tankColor c' = ColorProcessor_update (tankColor c) (Num n0) /\
    liquidColor c' = ColorProcessor_update (liquidColor c) (Num n0) /\
    backgroundOverlayColor c' = ColorProcessor_update (backgroundOverlayColor c) (Num n0) /\
    valueColor c' = ColorProcessor_update (valueColor c) (Str "N/A") /\
    forall i e,
      nth_error (dom c) i = Some e ->
      exists e',
        nth_error (dom c') i = Some e' /\
        (hasClass "tb-liquid-fill" e = true ->
         movedTo "y" (calculatePosition n0 (limits params)) ignoreAnimation e e') /\
        (Settings.layout settings = percentage ->
         hasClass "percentage-value-container" e = true ->
         truthyStr (createPercentLayout "N/A" (valueTextStyleOf settings c "N/A")) = true ->
         html e' = Some (createPercentLayout "N/A" (valueTextStyleOf settings c "N/A"))) /\
        (Settings.layout settings = absolute ->
         hasClass "absolute-value-container" e = true ->
         truthyStr (createAbsoluteLayout ("N/A", vol)
                      (valueTextStyleOf settings c "N/A", volumeTextStyleOf settings)
                      (widgetUnits c)) = true ->
         html e' = Some (createAbsoluteLayout ("N/A", vol)
                           (valueTextStyleOf settings c "N/A", volumeTextStyleOf settings)
                           (widgetUnits c))).
Proof.
  intros Hsvg Hp Hfp Hdef Hnum Hvol.
  split; [apply calculatePosition_0|].
  destruct (update_nonnumeric convertLiters settings ctxData ignoreAnimation c
              Hsvg Hp Hfp Hdef Hnum Hvol) as (c' & Hu & Ht & Hl & Hb & Hv & Hdom).
  exists c'. repeat (split; [assumption|]).
  intros i e He. destruct (Hdom i e He) as (e' & He' & Hf & _ & Hpc & Hab & _).
  exists e'. split; [exact He'|]. split; [|split].
  - rewrite calculatePosition_0. exact Hf.
  - exact Hpc.
  - exact Hab.
Qed.

(** The running sample widget (limits 180 to 20) is sent the text "abc".
    In the percentage layout the fill rectangle is animated to 180 and the
    readout shows "N/A%"; in the absolute layout, with a capacity of 200,
    the readout shows "N/A / 200". *)
Lemma nonnumeric_value_zero_percent_readout_NA_witness :
  (exists c',
     update Sample.convertLiters Sample.settings [[(1000%float, Str "abc")]] false
            Sample.running = Some c' /\
     (exists e', nth_error (dom c') 2 = Some e' /\
                 movedTo "y" 180%float false (Sample.element "rect" ["tb-liquid-fill"]) e') /\
     (exists e', nth_error (dom c') 5 = Some e' /\ html e' = Some "N/A%")) /\
  (exists c',
     update Sample.convertLiters SampleMore.absoluteSettings [[(1000%float, Str "abc")]] false
            SampleMore.absoluteRunning = Some c' /\
     (exists e', nth_error (dom c') 7 = Some e' /\ html e' = Some "N/A / 200")).
Proof.
  split.
  - destruct (@nonnumeric_value_zero_percent_readout_NA _ _ _ NumberOrder_float
                Sample.convertLiters Sample.settings [[(1000%float, Str "abc")]] false
                Sample.running [0%nat]
                (mkSvgInfo "v-cylinder.svg" (mkLimits 180%float 20%float))
                1000%float (Str "abc") "" eq_refl eq_refl eq_refl eq_refl eq_refl)
      as (_ & c' & Hu & _ & _ & _ & _ & Hdom); [discriminate|].
    exists c'. split; [exact Hu|]. split.
    + destruct (Hdom 2%nat (Sample.element "rect" ["tb-liquid-fill"]) eq_refl)
        as (e' & He' & Hf & _).
      exists e'. split; [exact He'|]. exact (Hf eq_refl).
    + destruct (Hdom 5%nat (Sample.element "text" ["percentage-value-container"]) eq_refl)
        as (e' & He' & _ & Hpc & _).
      exists e'. split; [exact He'|]. exact (Hpc eq_refl eq_refl eq_refl).
  - destruct (@nonnumeric_value_zero_percent_readout_NA _ _ _ NumberOrder_float
                Sample.convertLiters SampleMore.absoluteSettings
                [[(1000%float, Str "abc")]] false
                SampleMore.absoluteRunning [0%nat]
                (mkSvgInfo "v-cylinder.svg" (mkLimits 180%float 20%float))
                1000%float (Str "abc") "200" eq_refl eq_refl eq_refl eq_refl eq_refl)
      as (_ & c' & Hu & _ & _ & _ & _ & Hdom); [intros _; vm_compute; reflexivity|].
    exists c'. split; [exact Hu|].
    destruct (Hdom 7%nat (Sample.element "text" ["absolute-value-container"]) eq_refl)
      as (e' & He' & _ & _ & Hab).
    exists e'. split; [exact He'|]. exact (Hab eq_refl eq_refl eq_refl).
Defined.

(** ** Measurements that are not valid *)




(** * Further properties *)

(** ** The position on doubles *)

Lemma float_positive_SF (x : float) :
  (0 <? x)%float = true ->
  Prim2SF x = S754_infinity false \/ exists m e, Prim2SF x = S754_finite false m e.
Proof.
  rewrite ltb_spec. unfold SFltb.
  replace (Prim2SF 0) with (S754_zero false) by reflexivity.
  destruct (Prim2SF x) as [s|s| |s m e]; simpl; try discriminate.
  - destruct s; [discriminate | now left].
  - destruct s; [discriminate|]. right. now exists m, e.
Qed.

Lemma float_above_neg_infinity_SF (x : float) :
  (neg_infinity <? x)%float = true ->
  Prim2SF x <> S754_nan /\ Prim2SF x <> S754_infinity true.
Proof.
  rewrite ltb_spec. unfold SFltb.
  replace (Prim2SF neg_infinity) with (S754_infinity true) by reflexivity.
  destruct (Prim2SF x) as [s|s| |s m e]; simpl; try discriminate;
    try (split; discriminate).
  destruct s; [discriminate | split; discriminate].
Qed.

(** X1.  On doubles the position can leave the limits: when the span
    [max - min] overflows to +Infinity (both limits being numbers), every
    percentage strictly between 0 and 100 whose hundredth is above 0 is
    sent to +Infinity. *)
Theorem calculatePosition_span_overflow (p : float) (l : SvgLimits float) :
  (max l - min l)%float = infinity ->
  (neg_infinity <? min l)%float = true ->
  (0 <? p)%float = true ->
  (p <? 100)%float = true ->
  (0 <? p / 100)%float = true ->
  calculatePosition p l = infinity.
Proof.
  intros Hspan Hmin H0 H100 Hr.
  rewrite (calculatePosition_between (N := Number_float) (O := NumberOrder_float) p l H0 H100).
  cbn [nadd nmul ndiv nsub n100 Number_float]. rewrite Hspan.
  apply Prim2SF_inj. rewrite add_spec, mul_spec.
  replace (Prim2SF infinity) with (S754_infinity false) by reflexivity.
  destruct (@float_above_neg_infinity_SF _ Hmin) as [Hnan Hneg].
  unfold SF64add, SF64mul.
  destruct (@float_positive_SF _ Hr) as [E | (m & e & E)]; rewrite E; cbn [SFmul xorb];
    destruct (Prim2SF (min l)) as [s|s| |s m' e']; try reflexivity;
    try (now elim Hnan); destruct s; try reflexivity; now elim Hneg.
Qed.

(** The limits -2^1023 and 2^1023: half of the way is +Infinity, above the
    upper limit. *)
Lemma calculatePosition_span_overflow_witness :
  calculatePosition 50%float (mkLimits (-0x1p+1023)%float 0x1p+1023%float) = infinity.
Proof.
  apply calculatePosition_span_overflow; vm_compute; reflexivity.
Defined.

Lemma is_nan_SF (x : float) : PrimFloat.is_nan x = true -> Prim2SF x = S754_nan.
Proof.
  unfold PrimFloat.is_nan. rewrite negb_true_iff, eqb_spec. unfold SFeqb.
  destruct (Prim2SF x) as [s|s| |s m e]; simpl; try reflexivity.
  - discriminate.
  - destruct s; discriminate.
  - destruct s; rewrite Z.compare_refl, Pos.compare_cont_refl; discriminate.
Qed.

Lemma SF_is_nan (x : float) : Prim2SF x = S754_nan -> PrimFloat.is_nan x = true.
Proof.
  intros E. unfold PrimFloat.is_nan. rewrite negb_true_iff, eqb_spec, E. reflexivity.
Qed.

(** X2.  On doubles a NaN percentage is not clamped: both comparisons fail
    and the position computed is NaN. *)
Theorem calculatePosition_nan (p : float) (l : SvgLimits float) :
  PrimFloat.is_nan p = true -> PrimFloat.is_nan (calculatePosition p l) = true.
Proof.
  intros Hn. pose proof (is_nan_SF _ Hn) as E.
  unfold calculatePosition. cbn [nleb n100 n0 Number_float nadd nmul ndiv nsub].
  rewrite !leb_spec, E. unfold SFleb. cbn [SFcompare].
  replace (SFcompare (Prim2SF 100) S754_nan) with (@None comparison)
    by (destruct (Prim2SF 100); reflexivity).
  apply SF_is_nan. rewrite add_spec, mul_spec, div_spec, E.
  unfold SF64add, SF64mul, SF64div. cbn [SFdiv SFmul].
  destruct (Prim2SF (max l - min l)); cbn [SFmul]; destruct (Prim2SF (min l)); reflexivity.
Qed.

Lemma calculatePosition_nan_witness :
  PrimFloat.is_nan (calculatePosition nan (mkLimits 180%float 20%float)) = true.
Proof. apply calculatePosition_nan. reflexivity. Defined.

Section ResolverMore.
Context {num : Type} {N : Number num} {H : Host num}.
Variable settings : Settings.LevelCardWidgetSettings num.
Implicit Type c : Component num.

Lemma eqb_attribute (s : LiquidWidgetDataSourceType) :
  LiquidWidgetDataSourceType_eqb s attribute = true <-> s = attribute.
Proof. destruct s; simpl; split; congruence. Qed.

Lemma eqb_static (s : LiquidWidgetDataSourceType) :
  negb (LiquidWidgetDataSourceType_eqb s static) = true <-> s = attribute.
Proof. destruct s; simpl; split; congruence. Qed.

(** Which names are asked for. *)
Lemma prepareAttributeNames_cases :
  prepareAttributeNames settings =
  ((if LiquidWidgetDataSourceType_eqb (Settings.volumeSource settings) attribute
    then [Settings.volumeAttributeName settings] else [])
   ++ (if LiquidWidgetDataSourceType_eqb (Settings.widgetUnitsSource settings) attribute
       then [Settings.widgetUnitsAttributeName settings] else []))%list.
Proof.
  unfold prepareAttributeNames.
  destruct (Settings.volumeSource settings), (Settings.widgetUnitsSource settings);
    reflexivity.
Qed.

Lemma getShape_log (entityId : EntityId) c :
  exists extra,
    attributeRequests (snd (getShape settings entityId c))
    = (attributeRequests c ++ extra)%list /\
    (List.length extra <= 1)%nat /\
    (forall r, In r extra -> r = (entityId, [Settings.shapeAttributeName settings])) /\
    resourceRequests (snd (getShape settings entityId c)) = resourceRequests c.
Proof.
  unfold getShape.
  destruct (LiquidWidgetDataSourceType_eqb _ _ && _); cbn.
  - eexists. split; [reflexivity|]. split; [simpl; lia|]. split; [|reflexivity].
    intros r [<-|[]]. reflexivity.
  - exists []. rewrite app_nil_r. repeat split; simpl; (lia || tauto).
Qed.

Lemma getSecondaryResources_log (entityId : EntityId) c :
  exists extra,
    attributeRequests (snd (getSecondaryResources settings entityId c))
    = (attributeRequests c ++ extra)%list /\
    (List.length extra <= 1)%nat /\
    (forall r, In r extra -> r = (entityId, prepareAttributeNames settings)) /\
    resourceRequests (snd (getSecondaryResources settings entityId c)) = resourceRequests c.
Proof.
  unfold getSecondaryResources.
  destruct (_ || _); cbn.
  - exists []. rewrite app_nil_r. repeat split; simpl; (lia || tauto).
  - eexists. split; [reflexivity|]. split; [simpl; lia|]. split; [|reflexivity].
    intros r [<-|[]]. reflexivity.
Qed.
End ResolverMore.

(** ** Accepted ticks *)







Section Frames.
Context {num : Type} {N : Number num} {H : Host num}.
Variable convertLiters : num -> any num -> ConversionType -> num.
Variable settings : Settings.LevelCardWidgetSettings num.
Implicit Types (c : Component num) (e : Element num).

Lemma map_domMapFrom (A : Type) (sig : Element num -> A) k sel
      (f : Element num -> Element num) (d : list (Element num)) :
  (forall e, sig (f e) = sig e) ->
  List.map sig (domMapFrom k sel f d) = List.map sig d.
Proof.
  intros Hf. revert k. induction d as [|e d IH]; intros k; simpl; [reflexivity|].
  rewrite IH. destruct (selected k sel); now rewrite ?Hf.
Qed.

Lemma map_each (A : Type) (sig : Element num -> A) sel
      (f : Element num -> Element num) (d : list (Element num)) :
  (forall e, sig (f e) = sig e) ->
  List.map sig (each sel f d) = List.map sig d.
Proof. apply map_domMapFrom. Qed.

(** A step of the update sequence that leaves [sig] of every element alone. *)
Ltac keeps_sig :=
  repeat (rewrite map_each;
          [| intros ?; cbv beta;
             repeat match goal with |- context [if ?b then _ else _] => destruct b end;
             reflexivity]);
  try reflexivity.

Lemma updateShapeColor_html (value : num) c :
  List.map (@html num) (dom (updateShapeColor value c)) = List.map (@html num) (dom c).
Proof. unfold updateShapeColor. cbv zeta. fields. keeps_sig. Qed.

Lemma updateLevel_html (newY pct : num) ignoreAnimation c :
  List.map (@html num) (dom (updateLevel newY pct ignoreAnimation c))
  = List.map (@html num) (dom c).
Proof.
  unfold updateLevel, jq_css, jq_animate, jq_attr. cbv zeta.
  destruct ignoreAnimation; fields; keeps_sig.
Qed.

Lemma readoutShown_none_html (value vol : string) (pct : num) c :
  Settings.layout settings = none ->
  List.map (@html num) (dom (readoutShown settings value vol pct c))
  = List.map (@html num) (dom c).
Proof.
  intros Hl. unfold readoutShown, jq_attr. cbv zeta. rewrite Hl.
  destruct (overlayContainer _) eqn:Ho; fields; rewrite ?Ho; fields; keeps_sig.
Qed.

Lemma update_none_html ctxData ignoreAnimation c c' :
  Settings.layout settings = none ->
  update convertLiters settings ctxData ignoreAnimation c = Some c' ->
  List.map (@html num) (dom c') = List.map (@html num) (dom c).
Proof.
  intros Hl.
  apply (update_keeps convertLiters settings
           (fun a b => List.map (@html num) (dom b) = List.map (@html num) (dom a))).
  - reflexivity.
  - intros a b d A B. congruence.
  - intros v x. apply updateShapeColor_html.
  - intros y p i x. apply updateLevel_html.
  - intros value vol p x. now apply readoutShown_none_html.
  - intros level v x. now destruct (tooltipPushed_keep convertLiters settings level v x) as [-> _].
Qed.
End Frames.

(** X6.  With the layout that has no numeric overlay no tick, whatever it
    carries, changes the inner HTML of any element. *)
Theorem layout_none_renders_no_readout
  {num : Type} {N : Number num} {H : Host num}
  (convertLiters : num -> any num -> ConversionType -> num)
  (settings : Settings.LevelCardWidgetSettings num)
  (ctxData : list (list (num * any num))) (ignoreAnimation : bool)
  (c c' : Component num) :
  Settings.layout settings = none ->
  update convertLiters settings ctxData ignoreAnimation c = Some c' ->
  List.map (@html num) (dom c') = List.map (@html num) (dom c).
Proof. intros Hl Hu. eapply update_none_html; eassumption. Qed.

(** The widget without a numeric overlay, before and after a tick at 50%. *)
Lemma layout_none_renders_no_readout_witness :
  exists c',
    update Sample.convertLiters SampleMore.plainSettings [[(1000%float, Num 50%float)]] false
           SampleMore.plainRunning = Some c' /\
    List.map (@html float) (dom c') = List.map (@html float) (dom SampleMore.plainRunning).
Proof.
  destruct (@update_accepted _ _ _ Sample.convertLiters SampleMore.plainSettings
              [[(1000%float, Num 50%float)]] false SampleMore.plainRunning [0%nat]
              (mkSvgInfo "v-cylinder.svg" (mkLimits 180%float 20%float))
              1000%float (Num 50%float) "50" "" "50%" eq_refl eq_refl eq_refl eq_refl)
    as (c' & Hu & _);
    [vm_compute; reflexivity | reflexivity | intros _; vm_compute; reflexivity |].
  exists c'. split; [exact Hu|].
  exact (@layout_none_renders_no_readout _ _ _ Sample.convertLiters SampleMore.plainSettings
           [[(1000%float, Num 50%float)]] false SampleMore.plainRunning c' eq_refl Hu).
Defined.

(** X7.  A tick that returns has only read what resolution settled: the
    parameters of the template, the svg and overlay selections, the shape,
    the vessel capacity and the display units are unchanged, and no request
    has been made on either service. *)
Theorem update_keeps_resolution
  {num : Type} {N : Number num} {H : Host num}
  (convertLiters : num -> any num -> ConversionType -> num)
  (settings : Settings.LevelCardWidgetSettings num)
  (ctxData : list (list (num * any num))) (ignoreAnimation : bool)
  (c c' : Component num) :
  update convertLiters settings ctxData ignoreAnimation c = Some c' ->
  resolvedOf c' = resolvedOf c /\ requestsOf c' = requestsOf c.
Proof. apply update_resolved. Qed.

(** The sample widget before and after a tick at 50%. *)
Lemma update_keeps_resolution_witness :
  exists c',
    update Sample.convertLiters Sample.settings [[(1000%float, Num 50%float)]] false
           Sample.running = Some c' /\
    resolvedOf c' = resolvedOf Sample.running /\
    requestsOf c' = requestsOf Sample.running.
Proof.
  destruct (@update_accepted _ _ _ Sample.convertLiters Sample.settings
              [[(1000%float, Num 50%float)]] false Sample.running [0%nat]
              (mkSvgInfo "v-cylinder.svg" (mkLimits 180%float 20%float))
              1000%float (Num 50%float) "50" "" "50%" eq_refl eq_refl eq_refl eq_refl)
    as (c' & Hu & _);
    [vm_compute; reflexivity | reflexivity | intros _; vm_compute; reflexivity |].
  exists c'. split; [exact Hu|].
  exact (@update_keeps_resolution _ _ _ Sample.convertLiters Sample.settings
           [[(1000%float, Num 50%float)]] false Sample.running c' Hu).
Defined.

(** ** Starting the widget *)

Section Running.
Context {num : Type} {N : Number num} {H : Host num}.
Variable convertLiters : num -> any num -> ConversionType -> num.
Variable settings : Settings.LevelCardWidgetSettings num.
Implicit Types (c : Component num).

(** The subscriber, for a result that is not null: the rendering block if
    the template is a non-empty string, the two guarded assignments, and a
    first tick.  Rendering itself does not throw. *)
Lemma onData_steps ctxData r c :
  onData convertLiters settings ctxData (Some r) c
  = update convertLiters settings ctxData true
      (settling r (match r_svg r with
                   | Str markup =>
                       if truthyStr markup then rendering convertLiters settings markup c else c
                   | _ => c
                   end)).
Proof.
  unfold onData, settling, rendering.
  destruct (r_svg r) as [ | |n|markup|b| ]; cbn [truthy isString andb];
    rewrite ?andb_false_r, ?andb_true_r; try reflexivity.
  destruct (truthyStr markup); [|reflexivity].
  cbv zeta. destruct (Settings.showTooltip settings); [|reflexivity].
  now rewrite createTooltip_run.
Qed.

Lemma createSVG_keeps c :
  resolvedOf (createSVG c) = resolvedOf c /\ requestsOf (createSVG c) = requestsOf c.
Proof. unfold createSVG. destruct (svg c); now split. Qed.

Lemma createValueElement_keeps c :
  svgParams (createValueElement settings c) = svgParams c /\
  svg (createValueElement settings c) = svg c /\
  shape (createValueElement settings c) = shape c /\
  volume (createValueElement settings c) = volume c /\
  widgetUnits (createValueElement settings c) = widgetUnits c /\
  requestsOf (createValueElement settings c) = requestsOf c.
Proof.
  unfold createValueElement. cbv zeta.
  destruct (Settings.layout settings), (Settings.showBackgroundOverlay settings);
    cbn [negb]; fields; try (destruct (overlayContainer c)); fields; now repeat split.
Qed.

Lemma tooltipCreated_keeps c :
  resolvedOf (tooltipCreated convertLiters settings c) = resolvedOf c /\
  requestsOf (tooltipCreated convertLiters settings c) = requestsOf c /\
  dom (tooltipCreated convertLiters settings c) = dom c.
Proof. now repeat split. Qed.

(** Rendering selects the svg elements of the parsed template and keeps
    what was resolved. *)
Lemma rendering_keeps markup c :
  svg (rendering convertLiters settings markup c) = Some (findTag "svg" (parseMarkup markup)) /\
  svgParams (rendering convertLiters settings markup c) = svgParams c /\
  shape (rendering convertLiters settings markup c) = shape c /\
  volume (rendering convertLiters settings markup c) = volume c /\
  widgetUnits (rendering convertLiters settings markup c) = widgetUnits c /\
  requestsOf (rendering convertLiters settings markup c) = requestsOf c.
Proof.
  unfold rendering. cbv zeta.
  set (c0 := onDom _ (set_svg _ (set_dom _ c))).
  assert (H0 : svg c0 = Some (findTag "svg" (parseMarkup markup)) /\
               svgParams c0 = svgParams c /\ shape c0 = shape c /\ volume c0 = volume c /\
               widgetUnits c0 = widgetUnits c /\ requestsOf c0 = requestsOf c)
    by now repeat split.
  destruct H0 as (S0 & P0 & Sh0 & V0 & W0 & R0).
  destruct (createSVG_keeps c0) as (A1 & A2).
  apply resolvedOf_fields in A1. destruct A1 as (A11 & A12 & A13 & A14 & A15 & A16).
  destruct (createValueElement_keeps (createSVG c0)) as (B1 & B2 & B3 & B4 & B5 & B6).
  destruct (Settings.showTooltip settings).
  - destruct (tooltipCreated_keeps (createValueElement settings (createSVG c0)))
      as (C1 & C2 & C3).
    apply resolvedOf_fields in C1. destruct C1 as (C11 & C12 & C13 & C14 & C15 & C16).
    repeat split; congruence.
  - repeat split; congruence.
Qed.

Lemma settling_keeps r c :
  svg (settling r c) = svg c /\ svgParams (settling r c) = svgParams c /\
  shape (settling r c) = shape c /\ requestsOf (settling r c) = requestsOf c /\
  dom (settling r c) = dom c /\
  volume (settling r c)
  = (if isDefined (r_volume r) && negb (nisNaN (toNumber (r_volume r)))
     then toNumber (r_volume r) else volume c) /\
  widgetUnits (settling r c) = (if truthy (r_units r) then r_units r else widgetUnits c).
Proof.
  unfold settling. cbv zeta.
  destruct (truthy (r_units r)), (isDefined (r_volume r) && _); now repeat split.
Qed.
End Running.

Section GetData.
Context {num : Type} {N : Number num} {H : Host num}.
Variable settings : Settings.LevelCardWidgetSettings num.
Implicit Types (c : Component num).

(** What an observable of the resolver emits does not depend on the
    component it runs in. *)
Lemma getShape_emits (entityId : EntityId) c c0 :
  fst (getShape settings entityId c) = fst (getShape settings entityId c0).
Proof. unfold getShape. now destruct (_ && _). Qed.

Lemma getSecondaryResources_emits (entityId : EntityId) c c0 :
  fst (getSecondaryResources settings entityId c)
  = fst (getSecondaryResources settings entityId c0).
Proof. unfold getSecondaryResources. now destruct (_ || _). Qed.

Lemma getShape_keeps (entityId : EntityId) c :
  forall c1, c1 = snd (getShape settings entityId c) ->
  svg c1 = svg c /\ dom c1 = dom c /\ volume c1 = volume c /\
  widgetUnits c1 = widgetUnits c /\ resourceRequests c1 = resourceRequests c /\
  svgParams c1 = svgParams c /\ shape c1 = shape c.
Proof. intros c1 ->. unfold getShape. destruct (_ && _); now repeat split. Qed.

Lemma getSecondaryResources_keeps (entityId : EntityId) c :
  forall c1, c1 = snd (getSecondaryResources settings entityId c) ->
  svg c1 = svg c /\ dom c1 = dom c /\ volume c1 = volume c /\
  widgetUnits c1 = widgetUnits c /\ resourceRequests c1 = resourceRequests c /\
  svgParams c1 = svgParams c /\ shape c1 = shape c.
Proof.
  intros c1 ->. unfold getSecondaryResources. destruct (_ || _); now repeat split.
Qed.

(** [getData], step by step. *)
Lemma getData_run (datasource : EntityId) c :
  let entityId := mkEntityId (entityType datasource) (id datasource) in
  getData settings datasource c =
  match getShape settings entityId c with
  | (None, c0) => (None, c0)
  | (Some sh, c0) =>
      let c1 := set_svgParams (svgMapping sh) (set_shape sh c0) in
      match svgMapping sh with
      | None => (Some None, c1)
      | Some params =>
          let c2 := set_resourceRequests (resourceRequests c1 ++ [svgUrl params])%list c1 in
          match loadJsonResource (svgUrl params) with
          | None => (None, c2)
          | Some markup =>
              (option_map (fun vu => Some (mkResources markup (fst vu) (snd vu)))
                          (fst (getSecondaryResources settings entityId c2)),
               snd (getSecondaryResources settings entityId c2))
          end
      end
  end.
Proof.
  cbv zeta. unfold getData, switchMap.
  destruct (getShape settings _ c) as [[sh|] c0]; [|reflexivity].
  fields. destruct (svgMapping sh) as [params|]; [|reflexivity].
  unfold loadSVG. fields.
  destruct (loadJsonResource (svgUrl params)) as [markup|]; [|reflexivity].
  unfold map_.
  destruct (getSecondaryResources settings _ _) as [vu c3]. reflexivity.
Qed.
End GetData.

(** X8.  [getData] only appends to the two request logs: at most two
    attribute requests, all for the entity of the data source and none when
    that entity is the placeholder, and at most one template load. *)
Theorem getData_requests_bounded
  {num : Type} {N : Number num} {H : Host num}
  (settings : Settings.LevelCardWidgetSettings num) (datasource : EntityId)
  (c : Component num) :
  exists fetched loaded,
    attributeRequests (snd (getData settings datasource c))
    = (attributeRequests c ++ fetched)%list /\
    (List.length fetched <= 2)%nat /\
    (forall r, In r fetched ->
               fst r = mkEntityId (entityType datasource) (id datasource)) /\
    resourceRequests (snd (getData settings datasource c))
    = (resourceRequests c ++ loaded)%list /\
    (List.length loaded <= 1)%nat /\
    (fetched <> [] -> id datasource <> NULL_UUID).
Proof.
  pose proof (getData_run settings datasource c) as Hrun. cbv zeta in Hrun.
  rewrite Hrun. clear Hrun.
  set (entityId := mkEntityId (entityType datasource) (id datasource)).
  destruct (getShape_log settings entityId c) as (x1 & Ha1 & Hl1 & Hi1 & Hr1).
  assert (Hnull1 : x1 <> [] -> id datasource <> NULL_UUID).
  { intros Hx Hid. apply Hx. clear Hx. revert Ha1.
    rewrite (getShape_placeholder settings entityId c Hid). cbn [snd].
    intros E. rewrite <- (app_nil_r (attributeRequests c)) in E at 1.
    now apply app_inv_head in E. }
  destruct (getShape settings entityId c) as [[sh|] c0]; cbn [snd] in *.
  - destruct (svgMapping sh) as [params|].
    + destruct (loadJsonResource (svgUrl params)) as [markup|].
      * match goal with |- context [getSecondaryResources settings entityId ?y] =>
          set (c2 := y);
          destruct (getSecondaryResources_log settings entityId c2) as (x2 & Ha2 & Hl2 & Hi2 & Hr2)
        end.
        assert (Hnull2 : x2 <> [] -> id datasource <> NULL_UUID).
        { intros Hx Hid. apply Hx. clear Hx. revert Ha2.
          rewrite (getSecondaryResources_placeholder settings entityId c2 Hid). cbn [snd].
          intros E. rewrite <- (app_nil_r (attributeRequests c2)) in E at 1.
          now apply app_inv_head in E. }
        exists (x1 ++ x2)%list, [svgUrl params]. cbn [snd].
        rewrite Ha2, Hr2. subst c2. fields. rewrite Ha1, Hr1, app_assoc.
        split; [reflexivity|]. split; [rewrite length_app; lia|].
        split; [|split; [reflexivity|split; [simpl; lia|]]].
        -- intros r Hin. apply in_app_or in Hin. destruct Hin as [Hin|Hin].
           ++ now rewrite (Hi1 r Hin).
           ++ now rewrite (Hi2 r Hin).
        -- intros Hne. destruct x1 as [|a x1]; [apply Hnull2 | apply Hnull1]; try discriminate.
           destruct x2; [now elim Hne | discriminate].
      * exists x1, [svgUrl params]. cbn [snd]. fields. rewrite Ha1, Hr1.
        repeat split; try reflexivity; try assumption; try (simpl; lia).
        intros r Hin. now rewrite (Hi1 r Hin).
    + exists x1, []. cbn [snd]. fields. rewrite Ha1, Hr1, app_nil_r.
      repeat split; try reflexivity; try assumption; try (simpl; lia).
      intros r Hin. now rewrite (Hi1 r Hin).
  - exists x1, []. cbn [snd]. rewrite Ha1, Hr1, app_nil_r.
    repeat split; try reflexivity; try assumption; try (simpl; lia).
    intros r Hin. now rewrite (Hi1 r Hin).
Qed.

(** X9.  With the shape, the volume and the units all configured as static,
    [getData] makes no attribute request even for a real entity: the shape
    is the configured one, and what it emits is the loaded template with the
    configured volume constant and units. *)
Theorem static_configuration_never_fetches
  {num : Type} {N : Number num} {H : Host num}
  (settings : Settings.LevelCardWidgetSettings num) (datasource : EntityId)
  (c : Component num) :
  Settings.tankSelectionType settings = static ->
  Settings.volumeSource settings = static ->
  Settings.widgetUnitsSource settings = static ->
  attributeRequests (snd (getData settings datasource c)) = attributeRequests c /\
  shape (snd (getData settings datasource c)) = Str (Settings.selectedShape settings) /\
  svgParams (snd (getData settings datasource c))
  = svgMapping (Str (Settings.selectedShape settings) : any num) /\
  forall markup,
    option_map (@svgUrl num) (svgMapping (Str (Settings.selectedShape settings) : any num))
    = Some markup ->
    fst (getData settings datasource c)
    = option_map (fun m => Some (mkResources m (Num (Settings.volumeConstant settings))
                                             (Str (Settings.units settings))))
                 (loadJsonResource markup).
Proof.
  intros Ht Hv Hu.
  pose proof (getData_run settings datasource c) as Hrun. cbv zeta in Hrun.
  rewrite Hrun. clear Hrun.
  unfold getShape. rewrite Ht. cbn [LiquidWidgetDataSourceType_eqb andb of_].
  destruct (svgMapping (Str (Settings.selectedShape settings))) as [params|] eqn:Hm.
  - assert (Hsec : forall y, getSecondaryResources settings
                     (mkEntityId (entityType datasource) (id datasource)) y
                   = (Some (Num (Settings.volumeConstant settings),
                            Str (Settings.units settings)), y)).
    { intros y. apply getSecondaryResources_static; congruence. }
    destruct (loadJsonResource (svgUrl params)) as [m|] eqn:Hload.
    + rewrite Hsec. cbn [fst snd option_map]. fields.
      repeat split; try assumption.
      intros markup [= <-]. now rewrite Hload.
    + cbn [fst snd]. fields. repeat split; try assumption.
      intros markup [= <-]. now rewrite Hload.
  - cbn [fst snd]. fields. repeat split; try assumption. discriminate.
Qed.

Lemma static_configuration_never_fetches_witness :
  attributeRequests (snd (getData Sample.settings Sample.datasource Sample.fresh)) = [] /\
  shape (snd (getData Sample.settings Sample.datasource Sample.fresh))
  = Str "Vertical Cylinder".
Proof.
  destruct (@static_configuration_never_fetches _ _ _ Sample.settings Sample.datasource
              Sample.fresh eq_refl eq_refl eq_refl) as (Ha & Hs & _).
  split; [exact Ha | exact Hs].
Defined.

(** X10.  [getData] emits nothing exactly when the shape request fails, or
    a template is found and either its load or the request for the
    secondary values fails. *)
Theorem getData_emits_nothing_iff
  {num : Type} {N : Number num} {H : Host num}
  (settings : Settings.LevelCardWidgetSettings num) (datasource : EntityId)
  (c : Component num) :
  let entityId := mkEntityId (entityType datasource) (id datasource) in
  fst (getData settings datasource c) = None <->
  fst (getShape settings entityId c) = None \/
  exists sh params,
    fst (getShape settings entityId c) = Some sh /\
    svgMapping sh = Some params /\
    (loadJsonResource (svgUrl params) = None \/
     fst (getSecondaryResources settings entityId c) = None).
Proof.
  cbv zeta.
  pose proof (getData_run settings datasource c) as Hrun. cbv zeta in Hrun.
  rewrite Hrun. clear Hrun.
  set (entityId := mkEntityId (entityType datasource) (id datasource)).
  destruct (getShape settings entityId c) as [[sh|] c0]; cbn [fst].
  - destruct (svgMapping sh) as [params|] eqn:Hm.
    + destruct (loadJsonResource (svgUrl params)) as [markup|] eqn:Hload; cbn [fst].
      * match goal with |- context [getSecondaryResources settings entityId ?y] =>
          rewrite (getSecondaryResources_emits settings entityId y c)
        end.
        destruct (fst (getSecondaryResources settings entityId c)) as [vu|] eqn:Hsec;
          cbn [option_map]; split.
        -- discriminate.
        -- intros [Hn | (sh' & params' & [= <-] & Hm' & [Hl | Hs])]; try discriminate.
           rewrite Hm in Hm'. injection Hm' as <-. congruence.
        -- intros _. right. exists sh, params. auto.
        -- reflexivity.
      * split; [|reflexivity]. intros _. right. exists sh, params. auto.
    + split; [discriminate|].
      intros [Hn | (sh' & params' & [= <-] & Hm' & _)]; congruence.
  - split; [now left | reflexivity].
Qed.

Section Init.
Context {num : Type} {N : Number num} {H : Host num}.
Variable convertLiters : num -> any num -> ConversionType -> num.
Variable settings : Settings.LevelCardWidgetSettings num.
Implicit Types (c : Component num).

Lemma getData_resources datasource c r c1 :
  getData settings datasource c = (Some (Some r), c1) ->
  svg c1 = svg c /\ exists params, svgParams c1 = Some params.
Proof.
  unfold getData, switchMap.
  pose proof (getShape_frame settings (mkEntityId (entityType datasource) (id datasource)) c)
    as (Fs & _).
  destruct (getShape settings _ c) as [[sh|] c0]; [|discriminate].
  cbn [snd] in Fs. fields.
  destruct (svgMapping sh) as [params|] eqn:Hm; [|discriminate].
  unfold loadSVG. destruct (loadJsonResource (svgUrl params)); [|discriminate].
  unfold map_, getSecondaryResources, attributeService_getEntityAttributes, of_.
  destruct (_ || _); [|destruct (getEntityAttributes _ _)];
    cbn [option_map]; intros [= _ <-]; fields; (split; [exact Fs | now exists params]).
Qed.

Lemma getData_svg datasource c :
  svg (snd (getData settings datasource c)) = svg c.
Proof.
  unfold getData, switchMap.
  pose proof (getShape_frame settings (mkEntityId (entityType datasource) (id datasource)) c)
    as (Fs & _).
  destruct (getShape settings _ c) as [[sh|] c0]; cbn [snd] in *; [|exact Fs].
  fields. destruct (svgMapping sh) as [params|]; [|exact Fs].
  unfold loadSVG. destruct (loadJsonResource (svgUrl params)); [|exact Fs].
  unfold map_, getSecondaryResources, attributeService_getEntityAttributes, of_.
  destruct (_ || _); exact Fs.
Qed.

(** [getData] leaves the container and everything but [shape], [svgParams]
    and the two logs as they were. *)
Lemma getData_keeps (datasource : EntityId) c :
  svg (snd (getData settings datasource c)) = svg c /\
  dom (snd (getData settings datasource c)) = dom c /\
  volume (snd (getData settings datasource c)) = volume c /\
  widgetUnits (snd (getData settings datasource c)) = widgetUnits c.
Proof.
  pose proof (getData_run settings datasource c) as Hrun. cbv zeta in Hrun.
  rewrite Hrun. clear Hrun.
  set (entityId := mkEntityId (entityType datasource) (id datasource)).
  destruct (getShape_keeps settings entityId c eq_refl) as (A1 & A2 & A3 & A4 & _).
  destruct (getShape settings entityId c) as [[sh|] c0]; cbn [snd] in *; [|auto].
  destruct (svgMapping sh) as [params|]; [|cbn [snd]; fields; auto].
  destruct (loadJsonResource (svgUrl params)); cbn [snd]; [|fields; auto].
  match goal with |- context [getSecondaryResources settings entityId ?y] =>
    destruct (getSecondaryResources_keeps settings entityId y eq_refl) as (B1 & B2 & B3 & B4 & _)
  end.
  rewrite B1, B2, B3, B4. fields. auto.
Qed.

Lemma declareStyles_keeps c :
  svg (declareStyles settings c) = svg c /\ dom (declareStyles settings c) = dom c /\
  volume (declareStyles settings c) = volume c /\
  widgetUnits (declareStyles settings c) = widgetUnits c /\
  requestsOf (declareStyles settings c) = requestsOf c.
Proof. now repeat split. Qed.

Lemma settled_template r x c1 params :
  svgParams c1 = Some params ->
  (x = c1 \/ exists markup, x = rendering convertLiters settings markup c1) ->
  svgParams (settling r x) = Some params.
Proof.
  intros Hp Hx. destruct (settling_keeps r x) as (_ & -> & _).
  destruct Hx as [-> | [markup ->]]; [exact Hp|].
  destruct (rendering_keeps convertLiters settings markup c1) as (_ & -> & _). exact Hp.
Qed.

(** What the subscriber hands to the first tick has the parameters of its
    template. *)
Lemma subscribed_template r c1 params :
  svgParams c1 = Some params ->
  svgParams (settling r (match r_svg r with
                         | Str markup =>
                             if truthyStr markup
                             then rendering convertLiters settings markup c1 else c1
                         | _ => c1
                         end)) = Some params.
Proof.
  intros Hp. apply settled_template with (c1 := c1); [exact Hp|].
  destruct (r_svg r) as [ | |n|markup|b| ]; try now left.
  destruct (truthyStr markup); [right; now exists markup | now left].
Qed.

(** With digits that [toFixed] takes, [ngOnInit] returns: when its
    subscriber reaches [update(true)] the parameters of the template are in
    place. *)
Lemma ngOnInit_total (datasource : EntityId) ctxData c :
  accepts (orZero (Settings.decimals settings)) ->
  accepts (Settings.tooltipLevelDecimals settings) ->
  exists c', ngOnInit convertLiters settings datasource ctxData c = Some c'.
Proof.
  intros Hd Ht. unfold ngOnInit.
  destruct (getData settings datasource (declareStyles settings c)) as [[[r|]|] c1] eqn:Hg;
    [|now eexists ..].
  apply getData_resources in Hg. destruct Hg as (_ & params & Hp).
  rewrite onData_steps.
  eapply update_returns; [exact Hd | exact Ht | exact (@subscribed_template r c1 params Hp)].
Qed.

(** Once [ngOnInit] is over, a component that has an [svg] has the
    parameters of its template. *)
Lemma ngOnInit_rendered datasource ctxData c c' :
  svg c = None ->
  ngOnInit convertLiters settings datasource ctxData c = Some c' ->
  svg c' <> None -> exists params, svgParams c' = Some params.
Proof.
  intros Hs. unfold ngOnInit.
  pose proof (getData_svg datasource (declareStyles settings c)) as Hsvg.
  destruct (getData settings datasource (declareStyles settings c)) as [[[r|]|] c1] eqn:Hg;
    cbn [snd] in Hsvg.
  - apply getData_resources in Hg. destruct Hg as (_ & params & Hp).
    rewrite onData_steps. intros Hu _. exists params.
    apply update_resolved in Hu. destruct Hu as [Hr _].
    apply resolvedOf_fields in Hr. destruct Hr as (-> & _).
    exact (@subscribed_template r c1 params Hp).
  - intros [= <-] Hn. exfalso. apply Hn. rewrite Hsvg. exact Hs.
  - intros [= <-] Hn. exfalso. apply Hn. rewrite Hsvg. exact Hs.
Qed.

Lemma updates_run ticks c :
  accepts (orZero (Settings.decimals settings)) ->
  accepts (Settings.tooltipLevelDecimals settings) ->
  (svg c = None \/ exists params, svgParams c = Some params) ->
  exists c', updates convertLiters settings ticks c = Some c' /\
             resolvedOf c' = resolvedOf c /\ requestsOf c' = requestsOf c.
Proof.
  intros Hd Ht. revert c.
  induction ticks as [|[ctxData ignoreAnimation] ticks IH]; intros c Hinv; simpl.
  - exists c. now repeat split.
  - assert (Hu : exists c1, update convertLiters settings ctxData ignoreAnimation c = Some c1).
    { destruct Hinv as [Hs | [params Hp]].
      - exists c. now apply update_unrendered.
      - eapply update_returns; eassumption. }
    destruct Hu as [c1 Hu]. rewrite Hu.
    destruct (update_resolved convertLiters settings _ _ _ Hu) as (R1 & R2).
    destruct (resolvedOf_fields R1) as (Ep & Es & _).
    destruct (IH c1) as (c' & Hrun & S1 & S2).
    { destruct Hinv as [Hs | [params Hp]]; [left | right; exists params]; congruence. }
    exists c'. split; [exact Hrun|]. split; congruence.
Qed.
End Init.


(** The sample [toFixed] takes the digits whose integer is within 0..100. *)
Lemma sample_toFixed_in_range (x digits : float) (f : Z) :
  Sample.toInteger digits = Some f ->
  ((0 <=? f) && (f <=? 100))%Z = true ->
  Sample.toFixed x digits <> None.
Proof. unfold Sample.toFixed. intros -> ->. discriminate. Qed.

(** The digits of the sample configuration are 0 and 0. *)
Lemma sample_accepts_decimals :
  @accepts float Sample.host (orZero (Settings.decimals Sample.settings)).
Proof. intros x. apply (@sample_toFixed_in_range x _ 0%Z); reflexivity. Qed.

Lemma sample_accepts_tooltipLevelDecimals :
  @accepts float Sample.host (Settings.tooltipLevelDecimals Sample.settings).
Proof. intros x. apply (@sample_toFixed_in_range x _ 0%Z); reflexivity. Qed.




(** X13.  When resolution emits nothing (a request failed), [ngOnInit]
    returns without rendering: no svg, the container, the capacity and the
    units untouched, and every later run of ticks is a no-op. *)
Theorem resolution_failure_is_silent
  {num : Type} {N : Number num} {H : Host num}
  (convertLiters : num -> any num -> ConversionType -> num)
  (settings : Settings.LevelCardWidgetSettings num) (datasource : EntityId)
  (ctxData : list (list (num * any num))) (c : Component num) :
  svg c = None ->
  fst (getData settings datasource (declareStyles settings c)) = None ->
  exists c',
    ngOnInit convertLiters settings datasource ctxData c = Some c' /\
    svg c' = None /\ dom c' = dom c /\
    volume c' = volume c /\ widgetUnits c' = widgetUnits c /\
    forall ticks, updates convertLiters settings ticks c' = Some c'.
Proof.
  intros Hs Hd. unfold ngOnInit.
  destruct (getData_keeps settings datasource (declareStyles settings c))
    as (K1 & K2 & K3 & K4).
  destruct (declareStyles_keeps settings c) as (E1 & E2 & E3 & E4 & _).
  rewrite E1 in K1. rewrite E2 in K2. rewrite E3 in K3. rewrite E4 in K4.
  destruct (getData settings datasource (declareStyles settings c)) as [[r|] c1];
    cbn [fst snd] in *; [discriminate|].
  exists c1. split; [reflexivity|].
  assert (Hs1 : svg c1 = None) by congruence.
  repeat split; try congruence.
  intros ticks. now apply updates_unrendered.
Qed.

(** The sample configuration when neither service answers. *)
Lemma resolution_failure_is_silent_witness :
  exists c',
    ngOnInit Sample.convertLiters
             (SampleMore.settingsOn SampleMore.noAttributes SampleMore.noResource
                                    static static static)
             Sample.datasource [[(1000%float, Num 50%float)]]
             (SampleMore.freshOn SampleMore.noAttributes SampleMore.noResource) = Some c' /\
    svg c' = None /\ dom c' = [] /\
    updates Sample.convertLiters
            (SampleMore.settingsOn SampleMore.noAttributes SampleMore.noResource
                                   static static static)
            [([[(2000%float, Num 60%float)]], false)] c' = Some c'.
Proof.
  destruct (@resolution_failure_is_silent _ _ _ Sample.convertLiters
              (SampleMore.settingsOn SampleMore.noAttributes SampleMore.noResource
                                     static static static)
              Sample.datasource [[(1000%float, Num 50%float)]]
              (SampleMore.freshOn SampleMore.noAttributes SampleMore.noResource)
              eq_refl eq_refl) as (c' & Hi & Hs & Hd & _ & _ & Hu).
  exists c'. split; [exact Hi|]. split; [exact Hs|]. split; [exact Hd|]. apply Hu.
Defined.



(** X15.  When the loaded template is not a non-empty string nothing is
    rendered (no svg, the container untouched), but the volume and the units
    are still taken, under the same guards. *)
Theorem ngOnInit_unusable_markup
  {num : Type} {N : Number num} {H : Host num}
  (convertLiters : num -> any num -> ConversionType -> num)
  (settings : Settings.LevelCardWidgetSettings num) (datasource : EntityId)
  (ctxData : list (list (num * any num))) (c : Component num) (r : Resources num) :
  svg c = None ->
  fst (getData settings datasource (declareStyles settings c)) = Some (Some r) ->
  truthy (r_svg r) && isString (r_svg r) = false ->
  exists c',
    ngOnInit convertLiters settings datasource ctxData c = Some c' /\
    svg c' = None /\ dom c' = dom c /\
    volume c' = (if isDefined (r_volume r) && negb (nisNaN (toNumber (r_volume r)))
                 then toNumber (r_volume r) else volume c) /\
    widgetUnits c' = (if truthy (r_units r) then r_units r else widgetUnits c).
Proof.
  intros Hs Hd Hm. unfold ngOnInit.
  destruct (getData_keeps settings datasource (declareStyles settings c))
    as (K1 & K2 & K3 & K4).
  destruct (declareStyles_keeps settings c) as (E1 & E2 & E3 & E4 & _).
  rewrite E1 in K1. rewrite E2 in K2. rewrite E3 in K3. rewrite E4 in K4.
  destruct (getData settings datasource (declareStyles settings c)) as [d c1].
  cbn [fst snd] in *. subst d. rewrite onData_steps.
  assert (Hx : match r_svg r with
               | Str markup =>
                   if truthyStr markup then rendering convertLiters settings markup c1 else c1
               | _ => c1
               end = c1).
  { destruct (r_svg r) as [ | |n|markup|b| ]; try reflexivity.
    cbn [truthy isString] in Hm. rewrite andb_true_r in Hm. now rewrite Hm. }
  rewrite Hx.
  destruct (settling_keeps r c1) as (S1 & S2 & S3 & S4 & S5 & S6 & S7).
  rewrite update_unrendered by congruence.
  eexists. split; [reflexivity|]. rewrite S1, S5, S6, S7, K1, K2, K3, K4.
  now repeat split.
Qed.

(** The sample configuration when the loader answers with an empty
    document. *)
Lemma ngOnInit_unusable_markup_witness :
  exists c',
    ngOnInit Sample.convertLiters
             (SampleMore.settingsOn SampleMore.noAttributes SampleMore.emptyResource
                                    static static static)
             Sample.datasource [[(1000%float, Num 50%float)]]
             (SampleMore.freshOn SampleMore.noAttributes SampleMore.emptyResource) = Some c' /\
    svg c' = None /\ dom c' = [] /\ volume c' = 200%float /\ widgetUnits c' = Str "%".
Proof.
  destruct (@ngOnInit_unusable_markup _ _ _ Sample.convertLiters
              (SampleMore.settingsOn SampleMore.noAttributes SampleMore.emptyResource
                                     static static static)
              Sample.datasource [[(1000%float, Num 50%float)]]
              (SampleMore.freshOn SampleMore.noAttributes SampleMore.emptyResource)
              (mkResources (Str "") (Num 200%float) (Str "%"))
              eq_refl eq_refl eq_refl) as (c' & Hi & Hs & Hd & Hv & Hw).
  exists c'. split; [exact Hi|]. split; [exact Hs|]. split; [exact Hd|].
  split; [exact Hv | exact Hw].
Defined.

(** X16.  On a real entity with the volume or the units driven by an
    attribute, the secondary values cost one request, for the names of the
    attribute-driven values only (volume first); what is emitted are the
    values extracted from the answer, and nothing when the request fails. *)
Theorem secondary_values_one_combined_fetch
  {num : Type} {N : Number num} {H : Host num}
  (settings : Settings.LevelCardWidgetSettings num) (entityId : EntityId)
  (c : Component num) :
  id entityId <> NULL_UUID ->
  Settings.volumeSource settings = attribute \/
  Settings.widgetUnitsSource settings = attribute ->
  let names :=
    ((if LiquidWidgetDataSourceType_eqb (Settings.volumeSource settings) attribute
      then [Settings.volumeAttributeName settings] else [])
     ++ (if LiquidWidgetDataSourceType_eqb (Settings.widgetUnitsSource settings) attribute
         then [Settings.widgetUnitsAttributeName settings] else []))%list in
  attributeRequests (snd (getSecondaryResources settings entityId c))
  = (attributeRequests c ++ [(entityId, names)])%list /\
  fst (getSecondaryResources settings entityId c)
  = option_map
      (fun attributes =>
         (extractValue attributes (Settings.volumeAttributeName settings)
                       (Num (Settings.volumeConstant settings)),
          extractValue attributes (Settings.widgetUnitsAttributeName settings)
                       (Str (Settings.units settings))))
      (getEntityAttributes entityId names).
Proof.
  intros Hid Hsrc. cbv zeta. rewrite <- prepareAttributeNames_cases.
  unfold getSecondaryResources.
  assert (Hn : (List.length (prepareAttributeNames settings) =? 0)%nat = false).
  { rewrite prepareAttributeNames_cases.
    destruct Hsrc as [-> | ->]; cbn [LiquidWidgetDataSourceType_eqb].
    - reflexivity.
    - destruct (LiquidWidgetDataSourceType_eqb _ _); reflexivity. }
  apply String.eqb_neq in Hid. rewrite Hn, Hid. cbn [orb].
  unfold map_, attributeService_getEntityAttributes. cbn [fst snd]. fields.
  split; reflexivity.
Qed.

(** The sample configuration with the volume driven by an attribute, on a
    service that answers 350. *)
Lemma secondary_values_one_combined_fetch_witness :
  attributeRequests
    (snd (getSecondaryResources
            (SampleMore.settingsOn SampleMore.volumeOnly SampleMore.noResource
                                   static attribute static)
            Sample.datasource
            (SampleMore.freshOn SampleMore.volumeOnly SampleMore.noResource)))
  = [(Sample.datasource, ["volume"])] /\
  fst (getSecondaryResources
         (SampleMore.settingsOn SampleMore.volumeOnly SampleMore.noResource
                                static attribute static)
         Sample.datasource
         (SampleMore.freshOn SampleMore.volumeOnly SampleMore.noResource))
  = Some (Num 350%float, Str "%").
Proof.
  apply (@secondary_values_one_combined_fetch _ _ _
           (SampleMore.settingsOn SampleMore.volumeOnly SampleMore.noResource
                                  static attribute static)
           Sample.datasource
           (SampleMore.freshOn SampleMore.volumeOnly SampleMore.noResource)).
  - discriminate.
  - left. reflexivity.
Defined.

Lemma objGet_objRemove_same (V : Type) (k : string) (o : obj V) :
  objGet k (objRemove k o) = None.
Proof.
  induction o as [|[k' v'] o IH]; simpl; [reflexivity|].
  destruct (String.eqb k k') eqn:E; simpl; [exact IH | now rewrite E].
Qed.

Lemma objGet_objRemove_other (V : Type) (k k0 : string) (o : obj V) :
  k <> k0 -> objGet k (objRemove k0 o) = objGet k o.
Proof.
  intros Hk. induction o as [|[k' v'] o IH]; simpl; [reflexivity|].
  destruct (String.eqb k0 k') eqn:E; simpl.
  - apply String.eqb_eq in E. subst k'. apply String.eqb_neq in Hk. now rewrite Hk.
  - now rewrite IH.
Qed.

(** X17.  [updateShapeColor] updates the tank colour with the value and
    paints with it the stroke of every tb-shape-stroke element and the fill
    of every tb-shape-fill element; it moves nothing, leaves the inner HTML
    alone, and leaves an element of neither class as it is. *)
Theorem updateShapeColor_elements
  {num : Type} {N : Number num} {H : Host num}
  (value : num) (c : Component num) (i : nat) (e : Element num) :
  nth_error (dom c) i = Some e ->
  let tank := color (ColorProcessor_update (tankColor c) (Num value)) in
  tankColor (updateShapeColor value c) = ColorProcessor_update (tankColor c) (Num value) /\
  exists e',
    nth_error (dom (updateShapeColor value c)) i = Some e' /\
    (hasClass "tb-shape-stroke" e = true -> objGet "stroke" (attrs e') = Some tank) /\
    (hasClass "tb-shape-fill" e = true -> objGet "fill" (attrs e') = Some tank) /\
    (hasClass "tb-shape-stroke" e = false -> objGet "stroke" (attrs e') = objGet "stroke" (attrs e)) /\
    (hasClass "tb-shape-fill" e = false -> objGet "fill" (attrs e') = objGet "fill" (attrs e)) /\
    (hasClass "tb-shape-stroke" e = false -> hasClass "tb-shape-fill" e = false -> e' = e) /\
    unmoved e e' /\ html e' = html e.
Proof.
  intros He. cbv zeta. split; [reflexivity|].
  unfold updateShapeColor. cbv zeta. fields.
  rewrite nth_error_each, selected_findClass.
  rewrite nth_error_each, selected_findClass, He. cbn [option_map].
  eexists. split; [reflexivity|].
  destruct (hasClass "tb-shape-stroke" e), (hasClass "tb-shape-fill" e); cbn;
    repeat split; try discriminate; try reflexivity;
    intros; rewrite ?objGet_objSet_same; try reflexivity;
    rewrite ?objGet_objSet_other by discriminate;
    rewrite ?objGet_objSet_same; reflexivity.
Qed.

(** The outline of the sample tank is stroked with the tank colour. *)
Lemma updateShapeColor_elements_witness :
  exists e',
    nth_error (dom (updateShapeColor 50%float Sample.running)) 1 = Some e' /\
    objGet "stroke" (attrs e') = Some "silver".
Proof.
  destruct (@updateShapeColor_elements _ _ _ 50%float Sample.running 1%nat
              (Sample.element "path" ["tb-shape-stroke"]) eq_refl)
    as (_ & e' & He' & Hs & _).
  exists e'. split; [exact He'|]. exact (Hs eq_refl).
Defined.

(** X18.  [createValueElement] selects the overlay of the configured layout
    (none for the layout without numeric overlay), hides the overlay of the
    other layout, and the selected one too when the background overlay is
    switched off, or every overlay when there is no numeric overlay; the
    elements of the selected overlay get the overlay colour as fill and lose
    their fill-opacity, the attributes of the others are untouched. *)
Theorem createValueElement_overlays
  {num : Type} {N : Number num} {H : Host num}
  (settings : Settings.LevelCardWidgetSettings num)
  (c : Component num) (i : nat) (e : Element num) :
  nth_error (dom c) i = Some e ->
  let c' := createValueElement settings c in
  overlayContainer c'
  = match Settings.layout settings with
    | absolute => Some (findClass "absolute-overlay" (dom c))
    | percentage => Some (findClass "percentage-overlay" (dom c))
    | none => overlayContainer c
    end /\
  exists e',
    nth_error (dom c') i = Some e' /\
    objGet "visibility" (style e')
    = (if hiddenBy settings e then Some (Str "hidden") else objGet "visibility" (style e)) /\
    (if inOverlay c' i
     then objGet "fill" (attrs e') = Some (color (backgroundOverlayColor c)) /\
          objGet "fill-opacity" (attrs e') = None
     else attrs e' = attrs e) /\
    html e' = html e /\ animations e' = animations e.
Proof.
  intros He. cbv zeta. unfold createValueElement, hiddenBy, inOverlay. cbv zeta.
  unfold jq_css, jq_attr, jq_removeAttr.
  destruct (Settings.layout settings), (Settings.showBackgroundOverlay settings);
    cbn [negb andb]; rewrite ?orb_false_r; fields;
    try (destruct (overlayContainer c) as [o|] eqn:Ho; fields; rewrite ?Ho);
    (split; [reflexivity|]);
    rewrite ?nth_error_each, ?selected_findClass, He; cbn [option_map];
    (eexists; split; [reflexivity|]);
    repeat match goal with
           | |- context [hasClass ?cls e] =>
               let b := fresh "b" in destruct (hasClass cls e) eqn:b
           | |- context [selected i ?o] =>
               let b := fresh "b" in destruct (selected i o) eqn:b
           end;
    cbn; repeat split;
    rewrite ?objGet_objSet_same, ?objGet_objRemove_same; try reflexivity;
    try (rewrite objGet_objSet_other by discriminate;
         rewrite ?objGet_objSet_same; reflexivity);
    try (rewrite objGet_objRemove_other by discriminate;
         rewrite ?objGet_objSet_same; reflexivity).
Qed.

(** In the percentage layout of the sample widget the overlay of the
    absolute layout is hidden and the percentage overlay is the one kept. *)
Lemma createValueElement_overlays_witness :
  overlayContainer (createValueElement Sample.settings Sample.running) = Some [4%nat] /\
  exists e',
    nth_error (dom (createValueElement Sample.settings Sample.running)) 6 = Some e' /\
    objGet "visibility" (style e') = Some (Str "hidden").
Proof.
  destruct (@createValueElement_overlays _ _ _ Sample.settings Sample.running 6%nat
              (mkElement "rect" ["container-overlay"; "absolute-overlay"] []
                         [("visibility", Str "hidden")] [] None false) eq_refl)
    as (Ho & e' & He' & Hv & _).
  split; [exact Ho|]. exists e'. split; [exact He'|]. exact Hv.
Defined.

(** ** What throws *)




